(** * mcedit2.util.minecraftinstall: installation discovery and resource-loader layering

    A shallow embedding of [src/mcedit2/util/minecraftinstall.py].

    - Python [unicode] strings are [string]s (sequences of 8-bit code points).
    - The file system, the INI files read through [QSettings] and the
      platform constant [directories.minecraftDir] form a read-only
      environment [Env]: one snapshot of the machine.
    - The option store of [mcedit2.util.settings], the module global
      [_installs] and the log are the mutable state, threaded through a
      state-and-exception monad [M].
    - A Python exception is a value of [exn]; a function that can raise
      returns a [Result]. *)

From Stdlib Require Import String Ascii List ZArith Bool Lia.
Import ListNotations.

Open Scope string_scope.
Open Scope Z_scope.

(** ** Characters and strings *)

Definition newline : ascii := ascii_of_nat 10.

Definition isdigit (c : ascii) : bool :=
  ((48 <=? nat_of_ascii c) && (nat_of_ascii c <=? 57))%nat.

(** Code points below 256 that Python 2 treats as white space in a
    [unicode] string. *)
Definition isspace (c : ascii) : bool :=
  let n := nat_of_ascii c in
  (((9 <=? n) && (n <=? 13)) || ((28 <=? n) && (n <=? 32))
   || (n =? 133) || (n =? 160))%nat.

Definition not_newline (c : ascii) : bool := negb (Ascii.eqb c newline).

Definition str_nonempty (s : string) : bool :=
  match s with EmptyString => false | String _ _ => true end.

Fixpoint str_forallb (f : ascii -> bool) (s : string) : bool :=
  match s with
  | EmptyString => true
  | String c s' => f c && str_forallb f s'
  end.

Fixpoint lstrip (f : ascii -> bool) (s : string) : string :=
  match s with
  | EmptyString => EmptyString
  | String c s' => if f c then lstrip f s' else s
  end.

Fixpoint rstrip (f : ascii -> bool) (s : string) : string :=
  match s with
  | EmptyString => EmptyString
  | String c s' =>
      match rstrip f s' with
      | EmptyString => if f c then EmptyString else String c EmptyString
      | r => String c r
      end
  end.

(** [s[1:]] *)
Definition slice_from_1 (s : string) : string :=
  match s with EmptyString => EmptyString | String _ s' => s' end.

(** [s.startswith(p)] *)
Definition startswith (s p : string) : bool := String.prefix p s.

Fixpoint endswith_char (s : string) (c0 : ascii) : bool :=
  match s with
  | EmptyString => false
  | String c EmptyString => Ascii.eqb c c0
  | String _ s' => endswith_char s' c0
  end.

(** ** [int(s)] on a decimal literal *)

Definition digit_value (c : ascii) : Z := Z.of_nat (nat_of_ascii c) - 48.

Fixpoint digits_value (acc : Z) (s : string) : Z :=
  match s with
  | EmptyString => acc
  | String c s' => digits_value (10 * acc + digit_value c) s'
  end.

Definition digits_to_Z (s : string) : option Z :=
  if str_nonempty s && str_forallb isdigit s then Some (digits_value 0 s) else None.

(** Python's [int(s)]: surrounding white space is dropped, one sign is
    allowed, then at least one decimal digit and nothing else;
    [None] stands for [ValueError].  Python integers are unbounded. *)
Definition py_int (s : string) : option Z :=
  match rstrip isspace (lstrip isspace s) with
  | String "+" d => digits_to_Z d
  | String "-" d => option_map Z.opp (digits_to_Z d)
  | t => digits_to_Z t
  end.

(** ** [os.path] (POSIX flavour) *)

Definition slash : ascii := "/"%char.
Definition is_slash (c : ascii) : bool := Ascii.eqb c slash.

Fixpoint has_slash (s : string) : bool :=
  match s with
  | EmptyString => false
  | String c s' => is_slash c || has_slash s'
  end.

Definition isabs (p : string) : bool := startswith p "/".

(** [os.path.join(a, b)] *)
Definition join (a b : string) : string :=
  if startswith b "/" then b
  else if negb (str_nonempty a) || endswith_char a slash then a ++ b
  else a ++ "/" ++ b.

(** [os.path.join(a, b, c)] *)
Definition join3 (a b c : string) : string := join (join a b) c.

(** [p[:i]] and [p[i:]] for [i = p.rfind('/') + 1] *)
Fixpoint upto_last_slash (p : string) : string :=
  match p with
  | EmptyString => EmptyString
  | String c p' => if has_slash p then String c (upto_last_slash p') else EmptyString
  end.

Fixpoint after_last_slash (p : string) : string :=
  match p with
  | EmptyString => EmptyString
  | String _ p' => if has_slash p then after_last_slash p' else p
  end.

Definition dirname (p : string) : string :=
  let head := upto_last_slash p in
  if str_nonempty head && negb (str_forallb is_slash head)
  then rstrip is_slash head
  else head.

Definition basename (p : string) : string := after_last_slash p.

(** [s.split('/')] *)
Fixpoint split_slash (s : string) : list string :=
  match s with
  | EmptyString => [EmptyString]
  | String c s' =>
      if is_slash c then EmptyString :: split_slash s'
      else match split_slash s' with
           | h :: t => String c h :: t
           | [] => [String c EmptyString]
           end
  end.

(** The component loop of [normpath]; [new_comps] is kept reversed, its
    head is Python's [new_comps[-1]]. *)
Fixpoint normpath_comps (initial_slashes : nat) (comps new_comps : list string)
  : list string :=
  match comps with
  | [] => rev new_comps
  | comp :: comps' =>
      if String.eqb comp "" || String.eqb comp "." then
        normpath_comps initial_slashes comps' new_comps
      else if negb (String.eqb comp "..")
              || (Nat.eqb initial_slashes 0
                  && match new_comps with [] => true | _ => false end)
              || match new_comps with
                 | top :: _ => String.eqb top ".."
                 | [] => false
                 end
      then normpath_comps initial_slashes comps' (comp :: new_comps)
      else match new_comps with
           | _ :: popped => normpath_comps initial_slashes comps' popped
           | [] => normpath_comps initial_slashes comps' new_comps
           end
  end.

Fixpoint repeat_slash (n : nat) : string :=
  match n with O => EmptyString | S n' => String slash (repeat_slash n') end.

(** [os.path.normpath(path)] *)
Definition normpath (path : string) : string :=
  if negb (str_nonempty path) then "."
  else
    let initial_slashes :=
      if startswith path "/" then
        if startswith path "//" && negb (startswith path "///") then 2%nat
        else 1%nat
      else 0%nat in
    let comps := normpath_comps initial_slashes (split_slash path) [] in
    let joined := repeat_slash initial_slashes ++ String.concat "/" comps in
    if str_nonempty joined then joined else ".".

(** ** The regular expression of [splitVersion]

    The pattern searched by [re.search] has three groups: one or more
    digits, then a literal dot, one or more digits, and any run of
    characters other than a line feed.  This is a backtracking matcher
    for the three constructs the pattern uses.  A continuation receives
    the text a construct matched and the text that is left; a greedy
    repetition offers the longest match first and gives characters back
    one at a time when the continuation fails. *)

Section Regex.
Context {R : Type}.

(** [cls*], greedy *)
Fixpoint re_star (cls : ascii -> bool) (s : string)
         (k : string -> string -> option R) : option R :=
  match s with
  | String c s' =>
      if cls c then
        match re_star cls s' (fun m rest => k (String c m) rest) with
        | Some r => Some r
        | None => k EmptyString s
        end
      else k EmptyString s
  | EmptyString => k EmptyString s
  end.

(** [cls+], greedy *)
Definition re_plus (cls : ascii -> bool) (s : string)
           (k : string -> string -> option R) : option R :=
  match s with
  | String c s' =>
      if cls c then re_star cls s' (fun m rest => k (String c m) rest)
      else None
  | EmptyString => None
  end.

(** one literal character *)
Definition re_char (c0 : ascii) (s : string) (k : string -> option R)
  : option R :=
  match s with
  | String c s' => if Ascii.eqb c c0 then k s' else None
  | EmptyString => None
  end.
End Regex.

(** The pattern anchored at the start of [s]; the result is
    [match.groups()]. *)
Definition re_match_here (s : string) : option (list string) :=
  re_plus isdigit s (fun g0 s1 =>
  re_char "." s1 (fun s2 =>
  re_plus isdigit s2 (fun g1 s3 =>
  re_star not_newline s3 (fun g2 _ =>
  Some [g0; g1; g2])))).

(** [re.search]: the leftmost start position at which the pattern matches. *)
Fixpoint re_search (s : string) : option (list string) :=
  match re_match_here s with
  | Some groups => Some groups
  | None =>
      match s with
      | String _ s' => re_search s'
      | EmptyString => None
      end
  end.

(** ** Version identifiers *)

Definition splitVersion (version : string) : Z * Z * string :=
  match re_search version with
  | None => (0, 0, "")
  | Some groups =>
      if (length groups <? 2)%nat then (0, 0, "")
      else if (length groups <? 3)%nat then
        match py_int (nth 0 groups ""), py_int (nth 1 groups "") with
        | Some major, Some minor => (major, minor, "")
        | _, _ => (0, 0, "")            (* except ValueError *)
        end
      else
        match py_int (nth 0 groups ""), py_int (nth 1 groups "") with
        | Some major, Some minor => (major, minor, nth 2 groups "")
        | _, _ => (0, 0, "")            (* except ValueError *)
        end
  end.

Definition usableVersion (version : string) : bool :=
  let '(major, minor, rev) := splitVersion version in
  if major <? 1 then false
  else if minor <? 6 then false
  else true.

(** Python's ordering of pairs of integers: [(a, b) >= (c, d)]. *)
Definition pair_ge (x y : Z * Z) : bool :=
  (fst y <? fst x) || ((fst x =? fst y) && (snd y <=? snd x)).

(** [(a, b) != (c, d)] *)
Definition pair_ne (x y : Z * Z) : bool :=
  negb ((fst x =? fst y) && (snd x =? snd y)).

(** ** The environment: file system, INI files, platform constants *)

Record Env := {
  (** [os.path.exists] *)
  path_exists : string -> bool;
  (** [os.path.isdir] *)
  path_isdir : string -> bool;
  (** [os.listdir]; [None] when it raises [OSError] *)
  listdir : string -> option (list string);
  (** [zipfile.is_zipfile] *)
  is_zipfile : string -> bool;
  (** whether the file can be opened as a zip archive *)
  zip_opens : string -> bool;
  (** hex MD5 digest of a file's bytes *)
  file_md5 : string -> string;
  (** [QSettings(file, IniFormat)]: the value stored under a key, if any *)
  ini_value : string -> string -> option string;
  (** [directories.minecraftDir] *)
  minecraftDir : string
}.

(** ** Exceptions and results *)

Inductive exn : Type :=
| MCInstallError (message : string)
| MultiMCInstallError (message : string)
| MultiMCInstanceError (message : string)
| OSError (filename : string)
| IOError (filename : string)
| TypeError
| IndexError.

Inductive Result (A : Type) : Type :=
| Ok (a : A)
| Raise (e : exn).
Arguments Ok {A} a.
Arguments Raise {A} e.

Definition bindR {A B} (r : Result A) (k : A -> Result B) : Result B :=
  match r with
  | Ok a => k a
  | Raise e => Raise e
  end.

(** A [for] loop whose body may [return]: the body answers [Some b] to
    return [b] from the enclosing function and [None] to go on. *)
Fixpoint for_return {A B} (xs : list A) (body : A -> Result (option B))
  : Result (option B) :=
  match xs with
  | [] => Ok None
  | x :: xs' =>
      bindR (body x) (fun r =>
      match r with
      | Some b => Ok (Some b)
      | None => for_return xs' body
      end)
  end.

(** [del xs[index]]: a negative index counts from the end of the list;
    [None] stands for [IndexError]. *)
Definition py_del {A} (xs : list A) (index : Z) : option (list A) :=
  let n := Z.of_nat (length xs) in
  let i := if index <? 0 then index + n else index in
  if (i <? 0) || (n <=? i) then None
  else Some (firstn (Z.to_nat i) xs ++ skipn (S (Z.to_nat i)) xs)%list.

(** ** Persisted settings *)

(** The JSON object with keys [name] and [path]. *)
Record JsonInstall := { json_name : string; json_path : string }.

(** The JSON object with the key [configFile]. *)
Record JsonMMCInstall := { json_configFile : string }.

Definition JsonInstall_eqb (a b : JsonInstall) : bool :=
  String.eqb (json_name a) (json_name b) && String.eqb (json_path a) (json_path b).

Record Settings := {
  installationsOption : list JsonInstall;
  multiMCInstallsOption : list JsonMMCInstall;
  currentInstallOption : string;
  currentVersionOption : string;
  currentResourcePackOption : string;
  allowSnapshotsOption : bool
}.

Definition set_installationsOption (v : list JsonInstall) (o : Settings) : Settings :=
  {| installationsOption := v;
     multiMCInstallsOption := multiMCInstallsOption o;
     currentInstallOption := currentInstallOption o;
     currentVersionOption := currentVersionOption o;
     currentResourcePackOption := currentResourcePackOption o;
     allowSnapshotsOption := allowSnapshotsOption o |}.

Definition set_multiMCInstallsOption (v : list JsonMMCInstall) (o : Settings) : Settings :=
  {| installationsOption := installationsOption o;
     multiMCInstallsOption := v;
     currentInstallOption := currentInstallOption o;
     currentVersionOption := currentVersionOption o;
     currentResourcePackOption := currentResourcePackOption o;
     allowSnapshotsOption := allowSnapshotsOption o |}.

Definition set_currentInstallOption (v : string) (o : Settings) : Settings :=
  {| installationsOption := installationsOption o;
     multiMCInstallsOption := multiMCInstallsOption o;
     currentInstallOption := v;
     currentVersionOption := currentVersionOption o;
     currentResourcePackOption := currentResourcePackOption o;
     allowSnapshotsOption := allowSnapshotsOption o |}.

(** ** Objects *)

Record MCInstall := {
  name : string;
  path : string;
  versionsDir : string
}.

Record MultiMCInstall := {
  configPath : string;
  mmcDir : string;
  instanceDir : string;
  mmc_versionsDir : string;
  mmc_name : string
}.

Record MMCInstance := {
  version : string;
  instance_name : string;
  install : MultiMCInstall;
  saveFileDir : string;
  modsDir : string
}.

(** The [installGroup] back-reference of an [MCInstall] or a
    [MultiMCInstall] always points at the one group of the process; the
    methods that follow it take that group as an argument. *)
Record MCInstallGroup := {
  _installations : list MCInstall;
  _mmcInstalls : list MultiMCInstall
}.

(** Modelled from the spec: the class [ResourceLoader] of
    [mcedit2.resourceloader], which is not part of this file.  A loader is
    the ordered list of its layers, searched first to last; a layer is an
    archive or a mods directory. *)
Inductive Layer : Type :=
| ZipLayer (filename : string)
| ModsLayer (dir : string).

(** Modelled from the spec: the state of a [ResourceLoader], the archive
    it was created with and its layers in search order. *)
Record ResourceLoader := {
  fallbackZipFile : option string;
  layers : list Layer
}.

(** ** Log records *)

Inductive LogRecord : Type :=
| warn_NotUsingMultiMC (configFile : string) (e : exn)
| warn_NotUsingInstall (install_path : string) (e : exn)
| info_SavedSettings (value : list JsonInstall)
| warn_DefaultNotUsable (e : exn)
| info_CheckingInstall (install_path : string)
| info_FoundVersions (versions : list string)
| warn_FailedResourcePack (e : exn) (pack : string)
| warn_VersionNotFound (requested : string)
| info_CreatedResourceLoader (search_path : list (string * string))
| error_CouldNotReadInstance
| info_LoadingMods (modsFolder : string).

(** ** Mutable state and the monad of effectful code *)

(** [_installs] is the module variable: [None], or the fields of the one
    group object it refers to. *)
Record State := {
  options : Settings;
  _installs : option MCInstallGroup;
  log : list LogRecord
}.

Definition M (A : Type) : Type := State -> Result A * State.

Definition ret {A} (a : A) : M A := fun st => (Ok a, st).

Definition bind {A B} (m : M A) (k : A -> M B) : M B :=
  fun st =>
    match m st with
    | (Ok a, st') => k a st'
    | (Raise e, st') => (Raise e, st')
    end.

Definition raise {A} (e : exn) : M A := fun st => (Raise e, st).

Definition liftR {A} (r : Result A) : M A := fun st => (r, st).

Definition get_options : M Settings := fun st => (Ok (options st), st).

Definition modify_options (f : Settings -> Settings) : M unit :=
  fun st => (Ok tt, {| options := f (options st);
                       _installs := _installs st;
                       log := log st |}).

Definition get__installs : M (option MCInstallGroup) :=
  fun st => (Ok (_installs st), st).

Definition set__installs (g : MCInstallGroup) : M unit :=
  fun st => (Ok tt, {| options := options st;
                       _installs := Some g;
                       log := log st |}).

Definition log_record (r : LogRecord) : M unit :=
  fun st => (Ok tt, {| options := options st;
                       _installs := _installs st;
                       log := log st ++ [r] |}).

(** [try: m  except ...: handler]; the handler answers [None] for an
    exception that no [except] clause catches. *)
Definition try_except {A} (m : M A) (handler : exn -> option (M A)) : M A :=
  fun st =>
    match m st with
    | (Ok a, st') => (Ok a, st')
    | (Raise e, st') =>
        match handler e with
        | Some h => h st'
        | None => (Raise e, st')
        end
    end.

Declare Scope monad_scope.
Delimit Scope monad_scope with monad.
Notation "x <- c1 ;; c2" := (bind c1 (fun x => c2))
  (at level 61, c1 at next level, right associativity) : monad_scope.
Notation "c1 ;; c2" := (bind c1 (fun _ => c2))
  (at level 61, right associativity) : monad_scope.
Open Scope monad_scope.

Inductive GenItem (A : Type) : Type :=
| Yield (a : A)
| Logged (r : LogRecord)
| Throw (e : exn).
Arguments Yield {A} a.
Arguments Logged {A} r.
Arguments Throw {A} e.

(** A [for] loop over a generator whose body may [return].  The generator
    is the list of what it does when driven to the end: yield a value, log
    a record, or raise.  The loop drives it only as far as its body goes. *)
Fixpoint for_gen {A B} (items : list (GenItem A)) (body : A -> M (option B))
  : M (option B) :=
  match items with
  | [] => ret None
  | Yield a :: items' =>
      r <- body a ;;
      match r with
      | Some b => ret (Some b)
      | None => for_gen items' body
      end
  | Logged r :: items' => log_record r ;; for_gen items' body
  | Throw e :: _ => raise e
  end.

(** ** The program *)

Section Program.
Variable env : Env.

(** [QSettings.value(key, default)] *)
Definition QSettings_value (file key default : string) : string :=
  match ini_value env file key with
  | Some v => v
  | None => default
  end.

(** *** The resource loader (see [ResourceLoader] above) *)

(** Modelled from the spec: the constructor [ResourceLoader(fallback)]
    of the absent class starts with no layer. *)
Definition ResourceLoader_init (fallback : option string) : ResourceLoader :=
  {| fallbackZipFile := fallback; layers := [] |}.

(** Modelled from the spec: [ResourceLoader.addZipFile] of the absent
    class appends an archive layer, and raises when the archive cannot be
    opened (callers in this file guard it with [try]). *)
Definition addZipFile (loader : ResourceLoader) (zipPath : option string)
  : Result ResourceLoader :=
  match zipPath with
  | None => Raise TypeError
  | Some p =>
      if zip_opens env p
      then Ok {| fallbackZipFile := fallbackZipFile loader;
                 layers := layers loader ++ [ZipLayer p] |}
      else Raise (IOError p)
  end.

(** Modelled from the spec: [ResourceLoader.addModsFolder] of the absent
    class appends the directory as a layer without looking at it. *)
Definition addModsFolder (loader : ResourceLoader) (modsDir : string)
  : ResourceLoader :=
  {| fallbackZipFile := fallbackZipFile loader;
     layers := layers loader ++ [ModsLayer modsDir] |}.

(** Modelled from the spec: the attribute [zipFiles] of the absent class,
    the archives among the layers, by file name. *)
Definition zipFiles (loader : ResourceLoader) : list string :=
  flat_map (fun l => match l with ZipLayer f => [f] | ModsLayer _ => [] end)
           (layers loader).

(** The files hashed are archives the loader has just opened; reading
    them again is taken to succeed. *)
Definition md5hash (filename : string) : string := file_md5 env filename.

(** *** MCInstall *)

Definition MCInstall_init (path name : string) : MCInstall :=
  {| name := name; path := path; versionsDir := join path "versions" |}.

Definition MCInstall_getVersionJarPath (self : MCInstall) (version : string)
  : string :=
  join3 (versionsDir self) version (version ++ ".jar").

(** [allowSnapshots] is the value of [allowSnapshotsOption] at the time of
    the call. *)
Definition MCInstall_versions (allowSnapshots : bool) (self : MCInstall)
  : Result (list string) :=
  match listdir env (versionsDir self) with
  | None => Raise (OSError (versionsDir self))
  | Some versions =>
      Ok (filter (fun v =>
                    path_exists env (MCInstall_getVersionJarPath self v)
                    && (usableVersion v || allowSnapshots))
                 versions)
  end.

Definition MCInstall_checkUsable (self : MCInstall) : M unit :=
  log_record (info_CheckingInstall (path self)) ;;
  if negb (path_exists env (path self)) then
    raise (MCInstallError "Minecraft folder does not exist.")
  else if negb (path_exists env (versionsDir self)) then
    raise (MCInstallError "Minecraft versions folder does not exist.")
  else
    opts <- get_options ;;
    versions <- liftR (MCInstall_versions (allowSnapshotsOption opts) self) ;;
    if (length versions =? 0)%nat then
      raise (MCInstallError "Minecraft folder has no minecraft versions")
    else
      versions' <- liftR (MCInstall_versions (allowSnapshotsOption opts) self) ;;
      log_record (info_FoundVersions versions').

Definition MCInstall_resourcePacks (self : MCInstall) : Result (list string) :=
  let respackFolder := join (path self) "resourcepacks" in
  if negb (path_isdir env respackFolder) then Ok []
  else match listdir env respackFolder with
       | Some names => Ok names
       | None => Raise (OSError respackFolder)
       end.

Definition MCInstall_getSaveDirs (self : MCInstall) : list string :=
  [join (path self) "saves"].

Definition MCInstall_getResourcePackPath (self : MCInstall) (filename : string)
  : string :=
  join3 (path self) "resourcepacks" filename.

Definition MCInstall_getJsonSettingValue (self : MCInstall) : JsonInstall :=
  {| json_name := name self; json_path := path self |}.

(** *** MultiMCInstall and MMCInstance *)

Definition MultiMCInstall_init (configPath : string) : Result MultiMCInstall :=
  if negb (path_exists env configPath) then
    Raise (MultiMCInstallError "Config file does not exist")
  else
    let instanceDir := QSettings_value configPath "InstanceDir" "" in
    if negb (str_nonempty instanceDir) then
      Raise (MultiMCInstallError "InstanceDir not set")
    else
      let mmcDir := dirname configPath in
      Ok {| configPath := configPath;
            mmcDir := mmcDir;
            instanceDir := if negb (isabs instanceDir)
                           then join mmcDir instanceDir
                           else instanceDir;
            mmc_versionsDir := join mmcDir "versions";
            mmc_name := basename mmcDir |}.

Definition MultiMCInstall_getJsonSettingValue (self : MultiMCInstall)
  : JsonMMCInstall :=
  {| json_configFile := configPath self |}.

Definition MultiMCInstall_getVersionJarPath (self : MultiMCInstall)
           (version : string) : string :=
  join3 (mmc_versionsDir self) version (version ++ ".jar").

Definition MultiMCInstall_versions (self : MultiMCInstall)
  : Result (list string) :=
  match listdir env (mmc_versionsDir self) with
  | None => Raise (OSError (mmc_versionsDir self))
  | Some versions =>
      Ok (filter (fun version =>
                    path_exists env
                      (join3 (mmc_versionsDir self) version (version ++ ".jar")))
                 versions)
  end.

Definition MMCInstance_init (install : MultiMCInstall) (path : string)
  : Result MMCInstance :=
  let instanceCfg := join path "instance.cfg" in
  if negb (path_exists env instanceCfg) then
    Raise (MultiMCInstanceError ("instance.cfg not found: " ++ instanceCfg))
  else
    let version := QSettings_value instanceCfg "IntendedVersion" "" in
    if negb (str_nonempty version) then
      Raise (MultiMCInstanceError
               ("Instance " ++ basename path ++ " has no IntendedVersion"))
    else
      Ok {| version := version;
            instance_name := QSettings_value instanceCfg "name" "(unnamed)";
            install := install;
            saveFileDir := join3 path "minecraft" "saves";
            modsDir := join3 path "minecraft" "mods" |}.

Definition MMCInstance_versions (self : MMCInstance) : list string :=
  [version self].

Definition MMCInstance_getVersionJarPath (self : MMCInstance) : string :=
  MultiMCInstall_getVersionJarPath (install self) (version self).

(** The generator [MultiMCInstall.instances]. *)
Definition MultiMCInstall_instances (self : MultiMCInstall)
  : list (GenItem MMCInstance) :=
  match listdir env (instanceDir self) with
  | None => [Throw (OSError (instanceDir self))]
  | Some filenames =>
      flat_map
        (fun filename =>
           let path := join (instanceDir self) filename in
           if negb (path_isdir env path) then []
           else match MMCInstance_init self path with
                | Ok instance => [Yield instance]
                | Raise (MultiMCInstanceError _) =>
                    [Logged error_CouldNotReadInstance]
                | Raise e => [Throw e]
                end)
        filenames
  end.

(** *** MCInstallGroup *)

Definition MCInstallGroup_installs (self : MCInstallGroup) : list MCInstall :=
  _installations self.

Definition MCInstallGroup_mmcInstalls (self : MCInstallGroup)
  : list MultiMCInstall :=
  _mmcInstalls self.

(** The generator [MCInstallGroup.instances]. *)
Definition MCInstallGroup_instances (self : MCInstallGroup)
  : list (GenItem MMCInstance) :=
  flat_map MultiMCInstall_instances (_mmcInstalls self).

Fixpoint _loadMMCInstalls_loop (values : list JsonMMCInstall)
  : M (list MultiMCInstall) :=
  match values with
  | [] => ret []
  | install :: values' =>
      let configFile := json_configFile install in
      yielded <- try_except
                   (install <- liftR (MultiMCInstall_init configFile) ;;
                    ret [install])
                   (fun e =>
                      match e with
                      | MultiMCInstallError _ =>
                          Some (log_record (warn_NotUsingMultiMC configFile e) ;;
                                ret [])
                      | _ => None
                      end) ;;
      others <- _loadMMCInstalls_loop values' ;;
      ret (yielded ++ others)%list
  end.

Definition MCInstallGroup__loadMMCInstalls : M (list MultiMCInstall) :=
  opts <- get_options ;;
  _loadMMCInstalls_loop (multiMCInstallsOption opts).

Fixpoint _loadInstalls_loop (values : list JsonInstall) : M (list MCInstall) :=
  match values with
  | [] => ret []
  | install :: values' =>
      let name := json_name install in
      let path := json_path install in
      yielded <- try_except
                   (let install := MCInstall_init path name in
                    MCInstall_checkUsable install ;;
                    ret [install])
                   (fun e =>
                      match e with
                      | MCInstallError _ =>
                          Some (log_record (warn_NotUsingInstall path e) ;;
                                ret [])
                      | _ => None
                      end) ;;
      others <- _loadInstalls_loop values' ;;
      ret (yielded ++ others)%list
  end.

Definition MCInstallGroup__loadInstalls : M (list MCInstall) :=
  opts <- get_options ;;
  _loadInstalls_loop (installationsOption opts).

Definition MCInstallGroup__saveInstalls (self : MCInstallGroup) : M unit :=
  modify_options
    (set_installationsOption
       (map MCInstall_getJsonSettingValue (_installations self))) ;;
  modify_options
    (set_multiMCInstallsOption
       (map MultiMCInstall_getJsonSettingValue (_mmcInstalls self))) ;;
  opts <- get_options ;;
  log_record (info_SavedSettings (installationsOption opts)).

(** A method that changes a field of [self] is written on the fields of
    its receiver: it takes them as they are before the call and returns
    them as the call leaves them.  Python changes the receiver in place,
    so those returned fields are the fields of the very object the method
    was called on.  Inside [__init__] that object is the one being built,
    which no variable refers to yet; a call on the object the module
    variable refers to is [on_installs] below, which puts the returned
    fields in [_installs]. *)
Definition MCInstallGroup_getDefaultInstall (self : MCInstallGroup)
  : M (option MCInstall * MCInstallGroup) :=
  let minecraftDir := minecraftDir env in
  let defaultInstall := MCInstall_init minecraftDir "(Default)" in
  usable <- try_except
              (MCInstall_checkUsable defaultInstall ;; ret true)
              (fun e =>
                 match e with
                 | MCInstallError _ =>
                     Some (log_record (warn_DefaultNotUsable e) ;; ret false)
                 | _ => None
                 end) ;;
  if negb usable then ret (None, self)
  else
    let value := MCInstall_getJsonSettingValue defaultInstall in
    opts <- get_options ;;
    self <- (if negb (existsb (JsonInstall_eqb value) (installationsOption opts))
             then
               let self := {| _installations := (_installations self ++ [defaultInstall])%list;
                              _mmcInstalls := _mmcInstalls self |} in
               MCInstallGroup__saveInstalls self ;;
               ret self
             else ret self) ;;
    opts <- get_options ;;
    (if String.eqb (currentInstallOption opts) ""
     then modify_options (set_currentInstallOption (path defaultInstall))
     else ret tt) ;;
    ret (Some defaultInstall, self).

Definition MCInstallGroup_selectedInstallPath (self : MCInstallGroup)
  : M (option string) :=
  opts <- get_options ;;
  let p := currentInstallOption opts in
  if existsb (fun install => String.eqb (path install) p) (_installations self)
  then ret (Some p)
  else
    match _installations self with
    | install :: _ =>
        modify_options (set_currentInstallOption (path install)) ;;
        ret (Some (path install))
    | [] => ret None
    end.

Definition MCInstallGroup_getInstall (self : MCInstallGroup) (p : option string)
  : option MCInstall :=
  match p with
  | Some p => find (fun install => String.eqb (path install) p) (_installations self)
  | None => None
  end.

Definition MCInstallGroup_getCurrentInstall (self : MCInstallGroup)
  : M (option MCInstall) :=
  p <- MCInstallGroup_selectedInstallPath self ;;
  ret (MCInstallGroup_getInstall self p).

Definition MCInstallGroup_addInstall (self : MCInstallGroup) (install : MCInstall)
  : M MCInstallGroup :=
  let self := {| _installations := (_installations self ++ [install])%list;
                 _mmcInstalls := _mmcInstalls self |} in
  MCInstallGroup__saveInstalls self ;;
  ret self.

Definition MCInstallGroup_removeInstall (self : MCInstallGroup) (p : string)
  : M MCInstallGroup :=
  let self := {| _installations :=
                   filter (fun i => negb (String.eqb (path i) p))
                          (_installations self);
                 _mmcInstalls := _mmcInstalls self |} in
  MCInstallGroup__saveInstalls self ;;
  ret self.

Definition MCInstallGroup_addMMCInstall (self : MCInstallGroup)
           (install : MultiMCInstall) : M MCInstallGroup :=
  let self := {| _installations := _installations self;
                 _mmcInstalls := (_mmcInstalls self ++ [install])%list |} in
  MCInstallGroup__saveInstalls self ;;
  ret self.

Definition MCInstallGroup_removeMMCInstall (self : MCInstallGroup) (index : Z)
  : M MCInstallGroup :=
  match py_del (_mmcInstalls self) index with
  | None => raise IndexError
  | Some remaining =>
      let self := {| _installations := _installations self;
                     _mmcInstalls := remaining |} in
      MCInstallGroup__saveInstalls self ;;
      ret self
  end.

Definition MCInstallGroup_init : M MCInstallGroup :=
  installations <- MCInstallGroup__loadInstalls ;;
  mmcInstalls <- MCInstallGroup__loadMMCInstalls ;;
  let self := {| _installations := installations; _mmcInstalls := mmcInstalls |} in
  opts <- get_options ;;
  let p := currentInstallOption opts in
  match MCInstallGroup_getInstall self (Some p) with
  | None =>
      match _installations self with
      | first :: _ => modify_options (set_currentInstallOption (path first))
      | [] => modify_options (set_currentInstallOption "")
      end
  | Some _ => ret tt
  end ;;
  r <- MCInstallGroup_getDefaultInstall self ;;
  ret (snd r).

(** The local functions of [findVersion1_9]. *)
Definition matchVersion (version : string) : option string :=
  let '(major, minor, rev) := splitVersion version in
  if pair_ge (major, minor) (1, 9) then
    if String.eqb rev "" then Some version
    else
      match py_int (slice_from_1 rev) with
      | Some _ => Some version
      | None => None                    (* except ValueError: return *)
      end
  else None.

Definition jarOkay (p : string) : bool := is_zipfile env p.

(** Truth value of a string or [None]. *)
Definition truthy (v : option string) : bool :=
  match v with
  | Some s => str_nonempty s
  | None => false
  end.

Definition MCInstallGroup_findVersion1_9 (allowSnapshots : bool)
           (self : MCInstallGroup) : Result (option string) :=
  bindR
    (for_return (MCInstallGroup_installs self) (fun install =>
       bindR (MCInstall_versions allowSnapshots install) (fun versions =>
       for_return versions (fun v =>
         if truthy (matchVersion v) then
           let jarPath := MCInstall_getVersionJarPath install v in
           if jarOkay jarPath then Ok (Some jarPath) else Ok None
         else Ok None))))
    (fun found =>
       match found with
       | Some jarPath => Ok (Some jarPath)
       | None =>
           for_return (MCInstallGroup_mmcInstalls self) (fun mmcInstall =>
             bindR (MultiMCInstall_versions mmcInstall) (fun versions =>
             for_return versions (fun v =>
               if truthy (matchVersion v) then
                 let jarPath := MultiMCInstall_getVersionJarPath mmcInstall v in
                 if jarOkay jarPath then Ok (Some jarPath) else Ok None
               else Ok None)))
       end).

Definition MCInstallGroup_getDefaultResourceLoader (self : MCInstallGroup)
  : M ResourceLoader :=
  opts <- get_options ;;
  v18 <- liftR (MCInstallGroup_findVersion1_9 (allowSnapshotsOption opts) self) ;;
  let loader := ResourceLoader_init v18 in
  liftR (addZipFile loader v18).

(** *** Resource-loader layering *)

Definition created_info (loader : ResourceLoader) : LogRecord :=
  info_CreatedResourceLoader (map (fun z => (z, md5hash z)) (zipFiles loader)).

Definition MCInstall_getResourceLoader (installGroup : MCInstallGroup)
           (self : MCInstall) (version : string) (resourcePack : option string)
  : M ResourceLoader :=
  opts <- get_options ;;
  v1_9 <- liftR (MCInstallGroup_findVersion1_9 (allowSnapshotsOption opts) installGroup) ;;
  let loader := ResourceLoader_init v1_9 in
  loader <- match resourcePack with
            | Some pack =>
                if str_nonempty pack then
                  try_except
                    (liftR (addZipFile loader
                              (Some (MCInstall_getResourcePackPath self pack))))
                    (fun e =>
                       Some (log_record (warn_FailedResourcePack e pack) ;;
                             ret loader))
                else ret loader
            | None => ret loader
            end ;;
  let jarPath := MCInstall_getVersionJarPath self version in
  jarPath <- (if negb (path_exists env jarPath) then
                versions <- liftR (MCInstall_versions (allowSnapshotsOption opts) self) ;;
                if negb (length versions =? 0)%nat then
                  log_record (warn_VersionNotFound version) ;;
                  versions <- liftR (MCInstall_versions (allowSnapshotsOption opts) self) ;;
                  match versions with
                  | first :: _ => ret (MCInstall_getVersionJarPath self first)
                  | [] => raise IndexError
                  end
                else ret jarPath
              else ret jarPath) ;;
  loader <- liftR (addZipFile loader (Some jarPath)) ;;
  let '(major, minor, rev) := splitVersion version in
  loader <- (if pair_ne (major, minor) (1, 9)
             then liftR (addZipFile loader v1_9)
             else ret loader) ;;
  log_record (created_info loader) ;;
  ret loader.

Definition MMCInstance_getResourceLoader (installGroup : MCInstallGroup)
           (self : MMCInstance) (resourcePack : option string)
  : M ResourceLoader :=
  opts <- get_options ;;
  v1_9 <- liftR (MCInstallGroup_findVersion1_9 (allowSnapshotsOption opts) installGroup) ;;
  let loader := ResourceLoader_init v1_9 in
  loader <- match resourcePack with
            | Some pack =>
                if str_nonempty pack
                then liftR (addZipFile loader (Some pack))
                else ret loader
            | None => ret loader
            end ;;
  loader <- liftR (addZipFile loader (Some (MMCInstance_getVersionJarPath self))) ;;
  let '(major, minor, rev) := splitVersion (version self) in
  loader <- (if pair_ne (major, minor) (1, 9)
             then liftR (addZipFile loader v1_9)
             else ret loader) ;;
  let loader := addModsFolder loader (modsDir self) in
  log_record (created_info loader) ;;
  ret loader.

(** *** Module-level functions *)

Definition GetInstalls : M MCInstallGroup :=
  current <- get__installs ;;
  match current with
  | Some installs => ret installs
  | None =>
      installs <- MCInstallGroup_init ;;
      set__installs installs ;;
      ret installs
  end.

(** A call of a method that changes its receiver, made on the object the
    module variable refers to, as in [GetInstalls().removeInstall(path)]
    or [installs = GetInstalls(); installs.addInstall(install)].  The
    module variable and the receiver are one object: what the method does
    to [self] is what [_installs] shows afterwards.  When the method
    raises, it has not changed a field yet. *)
Definition on_installs (method : MCInstallGroup -> M MCInstallGroup) : M unit :=
  installs <- GetInstalls ;;
  installs <- method installs ;;
  set__installs installs.

Definition getSelectedResourceLoader : M ResourceLoader :=
  installs <- GetInstalls ;;
  install <- MCInstallGroup_getCurrentInstall installs ;;
  match install with
  | None =>
      installs <- GetInstalls ;;
      MCInstallGroup_getDefaultResourceLoader installs
  | Some install =>
      opts <- get_options ;;
      let v := currentVersionOption opts in
      v <- (if negb (str_nonempty v) then
              versions <- liftR (MCInstall_versions (allowSnapshotsOption opts) install) ;;
              match versions with
              | first :: _ => ret first
              | [] => raise IndexError
              end
            else ret v) ;;
      opts <- get_options ;;
      let p := if str_nonempty (currentResourcePackOption opts)
               then Some (currentResourcePackOption opts)
               else None in
      MCInstall_getResourceLoader installs install v p
  end.

Definition getResourceLoaderForFilename (filename : string) : M ResourceLoader :=
  let filename := normpath filename in
  installs <- GetInstalls ;;
  found <- for_gen (MCInstallGroup_instances installs) (fun instance =>
             let savesFolder := normpath (saveFileDir instance) in
             if startswith filename savesFolder then
               loader <- MMCInstance_getResourceLoader installs instance None ;;
               ret (Some loader)
             else ret None) ;;
  match found with
  | Some loader => ret loader
  | None =>
      loader <- getSelectedResourceLoader ;;
      let worldFolder := if negb (path_isdir env filename)
                         then dirname filename
                         else filename in
      let savesFolder := dirname worldFolder in
      let mcFolder := dirname savesFolder in
      let modsFolder := join mcFolder "mods" in
      if path_isdir env modsFolder then
        log_record (info_LoadingMods modsFolder) ;;
        ret (addModsFolder loader modsFolder)
      else ret loader
  end.

End Program.

(** ** Vocabulary of the specification *)

(** A non-empty run of decimal digits. *)
Definition digits (s : string) : Prop :=
  str_nonempty s = true /\ str_forallb isdigit s = true.

Definition starts_with_digit (s : string) : bool :=
  match s with
  | String c _ => isdigit c
  | EmptyString => false
  end.

(** The text [t] begins with digits, a dot and digits. *)
Definition occurrence_at_start (t : string) : Prop :=
  exists d1 d2 rest, t = d1 ++ "." ++ d2 ++ rest /\ digits d1 /\ digits d2.

(** The text [s] contains digits, a dot and digits somewhere. *)
Definition contains_occurrence (s : string) : Prop :=
  exists pre t, s = pre ++ t /\ occurrence_at_start t.

(** The part of [s] before its first line feed. *)
Fixpoint upto_newline (s : string) : string :=
  match s with
  | EmptyString => EmptyString
  | String c s' => if not_newline c then String c (upto_newline s') else EmptyString
  end.

(** Lexicographic order on (major, minor). *)
Definition pair_lt (x y : Z * Z) : Prop :=
  fst x < fst y \/ (fst x = fst y /\ snd x < snd y).

(** The world path [w] is inside the directory [dir], both normalised. *)
Definition lies_under (dir w : string) : Prop :=
  exists rel, normpath w = normpath dir ++ "/" ++ rel.

(** What the loop of [getResourceLoaderForFilename] does with a generator
    item it goes past: an instance whose saves folder is not a prefix of
    the file name, or a logged record. *)
Definition passed_over (filename : string) (item : GenItem MMCInstance) : Prop :=
  match item with
  | Yield instance =>
      startswith (normpath filename) (normpath (saveFileDir instance)) = false
  | Logged _ => True
  | Throw _ => False
  end.

(** The global selection: current install, version and resource pack. *)
Definition select (currentInstall currentVersion currentResourcePack : string)
           (st : State) : State :=
  {| options :=
       {| installationsOption := installationsOption (options st);
          multiMCInstallsOption := multiMCInstallsOption (options st);
          currentInstallOption := currentInstall;
          currentVersionOption := currentVersion;
          currentResourcePackOption := currentResourcePack;
          allowSnapshotsOption := allowSnapshotsOption (options st) |};
     _installs := _installs st;
     log := log st |}.

(** The installation lives at path [p]. *)
Definition has_path (p : string) (i : MCInstall) : bool := String.eqb (path i) p.

(** A process that has just started on the given persisted settings. *)
Definition fresh_process (opts : Settings) : State :=
  {| options := opts; _installs := None; log := [] |}.

(** The release test in the words of the specification: at least 1.9, and
    a rest that is empty or a dot followed by an integer. *)
Definition isFullRelease (version : string) : bool :=
  let '(major, minor, rest) := splitVersion version in
  pair_ge (major, minor) (1, 9)
  && (String.eqb rest ""
      || match rest with
         | String "." number =>
             match py_int number with Some _ => true | None => false end
         | _ => false
         end).

(** The resource pack argument when it counts as given. *)
Definition given_pack (resourcePack : option string) : option string :=
  match resourcePack with
  | Some pack => if str_nonempty pack then Some pack else None
  | None => None
  end.

(** ** The construction of the group, read without its log

    The functions below say what [MCInstall.checkUsable], the two loading
    loops and [MCInstallGroup.__init__] return and leave in the options;
    the proofs relate them to the monadic code. *)

(** The outcome of [MCInstall.checkUsable], without its log records. *)
Definition checkUsable_outcome (env : Env) (allowSnapshots : bool)
           (self : MCInstall) : Result unit :=
  if negb (path_exists env (path self)) then
    Raise (MCInstallError "Minecraft folder does not exist.")
  else if negb (path_exists env (versionsDir self)) then
    Raise (MCInstallError "Minecraft versions folder does not exist.")
  else
    match MCInstall_versions env allowSnapshots self with
    | Raise e => Raise e
    | Ok versions =>
        if (length versions =? 0)%nat
        then Raise (MCInstallError "Minecraft folder has no minecraft versions")
        else Ok tt
    end.

(** The installations that [_loadInstalls] keeps from a persisted list. *)
Fixpoint loaded_installs (env : Env) (allowSnapshots : bool)
         (values : list JsonInstall) : Result (list MCInstall) :=
  match values with
  | [] => Ok []
  | value :: values' =>
      let install := MCInstall_init (json_path value) (json_name value) in
      match checkUsable_outcome env allowSnapshots install with
      | Ok _ =>
          bindR (loaded_installs env allowSnapshots values')
                (fun others => Ok (install :: others))
      | Raise (MCInstallError _) => loaded_installs env allowSnapshots values'
      | Raise e => Raise e
      end
  end.

(** The launcher configurations that [_loadMMCInstalls] keeps. *)
Fixpoint loaded_mmcInstalls (env : Env) (values : list JsonMMCInstall)
  : Result (list MultiMCInstall) :=
  match values with
  | [] => Ok []
  | value :: values' =>
      match MultiMCInstall_init env (json_configFile value) with
      | Ok install =>
          bindR (loaded_mmcInstalls env values')
                (fun others => Ok (install :: others))
      | Raise (MultiMCInstallError _) => loaded_mmcInstalls env values'
      | Raise e => Raise e
      end
  end.

(** The installation that [getDefaultInstall] probes for. *)
Definition default_install (env : Env) : MCInstall :=
  MCInstall_init (minecraftDir env) "(Default)".

(** What [MCInstallGroup.__init__] does to the current-install option
    before it probes for the default installation. *)
Definition settle_current (self : MCInstallGroup) (opts : Settings) : Settings :=
  match MCInstallGroup_getInstall self (Some (currentInstallOption opts)) with
  | None =>
      match _installations self with
      | first :: _ => set_currentInstallOption (path first) opts
      | [] => set_currentInstallOption "" opts
      end
  | Some _ => opts
  end.

(** The group and the options after [getDefaultInstall] found the default
    installation usable. *)
Definition after_default_install (env : Env) (self : MCInstallGroup)
           (opts : Settings) : MCInstallGroup * Settings :=
  let value := MCInstall_getJsonSettingValue (default_install env) in
  let present := existsb (JsonInstall_eqb value) (installationsOption opts) in
  let self' :=
    if present then self
    else {| _installations := (_installations self ++ [default_install env])%list;
            _mmcInstalls := _mmcInstalls self |} in
  let opts' :=
    if present then opts
    else set_multiMCInstallsOption
           (map MultiMCInstall_getJsonSettingValue (_mmcInstalls self'))
           (set_installationsOption
              (map MCInstall_getJsonSettingValue (_installations self')) opts) in
  (self',
   if String.eqb (currentInstallOption opts') ""
   then set_currentInstallOption (path (default_install env)) opts'
   else opts').

(** The outcome of [MCInstallGroup.__init__] and the options it leaves,
    as a function of the options it starts from. *)
Definition init_outcome (env : Env) (opts : Settings)
  : Result MCInstallGroup * Settings :=
  match loaded_installs env (allowSnapshotsOption opts) (installationsOption opts) with
  | Raise e => (Raise e, opts)
  | Ok installations =>
      match loaded_mmcInstalls env (multiMCInstallsOption opts) with
      | Raise e => (Raise e, opts)
      | Ok mmcInstalls =>
          let self := {| _installations := installations;
                         _mmcInstalls := mmcInstalls |} in
          let opts1 := settle_current self opts in
          match checkUsable_outcome env (allowSnapshotsOption opts1)
                                    (default_install env) with
          | Ok _ =>
              (Ok (fst (after_default_install env self opts1)),
               snd (after_default_install env self opts1))
          | Raise (MCInstallError _) => (Ok self, opts1)
          | Raise e => (Raise e, opts1)
          end
      end
  end.

(** The three conditions under which [checkUsable] returns normally. *)
Definition install_usable (env : Env) (allowSnapshots : bool) (self : MCInstall)
  : bool :=
  path_exists env (path self)
  && path_exists env (versionsDir self)
  && match MCInstall_versions env allowSnapshots self with
     | Ok (_ :: _) => true
     | _ => false
     end.

(** Whether a launcher configuration file can be used. *)
Definition config_usable (env : Env) (configFile : string) : bool :=
  path_exists env configFile
  && match ini_value env configFile "InstanceDir" with
     | Some dir => str_nonempty dir
     | None => false
     end.

(** ** Concrete machines for the examples *)

Fixpoint assoc {A} (k : string) (l : list (string * A)) : option A :=
  match l with
  | [] => None
  | (k', v) :: l' => if String.eqb k k' then Some v else assoc k l'
  end.

Definition str_mem (x : string) (l : list string) : bool :=
  existsb (String.eqb x) l.

Record Disk := {
  disk_dirs : list (string * list string);
  disk_files : list string;
  disk_zips : list string;
  disk_ini : list (string * list (string * string))
}.

Definition Env_of_disk (d : Disk) (home : string) : Env :=
  {| path_exists := fun p =>
       str_mem p (disk_files d) || str_mem p (map fst (disk_dirs d));
     path_isdir := fun p => str_mem p (map fst (disk_dirs d));
     listdir := fun p => assoc p (disk_dirs d);
     is_zipfile := fun p => str_mem p (disk_zips d);
     zip_opens := fun p => str_mem p (disk_zips d);
     file_md5 := fun p => "md5 of " ++ p;
     ini_value := fun file key =>
       match assoc file (disk_ini d) with
       | Some kv => assoc key kv
       | None => None
       end;
     minecraftDir := home |}.

Definition no_settings : Settings :=
  {| installationsOption := [];
     multiMCInstallsOption := [];
     currentInstallOption := "";
     currentVersionOption := "";
     currentResourcePackOption := "";
     allowSnapshotsOption := false |}.

(** One conventional installation in [/mc] with versions 1.9 and 1.10
    and a resource pack [X.zip]. *)
Definition vanilla_disk (versions zips : list string) : Disk :=
  {| disk_dirs := [("/mc", ["versions"; "resourcepacks"; "saves"]);
                   ("/mc/versions", versions);
                   ("/mc/resourcepacks", ["X.zip"])];
     disk_files := ["/mc/versions/1.9/1.9.jar";
                    "/mc/versions/1.10/1.10.jar";
                    "/mc/versions/1.9-2/1.9-2.jar";
                    "/mc/resourcepacks/X.zip"];
     disk_zips := zips;
     disk_ini := [] |}.

Definition all_zips : list string :=
  ["/mc/versions/1.9/1.9.jar"; "/mc/versions/1.10/1.10.jar";
   "/mc/versions/1.9-2/1.9-2.jar"; "/mc/resourcepacks/X.zip"].

Definition vanilla_env : Env :=
  Env_of_disk (vanilla_disk ["1.9"; "1.10"] all_zips) "/mc".

(** The same machine with a file [X.zip] that is not an archive. *)
Definition broken_pack_env : Env :=
  Env_of_disk (vanilla_disk ["1.9"; "1.10"]
                 ["/mc/versions/1.9/1.9.jar"; "/mc/versions/1.10/1.10.jar"])
              "/mc".

(** The same machine with a version directory named [1.9-2] listed first. *)
Definition odd_version_env : Env :=
  Env_of_disk (vanilla_disk ["1.9-2"; "1.9"] all_zips) "/mc".

Definition mc_install : MCInstall := MCInstall_init "/mc" "(Default)".

Definition vanilla_group : MCInstallGroup :=
  {| _installations := [mc_install]; _mmcInstalls := [] |}.

Definition vanilla_state : State :=
  {| options := {| installationsOption := [MCInstall_getJsonSettingValue mc_install];
                   multiMCInstallsOption := [];
                   currentInstallOption := "/mc";
                   currentVersionOption := "1.10";
                   currentResourcePackOption := "";
                   allowSnapshotsOption := false |};
     _installs := Some vanilla_group;
     log := [] |}.

(** Two launcher configurations, in [/mmcA] and [/mmcB], that name the
    same instance directory [/shared]; it holds one instance for 1.9. *)
Definition launcher_disk : Disk :=
  {| disk_dirs := [("/shared", ["one"]);
                   ("/shared/one", ["instance.cfg"; "minecraft"]);
                   ("/mmcA", ["multimc.cfg"; "versions"]);
                   ("/mmcA/versions", ["1.9"]);
                   ("/mmcB", ["multimc.cfg"; "versions"]);
                   ("/mmcB/versions", ["1.9"])];
     disk_files := ["/mmcA/multimc.cfg"; "/mmcB/multimc.cfg";
                    "/shared/one/instance.cfg";
                    "/mmcA/versions/1.9/1.9.jar";
                    "/mmcB/versions/1.9/1.9.jar";
                    "/packs/bad.zip"];
     disk_zips := ["/mmcA/versions/1.9/1.9.jar"; "/mmcB/versions/1.9/1.9.jar"];
     disk_ini := [("/mmcA/multimc.cfg", [("InstanceDir", "/shared")]);
                  ("/mmcB/multimc.cfg", [("InstanceDir", "/shared")]);
                  ("/shared/one/instance.cfg",
                   [("IntendedVersion", "1.9"); ("name", "One")])] |}.

Definition launcher_env : Env := Env_of_disk launcher_disk "/nowhere".

Definition mmcA : MultiMCInstall :=
  {| configPath := "/mmcA/multimc.cfg"; mmcDir := "/mmcA";
     instanceDir := "/shared"; mmc_versionsDir := "/mmcA/versions";
     mmc_name := "mmcA" |}.

Definition mmcB : MultiMCInstall :=
  {| configPath := "/mmcB/multimc.cfg"; mmcDir := "/mmcB";
     instanceDir := "/shared"; mmc_versionsDir := "/mmcB/versions";
     mmc_name := "mmcB" |}.

Definition instance_of (owner : MultiMCInstall) : MMCInstance :=
  {| version := "1.9"; instance_name := "One"; install := owner;
     saveFileDir := "/shared/one/minecraft/saves";
     modsDir := "/shared/one/minecraft/mods" |}.

Definition launcher_group : MCInstallGroup :=
  {| _installations := []; _mmcInstalls := [mmcA; mmcB] |}.

Definition launcher_state : State :=
  {| options := {| installationsOption := [];
                   multiMCInstallsOption :=
                     [MultiMCInstall_getJsonSettingValue mmcA;
                      MultiMCInstall_getJsonSettingValue mmcB];
                   currentInstallOption := "";
                   currentVersionOption := "";
                   currentResourcePackOption := "";
                   allowSnapshotsOption := false |};
     _installs := Some launcher_group;
     log := [] |}.

Definition world_path : string := "/shared/one/minecraft/saves/World".

(** The machine of [vanilla_env] with a [mods] folder beside [saves]. *)
Definition modded_env : Env :=
  Env_of_disk
    {| disk_dirs := ("/mc/mods", ["Mod.jar"])
                    :: disk_dirs (vanilla_disk ["1.9"; "1.10"] all_zips);
       disk_files := disk_files (vanilla_disk ["1.9"; "1.10"] all_zips);
       disk_zips := all_zips;
       disk_ini := [] |}
    "/mc".

(** The machine of [vanilla_env] with an empty versions folder. *)
Definition bare_env : Env := Env_of_disk (vanilla_disk [] all_zips) "/mc".

(** A machine without a reference version: the installation in [/mc]
    lists 1.8.9, the pre-release 1.9-pre1 and a 1.9.4 whose jar is not an
    archive; the launcher in [/mmc] has 1.7.10 and a 1.10 whose jar is not
    an archive either. *)
Definition stale_disk : Disk :=
  {| disk_dirs := [("/mc", ["versions"]);
                   ("/mc/versions", ["1.8.9"; "1.9-pre1"; "1.9.4"]);
                   ("/mmc", ["multimc.cfg"; "versions"]);
                   ("/mmc/versions", ["1.7.10"; "1.10"])];
     disk_files := ["/mc/versions/1.8.9/1.8.9.jar";
                    "/mc/versions/1.9-pre1/1.9-pre1.jar";
                    "/mc/versions/1.9.4/1.9.4.jar";
                    "/mmc/multimc.cfg";
                    "/mmc/versions/1.7.10/1.7.10.jar";
                    "/mmc/versions/1.10/1.10.jar"];
     disk_zips := ["/mc/versions/1.8.9/1.8.9.jar";
                   "/mc/versions/1.9-pre1/1.9-pre1.jar";
                   "/mmc/versions/1.7.10/1.7.10.jar"];
     disk_ini := [("/mmc/multimc.cfg", [("InstanceDir", "instances")])] |}.

Definition stale_env : Env := Env_of_disk stale_disk "/mc".

Definition stale_launcher : MultiMCInstall :=
  {| configPath := "/mmc/multimc.cfg"; mmcDir := "/mmc";
     instanceDir := "/mmc/instances"; mmc_versionsDir := "/mmc/versions";
     mmc_name := "mmc" |}.

Definition stale_group : MCInstallGroup :=
  {| _installations := [mc_install]; _mmcInstalls := [stale_launcher] |}.

(** * Proofs *)

(** ** Version parsing *)




(** When the continuation accepts the longest run, the greedy star
    returns that answer. *)
Lemma re_star_longest {R} cls (d tail : string) (k : string -> string -> option R) r :
  str_forallb cls d = true ->
  match tail with String c _ => cls c = false | EmptyString => True end ->
  k d tail = Some r ->
  re_star cls (d ++ tail) k = Some r.
Proof.
  revert k. induction d as [|c d IH]; intros k Hd Ht Hk; simpl in *.
  - destruct tail as [|c t]; simpl; [exact Hk|]. now rewrite Ht.
  - apply andb_true_iff in Hd as [Hc Hd]. rewrite Hc.
    now rewrite (IH (fun m rest => k (String c m) rest) Hd Ht Hk).
Qed.

(** Whatever the star returns comes from a split of the text into a run
    of the class and a remainder. *)
Lemma re_star_sound {R} cls (s : string) (k : string -> string -> option R) r :
  re_star cls s k = Some r ->
  exists m rest, s = m ++ rest /\ str_forallb cls m = true /\ k m rest = Some r.
Proof.
  revert k. induction s as [|c s IH]; intros k H; simpl in H.
  - exists "", "". auto.
  - destruct (cls c) eqn:Hc.
    + destruct (re_star cls s (fun m rest => k (String c m) rest)) eqn:E.
      * injection H as ->. apply IH in E as (m & rest & -> & Hm & Hk).
        exists (String c m), rest. simpl. rewrite Hc, Hm. auto.
      * exists "", (String c s). auto.
    + exists "", (String c s). auto.
Qed.

Lemma re_star_rest (s : string) {R} (f : string -> R) :
  re_star not_newline s (fun m _ => Some (f m)) = Some (f (upto_newline s)).
Proof.
  revert f. induction s as [|c s IH]; intros f; simpl; [reflexivity|].
  destruct (not_newline c); [|reflexivity].
  now rewrite (IH (fun m => f (String c m))).
Qed.

Lemma re_match_here_occurrence (d1 d2 rest : string) :
  digits d1 -> digits d2 -> starts_with_digit rest = false ->
  re_match_here (d1 ++ "." ++ d2 ++ rest) = Some [d1; d2; upto_newline rest].
Proof.
  intros [N1 D1] [N2 D2] Hrest.
  destruct d1 as [|c1 d1]; [discriminate|].
  destruct d2 as [|c2 d2]; [discriminate|].
  simpl in D1, D2.
  apply andb_true_iff in D1 as [Hc1 D1].
  apply andb_true_iff in D2 as [Hc2 D2].
  unfold re_match_here, re_plus. simpl. rewrite Hc1.
  apply re_star_longest; [exact D1 | reflexivity |].
  simpl. rewrite Hc2.
  apply re_star_longest; [exact D2 | |].
  - destruct rest; [exact I | exact Hrest].
  - apply re_star_rest.
Qed.

Lemma re_match_here_sound (t : string) groups :
  re_match_here t = Some groups -> occurrence_at_start t.
Proof.
  unfold re_match_here, re_plus. intros H.
  destruct t as [|c1 t]; [discriminate|].
  destruct (isdigit c1) eqn:Hc1; [|discriminate].
  apply re_star_sound in H as (m1 & r1 & -> & Hm1 & H).
  unfold re_char in H. destruct r1 as [|dot r1]; [discriminate|].
  destruct (Ascii.eqb dot ".") eqn:Hdot; [|discriminate].
  apply Ascii.eqb_eq in Hdot as ->.
  destruct r1 as [|c2 r1]; [discriminate|].
  destruct (isdigit c2) eqn:Hc2; [|discriminate].
  apply re_star_sound in H as (m2 & r2 & -> & Hm2 & _).
  exists (String c1 m1), (String c2 m2), r2. repeat split; simpl.
  - now rewrite Hc1.
  - now rewrite Hc2.
Qed.

Lemma occurrence_starts_with_digit (t : string) :
  occurrence_at_start t -> starts_with_digit t = true.
Proof.
  intros (d1 & d2 & rest & -> & [N1 D1] & _).
  destruct d1 as [|c d1]; [discriminate|]. simpl in *.
  now apply andb_true_iff in D1.
Qed.

Lemma re_search_none (s : string) :
  ~ contains_occurrence s -> re_search s = None.
Proof.
  induction s as [|c s IH]; intros H.
  - reflexivity.
  - cbn [re_search]. destruct (re_match_here (String c s)) eqn:E.
    + exfalso. apply H. exists "", (String c s). split; [reflexivity|].
      eapply re_match_here_sound; eauto.
    + apply IH. intros (pre & t & -> & Ht). apply H.
      exists (String c pre), t. auto.
Qed.

Lemma re_search_first (pre t : string) groups :
  re_match_here t = Some groups ->
  (forall a b, pre = a ++ b -> b <> "" -> ~ occurrence_at_start (b ++ t)) ->
  re_search (pre ++ t) = Some groups.
Proof.
  intros Ht. induction pre as [|c pre IH]; intros Hfirst.
  - cbn [append]. destruct t as [|c t]; [discriminate Ht|].
    cbn [re_search]. now rewrite Ht.
  - cbn [append re_search].
    destruct (re_match_here (String c (pre ++ t))) eqn:E.
    + exfalso. apply (Hfirst "" (String c pre)); [reflexivity | discriminate |].
      eapply re_match_here_sound; eauto.
    + apply IH. intros a b -> Hb. apply (Hfirst (String c a) b); auto.
Qed.

Lemma isdigit_plain (c : ascii) :
  isdigit c = true ->
  isspace c = false /\ c <> "+"%char /\ c <> "-"%char.
Proof.
  destruct c as [[] [] [] [] [] [] [] []]; intros H;
    solve [discriminate H | repeat split; discriminate].
Qed.

Lemma lstrip_digits (s : string) :
  starts_with_digit s = true -> lstrip isspace s = s.
Proof.
  destruct s as [|c s]; [discriminate|]. simpl. intros H.
  now destruct (isdigit_plain c H) as [-> _].
Qed.

Lemma rstrip_digits (s : string) :
  str_forallb isdigit s = true -> rstrip isspace s = s.
Proof.
  induction s as [|c s IH]; [reflexivity|]. simpl. intros H.
  apply andb_true_iff in H as [Hc Hs]. rewrite (IH Hs).
  destruct s; [|reflexivity].
  now destruct (isdigit_plain c Hc) as [-> _].
Qed.

(** [int] never fails on a group matched by digits. *)
Lemma py_int_digits (d : string) :
  digits d -> py_int d = Some (digits_value 0 d).
Proof.
  intros [N D]. unfold py_int.
  destruct d as [|c d]; [discriminate|].
  assert (Hc : isdigit c = true) by (simpl in D; now apply andb_true_iff in D).
  rewrite lstrip_digits by exact Hc. rewrite rstrip_digits by exact D.
  unfold digits_to_Z.
  destruct c as [[] [] [] [] [] [] [] []]; try discriminate Hc;
    cbv iota; now rewrite D.
Qed.

Lemma splitVersion_groups (version d1 d2 g2 : string) :
  re_search version = Some [d1; d2; g2] -> digits d1 -> digits d2 ->
  splitVersion version = (digits_value 0 d1, digits_value 0 d2, g2).
Proof.
  intros H H1 H2. unfold splitVersion. rewrite H. cbn [length Nat.ltb Nat.leb nth].
  now rewrite (py_int_digits d1 H1), (py_int_digits d2 H2).
Qed.

(** C6, counterexample: the revision stops at a line feed, so it is not
    everything that follows the minor number. *)
Lemma splitVersion_rest_stops_at_line_feed :
  let version := "1.8" ++ String newline "x" in
  version = "1" ++ "." ++ "8" ++ String newline "x"
  /\ splitVersion version = (1, 8, "")
  /\ snd (splitVersion version) <> String newline "x".
Proof. repeat split. discriminate. Qed.

(** C6, amended: [splitVersion] returns a triple for every string.  It is
    [(0, 0, "")] when the string contains no digits-dot-digits; otherwise,
    at the first such occurrence, it is the two numbers and the text that
    follows the minor number up to the first line feed, with its leading
    separator.  The conversion of a digit group never fails. *)
Theorem splitVersion_total_first_occurrence (version : string) :
  (exists major minor rest, splitVersion version = (major, minor, rest))
  /\ (~ contains_occurrence version -> splitVersion version = (0, 0, ""))
  /\ (forall pre d1 d2 rest,
        version = pre ++ d1 ++ "." ++ d2 ++ rest ->
        digits d1 -> digits d2 -> starts_with_digit rest = false ->
        (forall a b, pre = a ++ b -> b <> "" ->
                     ~ occurrence_at_start (b ++ d1 ++ "." ++ d2 ++ rest)) ->
        splitVersion version
        = (digits_value 0 d1, digits_value 0 d2, upto_newline rest))
  /\ splitVersion "1.8.1-pre3" = (1, 8, ".1-pre3")
  /\ splitVersion "1.9" = (1, 9, "")
  /\ splitVersion "garbage" = (0, 0, "").
Proof.
  split; [|split; [|split]].
  - destruct (splitVersion version) as [[major minor] rest]. now exists major, minor, rest.
  - intros H. unfold splitVersion. now rewrite (re_search_none version H).
  - intros pre d1 d2 rest -> H1 H2 Hrest Hfirst.
    apply splitVersion_groups; [|exact H1|exact H2].
    apply re_search_first; [|exact Hfirst].
    now apply re_match_here_occurrence.
  - repeat split.
Qed.

(** The version inside a longer name. *)
Lemma splitVersion_total_first_occurrence_witness :
  splitVersion ("mc-" ++ "1" ++ "." ++ "10" ++ ".2-pre1") = (1, 10, ".2-pre1").
Proof.
  apply (proj1 (proj2 (proj2 (splitVersion_total_first_occurrence
           ("mc-" ++ "1" ++ "." ++ "10" ++ ".2-pre1")))) "mc-" "1" "10" ".2-pre1").
  - reflexivity.
  - split; reflexivity.
  - split; reflexivity.
  - reflexivity.
  - intros a b Hab Hb Hocc. apply occurrence_starts_with_digit in Hocc.
    destruct a as [|a0 a]; simpl in Hab; [subst b; discriminate Hocc|].
    injection Hab as <- Hab.
    destruct a as [|a1 a]; simpl in Hab; [subst b; discriminate Hocc|].
    injection Hab as <- Hab.
    destruct a as [|a2 a]; simpl in Hab; [subst b; discriminate Hocc|].
    injection Hab as <- Hab.
    destruct a; simpl in Hab; [subst b; now apply Hb | discriminate Hab].
Defined.

(** ** The minimum-version gate *)

Lemma usableVersion_spec (version : string) :
  usableVersion version
  = (1 <=? fst (fst (splitVersion version)))
    && (6 <=? snd (fst (splitVersion version))).
Proof.
  unfold usableVersion. destruct (splitVersion version) as [[major minor] rev].
  cbn [fst snd].
  destruct (major <? 1) eqn:E1; destruct (minor <? 6) eqn:E2;
    destruct (1 <=? major) eqn:E3; destruct (6 <=? minor) eqn:E4;
    try reflexivity; lia.
Qed.

(** Below (1, 6) in the order on pairs the gate is closed. *)
Lemma usableVersion_below_1_6 (version : string) :
  pair_lt (fst (splitVersion version)) (1, 6) -> usableVersion version = false.
Proof.
  rewrite usableVersion_spec. unfold pair_lt. cbn [fst snd]. intros H.
  destruct (1 <=? fst (fst (splitVersion version))) eqn:E1;
    destruct (6 <=? snd (fst (splitVersion version))) eqn:E2;
    try reflexivity; lia.
Qed.

(** From (1, 6) on it is open as long as the major number is 1. *)
Lemma usableVersion_major_1 (version : string) :
  fst (fst (splitVersion version)) = 1 ->
  6 <= snd (fst (splitVersion version)) ->
  usableVersion version = true.
Proof.
  rewrite usableVersion_spec. intros -> H.
  apply Z.leb_le in H. now rewrite H.
Qed.

(** C5, the failing input: version 2.0 is at least (1, 6) in the order on
    pairs, which [findVersion1_9] uses for its own comparison, and yet
    [usableVersion] rejects it because its minor number is below 6. *)
Theorem usableVersion_rejects_2_0 :
  splitVersion "2.0" = (2, 0, "")
  /\ pair_ge (2, 0) (1, 6) = true
  /\ usableVersion "2.0" = false.
Proof. repeat split. Qed.

(** ** Adding and removing installations *)

Lemma saveInstalls_run (self : MCInstallGroup) (st : State) :
  MCInstallGroup__saveInstalls self st
  = (Ok tt,
     {| options :=
          set_multiMCInstallsOption
            (map MultiMCInstall_getJsonSettingValue (_mmcInstalls self))
            (set_installationsOption
               (map MCInstall_getJsonSettingValue (_installations self))
               (options st));
        _installs := _installs st;
        log := log st
               ++ [info_SavedSettings
                     (map MCInstall_getJsonSettingValue (_installations self))] |}).
Proof. reflexivity. Qed.

(** C10: [addInstall] appends the installation at the end without looking
    for an entry of the same path or name; the entries that were there
    keep their places, the launcher configurations and every option but
    the two persisted lists stay as they were, and the two lists are
    persisted (with one log record about it).  The receiver is changed in
    place: when it is the object the module variable refers to, as in the
    installations dialog, that object is what [GetInstalls] returns
    afterwards, with the new entry at the end. *)
Theorem addInstall_appends_unconditionally
        (env : Env) (self : MCInstallGroup) (install : MCInstall) (st : State) :
  (exists self' st',
      MCInstallGroup_addInstall self install st = (Ok self', st')
      /\ _installations self' = (_installations self ++ [install])%list
      /\ (forall n, (n < length (_installations self))%nat ->
                    nth_error (_installations self') n
                    = nth_error (_installations self) n)
      /\ (forall other, In other (_installations self) ->
                        path other = path install ->
                        In other (_installations self')
                        /\ In install (_installations self')
                        /\ length (_installations self')
                           = S (length (_installations self)))
      /\ _mmcInstalls self' = _mmcInstalls self
      /\ installationsOption (options st')
         = map MCInstall_getJsonSettingValue (_installations self')
      /\ multiMCInstallsOption (options st')
         = map MultiMCInstall_getJsonSettingValue (_mmcInstalls self')
      /\ currentInstallOption (options st') = currentInstallOption (options st)
      /\ currentVersionOption (options st') = currentVersionOption (options st)
      /\ currentResourcePackOption (options st')
         = currentResourcePackOption (options st)
      /\ allowSnapshotsOption (options st') = allowSnapshotsOption (options st)
      /\ log st'
         = (log st ++ [info_SavedSettings (installationsOption (options st'))])%list)
  /\ (forall installs st0,
        GetInstalls env st = (Ok installs, st0) ->
        exists st1,
          on_installs env (fun g => MCInstallGroup_addInstall g install) st
          = (Ok tt, st1)
          /\ GetInstalls env st1
             = (Ok {| _installations := (_installations installs ++ [install])%list;
                      _mmcInstalls := _mmcInstalls installs |}, st1)
          /\ installationsOption (options st1)
             = map MCInstall_getJsonSettingValue
                   (_installations installs ++ [install])%list
          /\ currentInstallOption (options st1) = currentInstallOption (options st0)
          /\ log st1
             = (log st0
                ++ [info_SavedSettings (installationsOption (options st1))])%list).
Proof.
  split.
  - unfold MCInstallGroup_addInstall, bind. rewrite saveInstalls_run.
    eexists; eexists; split; [reflexivity|]. cbn.
    repeat match goal with |- _ /\ _ => split end; try reflexivity.
    + intros n Hn. now rewrite nth_error_app1.
    + intros other Hin _. repeat split.
      * apply in_or_app. now left.
      * apply in_or_app. right. now left.
      * rewrite length_app. simpl. lia.
  - intros installs st0 Hget. unfold on_installs.
    unfold bind at 1. rewrite Hget.
    unfold MCInstallGroup_addInstall, bind. rewrite saveInstalls_run.
    eexists. split; [reflexivity|]. cbn.
    repeat match goal with |- _ /\ _ => split end; reflexivity.
Qed.

(** A second installation of the folder [/mc] is added next to the first,
    in a group passed by hand and in the group the module keeps. *)
Lemma addInstall_appends_unconditionally_witness :
  let twin := MCInstall_init "/mc" "Second copy" in
  (exists self',
      fst (MCInstallGroup_addInstall vanilla_group twin vanilla_state) = Ok self'
      /\ _installations self' = [mc_install; twin])
  /\ (exists st1,
        on_installs vanilla_env (fun g => MCInstallGroup_addInstall g twin)
                    vanilla_state = (Ok tt, st1)
        /\ fst (GetInstalls vanilla_env st1)
           = Ok {| _installations := [mc_install; twin]; _mmcInstalls := [] |}).
Proof.
  destruct (addInstall_appends_unconditionally vanilla_env
              vanilla_group (MCInstall_init "/mc" "Second copy") vanilla_state)
    as [(self' & st' & E & L & _) Hstored].
  split.
  - exists self'. split; [now rewrite E | exact L].
  - destruct (Hstored vanilla_group vanilla_state eq_refl)
      as (st1 & E1 & E2 & _).
    exists st1. split; [exact E1 | now rewrite E2].
Defined.

(** C8, counterexample: after two installations of the same folder were
    added, removing that path takes both entries away, not one. *)
Lemma removeInstall_removes_both_twins :
  let twins := {| _installations := [MCInstall_init "/mc" "A";
                                     MCInstall_init "/mc" "B"];
                  _mmcInstalls := [] |} in
  exists self',
    fst (MCInstallGroup_removeInstall twins "/mc" vanilla_state) = Ok self'
    /\ length (_installations twins) = (length (_installations self') + 2)%nat.
Proof. eexists. split; reflexivity. Qed.

(** C8, amended: [removeInstall p] removes every installation whose path
    equals [p] (exactly one when exactly one has that path, none when
    none has), keeps the others in their order, and persists the
    rewritten list, in which no entry with that path is left. *)
Theorem removeInstall_removes_every_match
        (self : MCInstallGroup) (p : string) (st : State) :
  exists self' st',
    MCInstallGroup_removeInstall self p st = (Ok self', st')
    /\ _installations self'
       = filter (fun i => negb (has_path p i)) (_installations self)
    /\ (forall i, In i (_installations self')
                  <-> In i (_installations self) /\ path i <> p)
    /\ (length (_installations self)
        = length (_installations self')
          + length (filter (has_path p) (_installations self)))%nat
    /\ _mmcInstalls self' = _mmcInstalls self
    /\ installationsOption (options st')
       = map MCInstall_getJsonSettingValue (_installations self')
    /\ (forall j, In j (installationsOption (options st')) -> json_path j <> p).
Proof.
  unfold MCInstallGroup_removeInstall, bind. rewrite saveInstalls_run.
  eexists; eexists; split; [reflexivity|]. cbn.
  assert (Hin : forall i,
             In i (filter (fun i => negb (path i =? p)%string) (_installations self))
             <-> In i (_installations self) /\ path i <> p).
  { intros i. rewrite filter_In. rewrite negb_true_iff.
    split; intros [H1 H2]; split; auto.
    - intros E. apply String.eqb_eq in E. congruence.
    - destruct (String.eqb_spec (path i) p); congruence. }
  repeat match goal with |- _ /\ _ => split end; try reflexivity.
  - apply Hin.
  - clear Hin. unfold has_path.
    induction (_installations self) as [|i l IH]; [reflexivity|].
    simpl. destruct (path i =? p)%string; simpl; lia.
  - intros j Hj. apply in_map_iff in Hj as (i & <- & Hi).
    apply Hin in Hi. exact (proj2 Hi).
Qed.

(** The one installation of [/mc] is removed. *)
Lemma removeInstall_removes_every_match_witness :
  exists self',
    fst (MCInstallGroup_removeInstall vanilla_group "/mc" vanilla_state) = Ok self'
    /\ _installations self' = [].
Proof.
  destruct (removeInstall_removes_every_match vanilla_group "/mc" vanilla_state)
    as (self' & st' & E & L & _).
  exists self'. split; [now rewrite E | exact L].
Defined.

(** ** The reference version *)

Lemma pair_ne_true (x y : Z * Z) : pair_ne x y = true <-> x <> y.
Proof.
  destruct x as [a b], y as [c d]. unfold pair_ne. cbn [fst snd].
  rewrite negb_true_iff, andb_false_iff, !Z.eqb_neq.
  split.
  - intros [H|H] E; injection E; intros; lia.
  - intros H. destruct (Z.eq_dec a c) as [->|]; [|now left].
    right. intros ->. now apply H.
Qed.

Lemma pair_ne_false (x y : Z * Z) : pair_ne x y = false <-> x = y.
Proof.
  destruct x as [a b], y as [c d]. unfold pair_ne. cbn [fst snd].
  rewrite negb_false_iff, andb_true_iff, !Z.eqb_eq.
  split; [intros [-> ->]; reflexivity | intros E; injection E; auto].
Qed.

Lemma for_return_found {A B} (xs : list A) (body : A -> Result (option B)) b :
  for_return xs body = Ok (Some b) ->
  exists x, In x xs /\ body x = Ok (Some b).
Proof.
  induction xs as [|x xs IH]; simpl; [discriminate|].
  destruct (body x) as [[b'|]|e] eqn:E; simpl; intros H.
  - injection H as ->. exists x. auto.
  - destruct (IH H) as (y & Hy & Hb). exists y. auto.
  - discriminate.
Qed.

Lemma for_return_nothing {A B} (xs : list A) (body : A -> Result (option B)) :
  (forall x, In x xs -> body x = Ok None) -> for_return xs body = Ok None.
Proof.
  induction xs as [|x xs IH]; intros H; simpl; [reflexivity|].
  rewrite (H x (or_introl eq_refl)). simpl. apply IH. intros y Hy. apply H. now right.
Qed.

Section ReferenceVersion.
Variable env : Env.

(** Whatever [findVersion1_9] returns passed the archive-format test. *)
Lemma findVersion1_9_is_zipfile allowSnapshots self jarPath :
  MCInstallGroup_findVersion1_9 env allowSnapshots self = Ok (Some jarPath) ->
  is_zipfile env jarPath = true.
Proof.
  unfold MCInstallGroup_findVersion1_9, bindR.
  assert (Hscan : forall (jar : string -> string) versions,
             for_return versions (fun v =>
               if truthy (matchVersion v) then
                 if jarOkay env (jar v) then Ok (Some (jar v)) else Ok None
               else Ok None) = Ok (Some jarPath) ->
             is_zipfile env jarPath = true).
  { intros jar versions H. apply for_return_found in H as (v & _ & H).
    destruct (truthy (matchVersion v)); [|discriminate].
    unfold jarOkay in H. destruct (is_zipfile env (jar v)) eqn:E; [|discriminate].
    now injection H as <-. }
  destruct (for_return (MCInstallGroup_installs self) _) as [[found|]|e] eqn:E1;
    intros H; try discriminate.
  - injection H as ->. apply for_return_found in E1 as (install & _ & E1).
    destruct (MCInstall_versions env allowSnapshots install); [|discriminate].
    simpl in E1. eapply Hscan. exact E1.
  - apply for_return_found in H as (mmcInstall & _ & H).
    destruct (MultiMCInstall_versions env mmcInstall); [|discriminate].
    simpl in H. eapply Hscan. exact H.
Qed.

(** When every listing succeeds and no listed version passes
    [matchVersion] with a jar that is an archive, the answer is [None]. *)
Lemma findVersion1_9_absent allowSnapshots self :
  (forall install, In install (_installations self) ->
     exists versions,
       MCInstall_versions env allowSnapshots install = Ok versions
       /\ forall v, In v versions ->
            truthy (matchVersion v)
            && is_zipfile env (MCInstall_getVersionJarPath install v) = false) ->
  (forall mmcInstall, In mmcInstall (_mmcInstalls self) ->
     exists versions,
       MultiMCInstall_versions env mmcInstall = Ok versions
       /\ forall v, In v versions ->
            truthy (matchVersion v)
            && is_zipfile env (MultiMCInstall_getVersionJarPath mmcInstall v) = false) ->
  MCInstallGroup_findVersion1_9 env allowSnapshots self = Ok None.
Proof.
  intros H1 H2. unfold MCInstallGroup_findVersion1_9.
  rewrite for_return_nothing.
  - simpl. apply for_return_nothing. intros m Hm.
    destruct (H2 m Hm) as (versions & -> & Hv). simpl.
    apply for_return_nothing. intros v Hin. specialize (Hv v Hin).
    unfold jarOkay. destruct (truthy (matchVersion v)); [|reflexivity].
    simpl in Hv. now rewrite Hv.
  - intros i Hi. destruct (H1 i Hi) as (versions & -> & Hv). simpl.
    apply for_return_nothing. intros v Hin. specialize (Hv v Hin).
    unfold jarOkay. destruct (truthy (matchVersion v)); [|reflexivity].
    simpl in Hv. now rewrite Hv.
Qed.

(** The scan of one installation stops at its first listed version that
    passes [matchVersion] and whose jar is an archive; the installations
    before it must have none. *)
Lemma findVersion1_9_first allowSnapshots self
      (before after : list MCInstall) (install : MCInstall)
      (skipped rest : list string) (v : string) :
  _installations self = (before ++ install :: after)%list ->
  (forall other, In other before ->
     exists versions,
       MCInstall_versions env allowSnapshots other = Ok versions
       /\ forall v', In v' versions ->
            truthy (matchVersion v')
            && is_zipfile env (MCInstall_getVersionJarPath other v') = false) ->
  MCInstall_versions env allowSnapshots install = Ok (skipped ++ v :: rest)%list ->
  (forall v', In v' skipped ->
     truthy (matchVersion v')
     && is_zipfile env (MCInstall_getVersionJarPath install v') = false) ->
  truthy (matchVersion v) = true ->
  is_zipfile env (MCInstall_getVersionJarPath install v) = true ->
  MCInstallGroup_findVersion1_9 env allowSnapshots self
  = Ok (Some (MCInstall_getVersionJarPath install v)).
Proof.
  intros Hlist Hbefore Hversions Hskipped Hmatch Hzip.
  unfold MCInstallGroup_findVersion1_9, MCInstallGroup_installs. rewrite Hlist.
  assert (Hscan : for_return (skipped ++ v :: rest)%list (fun v0 =>
             if truthy (matchVersion v0) then
               if jarOkay env (MCInstall_getVersionJarPath install v0)
               then Ok (Some (MCInstall_getVersionJarPath install v0)) else Ok None
             else Ok None)
           = Ok (Some (MCInstall_getVersionJarPath install v))).
  { clear Hversions. induction skipped as [|v' skipped IH]; simpl.
    - unfold jarOkay. now rewrite Hmatch, Hzip.
    - pose proof (Hskipped v' (or_introl eq_refl)) as Hv'. unfold jarOkay.
      destruct (truthy (matchVersion v')); simpl in Hv'.
      + rewrite Hv'. simpl. apply IH. intros x Hx. apply Hskipped. now right.
      + simpl. apply IH. intros x Hx. apply Hskipped. now right. }
  clear Hlist. induction before as [|other before IH]; simpl.
  - rewrite Hversions. simpl. now rewrite Hscan.
  - destruct (Hbefore other (or_introl eq_refl)) as (versions & -> & Hv). simpl.
    rewrite for_return_nothing.
    + simpl. apply IH. intros x Hx. apply Hbefore. now right.
    + intros v' Hin. specialize (Hv v' Hin). unfold jarOkay.
      destruct (truthy (matchVersion v')); [|reflexivity].
      simpl in Hv. now rewrite Hv.
Qed.

End ReferenceVersion.

(** C2, the failing input: an installation whose versions folder lists
    [1.9-2] before [1.9], both with sound jars.  The rest of [1.9-2] is
    not a dot followed by an integer, so it is no full release, yet
    [matchVersion] drops the first character of the rest unseen and
    [findVersion1_9] answers with the jar of [1.9-2] instead of that of
    [1.9]. *)
Theorem findVersion1_9_accepts_1_9_dash_2 :
  MCInstall_versions odd_version_env false mc_install = Ok ["1.9-2"; "1.9"]
  /\ splitVersion "1.9-2" = (1, 9, "-2")
  /\ isFullRelease "1.9-2" = false
  /\ isFullRelease "1.9" = true
  /\ is_zipfile odd_version_env "/mc/versions/1.9/1.9.jar" = true
  /\ matchVersion "1.9-2" = Some "1.9-2"
  /\ MCInstallGroup_findVersion1_9 odd_version_env false vanilla_group
     = Ok (Some "/mc/versions/1.9-2/1.9-2.jar").
Proof. repeat split. Qed.

(** ** Resource-loader layering *)

Ltac run_monad :=
  unfold bind, ret, liftR, raise, get_options, log_record, try_except; cbn beta iota.

Section Layering.
Variable env : Env.
Variable installGroup : MCInstallGroup.

(** A conventional installation whose jar for the version is there. *)
Lemma MCInstall_getResourceLoader_nominal
      (self : MCInstall) (version : string) (resourcePack : option string)
      (st : State) (r : string) :
  MCInstallGroup_findVersion1_9 env (allowSnapshotsOption (options st)) installGroup
  = Ok (Some r) ->
  path_exists env (MCInstall_getVersionJarPath self version) = true ->
  zip_opens env (MCInstall_getVersionJarPath self version) = true ->
  (fst (splitVersion version) <> (1, 9) -> zip_opens env r = true) ->
  exists loader,
    fst (MCInstall_getResourceLoader env installGroup self version resourcePack st)
    = Ok loader
    /\ layers loader
       = (match given_pack resourcePack with
          | Some pack =>
              if zip_opens env (MCInstall_getResourcePackPath self pack)
              then [ZipLayer (MCInstall_getResourcePackPath self pack)]
              else []
          | None => []
          end
          ++ [ZipLayer (MCInstall_getVersionJarPath self version)]
          ++ (if pair_ne (fst (splitVersion version)) (1, 9)
              then [ZipLayer r] else []))%list.
Proof.
  intros Hr Hexists Hjar Href.
  unfold MCInstall_getResourceLoader. run_monad. rewrite Hr.
  rewrite Hexists. cbn [negb].
  destruct (splitVersion version) as [[major minor] rev] eqn:Esplit.
  cbn [fst] in *.
  assert (Href' : pair_ne (major, minor) (1, 9) = true -> zip_opens env r = true).
  { intros H. apply Href. now apply pair_ne_true. }
  unfold given_pack.
  destruct resourcePack as [pack|]; [destruct (str_nonempty pack)|].
  - unfold addZipFile at 1. unfold ResourceLoader_init.
    destruct (zip_opens env (MCInstall_getResourcePackPath self pack));
      cbn [layers fallbackZipFile app];
      unfold addZipFile; cbn [layers fallbackZipFile app]; rewrite Hjar;
      destruct (pair_ne (major, minor) (1, 9));
      try rewrite (Href' eq_refl);
      eexists; split; reflexivity.
  - unfold addZipFile, ResourceLoader_init; cbn [layers fallbackZipFile app];
      rewrite Hjar; cbn [layers fallbackZipFile app];
      destruct (pair_ne (major, minor) (1, 9));
      try rewrite (Href' eq_refl);
      eexists; split; reflexivity.
  - unfold addZipFile, ResourceLoader_init; cbn [layers fallbackZipFile app];
      rewrite Hjar; cbn [layers fallbackZipFile app];
      destruct (pair_ne (major, minor) (1, 9));
      try rewrite (Href' eq_refl);
      eexists; split; reflexivity.
Qed.

(** A launcher instance. *)
Lemma MMCInstance_getResourceLoader_nominal
      (self : MMCInstance) (resourcePack : option string) (st : State) (r : string) :
  MCInstallGroup_findVersion1_9 env (allowSnapshotsOption (options st)) installGroup
  = Ok (Some r) ->
  (forall pack, given_pack resourcePack = Some pack -> zip_opens env pack = true) ->
  zip_opens env (MMCInstance_getVersionJarPath self) = true ->
  (fst (splitVersion (version self)) <> (1, 9) -> zip_opens env r = true) ->
  exists loader,
    fst (MMCInstance_getResourceLoader env installGroup self resourcePack st)
    = Ok loader
    /\ layers loader
       = (match given_pack resourcePack with
          | Some pack => [ZipLayer pack]
          | None => []
          end
          ++ [ZipLayer (MMCInstance_getVersionJarPath self)]
          ++ (if pair_ne (fst (splitVersion (version self))) (1, 9)
              then [ZipLayer r] else [])
          ++ [ModsLayer (modsDir self)])%list.
Proof.
  intros Hr Hpack Hjar Href.
  unfold MMCInstance_getResourceLoader. run_monad. rewrite Hr.
  destruct (splitVersion (version self)) as [[major minor] rev] eqn:Esplit.
  cbn [fst] in *.
  assert (Href' : pair_ne (major, minor) (1, 9) = true -> zip_opens env r = true).
  { intros H. apply Href. now apply pair_ne_true. }
  unfold given_pack in *.
  destruct resourcePack as [pack|]; [destruct (str_nonempty pack)|].
  - unfold addZipFile at 1. unfold ResourceLoader_init.
    rewrite (Hpack pack eq_refl).
    cbn [layers fallbackZipFile app];
      unfold addZipFile, addModsFolder; cbn [layers fallbackZipFile app]; rewrite Hjar;
      destruct (pair_ne (major, minor) (1, 9));
      try rewrite (Href' eq_refl);
      eexists; split; reflexivity.
  - unfold addZipFile, addModsFolder, ResourceLoader_init;
      cbn [layers fallbackZipFile app];
      rewrite Hjar; cbn [layers fallbackZipFile app];
      destruct (pair_ne (major, minor) (1, 9));
      try rewrite (Href' eq_refl);
      eexists; split; reflexivity.
  - unfold addZipFile, addModsFolder, ResourceLoader_init;
      cbn [layers fallbackZipFile app];
      rewrite Hjar; cbn [layers fallbackZipFile app];
      destruct (pair_ne (major, minor) (1, 9));
      try rewrite (Href' eq_refl);
      eexists; split; reflexivity.
Qed.

(** A launcher instance does not guard the opening of the resource pack. *)
Lemma MMCInstance_getResourceLoader_bad_pack
      (self : MMCInstance) (resourcePack : option string) (pack : string)
      (st : State) (r : option string) :
  MCInstallGroup_findVersion1_9 env (allowSnapshotsOption (options st)) installGroup
  = Ok r ->
  given_pack resourcePack = Some pack ->
  zip_opens env pack = false ->
  MMCInstance_getResourceLoader env installGroup self resourcePack st
  = (Raise (IOError pack), st).
Proof.
  intros Hr Hgiven Hbad. unfold MMCInstance_getResourceLoader. run_monad.
  rewrite Hr. unfold given_pack in Hgiven.
  destruct resourcePack as [p|]; [|discriminate].
  destruct (str_nonempty p); [|discriminate]. injection Hgiven as ->.
  unfold addZipFile. now rewrite Hbad.
Qed.

(** A conventional installation logs the failure and goes on as if no
    resource pack had been given. *)
Lemma MCInstall_getResourceLoader_bad_pack
      (self : MCInstall) (version : string) (resourcePack : option string)
      (pack : string) (st : State) (r : option string) :
  MCInstallGroup_findVersion1_9 env (allowSnapshotsOption (options st)) installGroup
  = Ok r ->
  given_pack resourcePack = Some pack ->
  zip_opens env (MCInstall_getResourcePackPath self pack) = false ->
  let logged :=
    warn_FailedResourcePack (IOError (MCInstall_getResourcePackPath self pack)) pack in
  MCInstall_getResourceLoader env installGroup self version resourcePack st
  = MCInstall_getResourceLoader env installGroup self version None
      {| options := options st; _installs := _installs st;
         log := log st ++ [logged] |}.
Proof.
  intros Hr Hgiven Hbad logged. unfold MCInstall_getResourceLoader. run_monad.
  cbn [options]. rewrite Hr. unfold given_pack in Hgiven.
  destruct resourcePack as [p|]; [|discriminate].
  destruct (str_nonempty p); [|discriminate]. injection Hgiven as ->.
  unfold addZipFile at 1. rewrite Hbad. reflexivity.
Qed.

(** The outcome of [MCInstall.getResourceLoader] does not depend on what
    was logged before. *)
Lemma MCInstall_getResourceLoader_log_irrelevant
      (self : MCInstall) (version : string) (resourcePack : option string)
      (st : State) (extra : list LogRecord) :
  fst (MCInstall_getResourceLoader env installGroup self version resourcePack
         {| options := options st; _installs := _installs st;
            log := log st ++ extra |})
  = fst (MCInstall_getResourceLoader env installGroup self version resourcePack st).
Proof.
  unfold MCInstall_getResourceLoader. run_monad. cbn [options].
  destruct (MCInstallGroup_findVersion1_9 env _ installGroup) as [r|e];
    [|reflexivity].
  destruct (splitVersion version) as [[major minor] rev].
  repeat match goal with
         | |- context [match ?x with _ => _ end] =>
             match x with
             | context [match _ with _ => _ end] => fail 1
             | _ => destruct x eqn:?
             end; cbn [fst snd options log _installs]
         end; try reflexivity.
Qed.

(** So a pack that does not open changes nothing but the log. *)
Lemma MCInstall_getResourceLoader_bad_pack_skipped
      (self : MCInstall) (version : string) (resourcePack : option string)
      (pack : string) (st : State) (r : option string) :
  MCInstallGroup_findVersion1_9 env (allowSnapshotsOption (options st)) installGroup
  = Ok r ->
  given_pack resourcePack = Some pack ->
  zip_opens env (MCInstall_getResourcePackPath self pack) = false ->
  fst (MCInstall_getResourceLoader env installGroup self version resourcePack st)
  = fst (MCInstall_getResourceLoader env installGroup self version None st).
Proof.
  intros Hr Hgiven Hbad.
  rewrite (MCInstall_getResourceLoader_bad_pack
             self version resourcePack pack st r Hr Hgiven Hbad).
  apply MCInstall_getResourceLoader_log_irrelevant.
Qed.

(** C3: when the jar of the requested version is not on disk and the
    installation has usable versions, the jar of the first of them takes
    the place of the requested jar: after the resource pack layer, if one
    was added, and before the reference layer, which is there exactly when
    (major, minor) of the requested version is not (1, 9); a warning is
    logged. *)
Theorem MCInstall_getResourceLoader_substitutes_first_version
        (self : MCInstall) (version : string) (resourcePack : option string)
        (st : State) (r : option string) (first : string) (others : list string) :
  MCInstallGroup_findVersion1_9 env (allowSnapshotsOption (options st)) installGroup
  = Ok r ->
  path_exists env (MCInstall_getVersionJarPath self version) = false ->
  MCInstall_versions env (allowSnapshotsOption (options st)) self
  = Ok (first :: others) ->
  zip_opens env (MCInstall_getVersionJarPath self first) = true ->
  (fst (splitVersion version) <> (1, 9) ->
   exists reference, r = Some reference /\ zip_opens env reference = true) ->
  exists loader st',
    MCInstall_getResourceLoader env installGroup self version resourcePack st
    = (Ok loader, st')
    /\ layers loader
       = (match given_pack resourcePack with
          | Some pack =>
              if zip_opens env (MCInstall_getResourcePackPath self pack)
              then [ZipLayer (MCInstall_getResourcePackPath self pack)]
              else []
          | None => []
          end
          ++ [ZipLayer (MCInstall_getVersionJarPath self first)]
          ++ (if pair_ne (fst (splitVersion version)) (1, 9)
              then match r with
                   | Some reference => [ZipLayer reference]
                   | None => []
                   end
              else []))%list
    /\ In (warn_VersionNotFound version) (log st').
Proof.
  intros Hr Hmissing Hversions Hjar Href.
  unfold MCInstall_getResourceLoader. run_monad. rewrite Hr.
  rewrite Hmissing, Hversions. cbn [negb length Nat.eqb].
  destruct (splitVersion version) as [[major minor] rev] eqn:Esplit.
  cbn [fst] in *.
  assert (Href' : pair_ne (major, minor) (1, 9) = true ->
                  exists reference, r = Some reference
                                    /\ zip_opens env reference = true).
  { intros H. apply Href. now apply pair_ne_true. }
  assert (Hlast : forall (loader : ResourceLoader) (s : State),
             In (warn_VersionNotFound version) (log s) ->
             exists loader' s',
               (let (res, s1) :=
                  (if pair_ne (major, minor) (1, 9)
                   then fun s0 => (addZipFile env loader r, s0)
                   else fun s0 => (Ok loader, s0)) s in
                match res with
                | Ok l => (Ok l, {| options := options s1;
                                    _installs := _installs s1;
                                    log := log s1 ++ [created_info env l] |})
                | Raise e => (Raise e, s1)
                end) = (Ok loader', s')
               /\ layers loader'
                  = (layers loader
                     ++ (if pair_ne (major, minor) (1, 9)
                         then match r with
                              | Some reference => [ZipLayer reference]
                              | None => []
                              end
                         else []))%list
               /\ In (warn_VersionNotFound version) (log s')).
  { intros loader s Hs. destruct (pair_ne (major, minor) (1, 9)).
    - destruct (Href' eq_refl) as (reference & -> & Hopen).
      unfold addZipFile. rewrite Hopen.
      eexists; eexists; split; [reflexivity|]. cbn [layers log].
      split; [reflexivity|]. apply in_or_app. now left.
    - eexists; eexists; split; [reflexivity|]. cbn [layers log].
      split; [now rewrite app_nil_r|]. apply in_or_app. now left. }
  unfold given_pack.
  destruct resourcePack as [pack|]; [destruct (str_nonempty pack)|].
  - unfold addZipFile at 1. unfold ResourceLoader_init.
    destruct (zip_opens env (MCInstall_getResourcePackPath self pack));
      cbn [layers fallbackZipFile app options log _installs];
      unfold addZipFile at 1; rewrite Hjar;
      cbn [layers fallbackZipFile app options log _installs];
      match goal with
      | |- context [addZipFile env ?l r] =>
          match goal with
          | |- exists _ _, ?lhs ?s = _ /\ _ =>
              destruct (Hlast l s) as (loader' & s' & E & L & W)
          | |- exists _ _, (let (_, _) := _ ?s in _) = _ /\ _ =>
              destruct (Hlast l s) as (loader' & s' & E & L & W)
          end
      end;
      try (cbn [log]; rewrite ?in_app_iff; simpl; tauto);
      exists loader', s'; (split; [exact E|split; [exact L|exact W]]).
  - cbn [options log _installs].
    unfold addZipFile at 1, ResourceLoader_init; rewrite Hjar;
      cbn [layers fallbackZipFile app options log _installs].
    match goal with
    | |- context [addZipFile env ?l r] =>
        match goal with
        | |- exists _ _, (let (_, _) := _ ?s in _) = _ /\ _ =>
            destruct (Hlast l s) as (loader' & s' & E & L & W)
        end
    end; [cbn [log]; rewrite ?in_app_iff; simpl; tauto|].
    exists loader', s'. split; [exact E|split; [exact L|exact W]].
  - cbn [options log _installs].
    unfold addZipFile at 1, ResourceLoader_init; rewrite Hjar;
      cbn [layers fallbackZipFile app options log _installs].
    match goal with
    | |- context [addZipFile env ?l r] =>
        match goal with
        | |- exists _ _, (let (_, _) := _ ?s in _) = _ /\ _ =>
            destruct (Hlast l s) as (loader' & s' & E & L & W)
        end
    end; [cbn [log]; rewrite ?in_app_iff; simpl; tauto|].
    exists loader', s'. split; [exact E|split; [exact L|exact W]].
Qed.

(** C1, amended: with reference version [r], whenever the jar of the
    version exists and the archives to be layered open, the layers are,
    in this order: the resource pack when one is given and opens (a
    conventional installation leaves out a pack that does not open), the
    jar of the version, and the reference archive exactly when (major,
    minor) of the version is not (1, 9); a launcher instance has its mods
    directory appended last in either case. *)
Theorem getResourceLoader_layer_order (st : State) (r : string) :
  MCInstallGroup_findVersion1_9 env (allowSnapshotsOption (options st)) installGroup
  = Ok (Some r) ->
  (forall (self : MCInstall) (version : string) (resourcePack : option string),
      path_exists env (MCInstall_getVersionJarPath self version) = true ->
      zip_opens env (MCInstall_getVersionJarPath self version) = true ->
      (fst (splitVersion version) <> (1, 9) -> zip_opens env r = true) ->
      exists loader,
        fst (MCInstall_getResourceLoader env installGroup self version resourcePack st)
        = Ok loader
        /\ let pack_layers :=
             match given_pack resourcePack with
             | Some pack =>
                 if zip_opens env (MCInstall_getResourcePackPath self pack)
                 then [ZipLayer (MCInstall_getResourcePackPath self pack)]
                 else []
             | None => []
             end in
           let jar := ZipLayer (MCInstall_getVersionJarPath self version) in
           (fst (splitVersion version) = (1, 9) ->
            layers loader = (pack_layers ++ [jar])%list)
           /\ (fst (splitVersion version) <> (1, 9) ->
               layers loader = (pack_layers ++ [jar; ZipLayer r])%list))
  /\ (forall (self : MMCInstance) (resourcePack : option string),
        (forall pack, given_pack resourcePack = Some pack ->
                      zip_opens env pack = true) ->
        zip_opens env (MMCInstance_getVersionJarPath self) = true ->
        (fst (splitVersion (version self)) <> (1, 9) -> zip_opens env r = true) ->
        exists loader,
          fst (MMCInstance_getResourceLoader env installGroup self resourcePack st)
          = Ok loader
          /\ let pack_layers :=
               match given_pack resourcePack with
               | Some pack => [ZipLayer pack]
               | None => []
               end in
             let jar := ZipLayer (MMCInstance_getVersionJarPath self) in
             let mods := ModsLayer (modsDir self) in
             (fst (splitVersion (version self)) = (1, 9) ->
              layers loader = (pack_layers ++ [jar; mods])%list)
             /\ (fst (splitVersion (version self)) <> (1, 9) ->
                 layers loader = (pack_layers ++ [jar; ZipLayer r; mods])%list)).
Proof.
  intros Hr. split.
  - intros self version resourcePack Hexists Hjar Href.
    destruct (MCInstall_getResourceLoader_nominal
                self version resourcePack st r Hr Hexists Hjar Href)
      as (loader & E & L).
    exists loader. split; [exact E|]. cbn zeta. rewrite L. split; intros H.
    + apply pair_ne_false in H. now rewrite H.
    + apply pair_ne_true in H. now rewrite H.
  - intros self resourcePack Hpack Hjar Href.
    destruct (MMCInstance_getResourceLoader_nominal
                self resourcePack st r Hr Hpack Hjar Href)
      as (loader & E & L).
    exists loader. split; [exact E|]. cbn zeta. rewrite L. split; intros H.
    + apply pair_ne_false in H. now rewrite H.
    + apply pair_ne_true in H. now rewrite H.
Qed.

End Layering.

(** C1, counterexample: on a conventional installation, version 1.10
    with the pack [X.zip] gives two layers without the pack when
    [X.zip] is not an archive; and a request for version 1.8, which has
    no jar, puts the jar of another version in second place. *)
Lemma getResourceLoader_pack_absent_or_other_jar :
  fst (MCInstall_getResourceLoader broken_pack_env vanilla_group mc_install
         "1.10" (Some "X.zip") vanilla_state)
  = Ok {| fallbackZipFile := Some "/mc/versions/1.9/1.9.jar";
          layers := [ZipLayer "/mc/versions/1.10/1.10.jar";
                     ZipLayer "/mc/versions/1.9/1.9.jar"] |}
  /\ fst (MCInstall_getResourceLoader vanilla_env vanilla_group mc_install
            "1.8" (Some "X.zip") vanilla_state)
     = Ok {| fallbackZipFile := Some "/mc/versions/1.9/1.9.jar";
             layers := [ZipLayer "/mc/resourcepacks/X.zip";
                        ZipLayer "/mc/versions/1.9/1.9.jar";
                        ZipLayer "/mc/versions/1.9/1.9.jar"] |}.
Proof. split; reflexivity. Qed.

(** The three examples on the machines [vanilla_env] and [launcher_env]. *)
Lemma getResourceLoader_layer_order_witness :
  (exists loader,
      fst (MCInstall_getResourceLoader vanilla_env vanilla_group mc_install
             "1.9" None vanilla_state) = Ok loader
      /\ layers loader = [ZipLayer "/mc/versions/1.9/1.9.jar"])
  /\ (exists loader,
        fst (MCInstall_getResourceLoader vanilla_env vanilla_group mc_install
               "1.10" (Some "X.zip") vanilla_state) = Ok loader
        /\ layers loader = [ZipLayer "/mc/resourcepacks/X.zip";
                            ZipLayer "/mc/versions/1.10/1.10.jar";
                            ZipLayer "/mc/versions/1.9/1.9.jar"])
  /\ (exists loader,
        fst (MMCInstance_getResourceLoader launcher_env launcher_group
               (instance_of mmcB) None launcher_state) = Ok loader
        /\ layers loader = [ZipLayer "/mmcB/versions/1.9/1.9.jar";
                            ModsLayer "/shared/one/minecraft/mods"]).
Proof.
  pose proof (getResourceLoader_layer_order vanilla_env vanilla_group
                vanilla_state "/mc/versions/1.9/1.9.jar" eq_refl) as [Hinstall _].
  pose proof (getResourceLoader_layer_order launcher_env launcher_group
                launcher_state "/mmcA/versions/1.9/1.9.jar" eq_refl) as [_ Hinstance].
  split; [|split].
  - destruct (Hinstall mc_install "1.9" None eq_refl eq_refl (fun _ => eq_refl))
      as (loader & E & L & _).
    exists loader. split; [exact E | exact (L eq_refl)].
  - destruct (Hinstall mc_install "1.10" (Some "X.zip") eq_refl eq_refl
                       (fun _ => eq_refl))
      as (loader & E & _ & L).
    exists loader. split; [exact E | apply L; discriminate].
  - assert (Hnone : forall pack : string,
               given_pack None = Some pack -> zip_opens launcher_env pack = true)
      by (intros pack H; discriminate H).
    destruct (Hinstance (instance_of mmcB) None Hnone eq_refl (fun _ => eq_refl))
      as (loader & E & L & _).
    exists loader. split; [exact E | exact (L eq_refl)].
Defined.

(** Version 1.8 has no jar on [vanilla_env]; the jar of 1.9 stands in. *)
Lemma MCInstall_getResourceLoader_substitutes_first_version_witness :
  exists loader st',
    MCInstall_getResourceLoader vanilla_env vanilla_group mc_install
      "1.8" (Some "X.zip") vanilla_state = (Ok loader, st')
    /\ layers loader = [ZipLayer "/mc/resourcepacks/X.zip";
                        ZipLayer "/mc/versions/1.9/1.9.jar";
                        ZipLayer "/mc/versions/1.9/1.9.jar"]
    /\ In (warn_VersionNotFound "1.8") (log st').
Proof.
  exact (MCInstall_getResourceLoader_substitutes_first_version
           vanilla_env vanilla_group mc_install "1.8" (Some "X.zip")
           vanilla_state (Some "/mc/versions/1.9/1.9.jar") "1.9" ["1.10"]
           eq_refl eq_refl eq_refl eq_refl
           (fun _ => ex_intro _ "/mc/versions/1.9/1.9.jar" (conj eq_refl eq_refl))).
Defined.

(** C4, the failing input: a launcher instance given a resource pack that
    is not an archive.  [MMCInstance.getResourceLoader] has no [try]
    around the opening of the pack, so the error leaves the call and no
    loader is returned, whereas [MCInstall.getResourceLoader] logs the
    error and goes on without the pack. *)
Theorem MMCInstance_getResourceLoader_bad_pack_raises :
  zip_opens launcher_env "/packs/bad.zip" = false
  /\ MMCInstance_getResourceLoader launcher_env launcher_group
       (instance_of mmcA) (Some "/packs/bad.zip") launcher_state
     = (Raise (IOError "/packs/bad.zip"), launcher_state)
  /\ fst (MMCInstance_getResourceLoader launcher_env launcher_group
            (instance_of mmcA) None launcher_state)
     = Ok {| fallbackZipFile := Some "/mmcA/versions/1.9/1.9.jar";
             layers := [ZipLayer "/mmcA/versions/1.9/1.9.jar";
                        ModsLayer "/shared/one/minecraft/mods"] |}.
Proof. repeat split. Qed.

(** ** The loader for a world file *)

Lemma prefix_append (p x : string) : String.prefix p (p ++ x) = true.
Proof.
  induction p as [|c p IH]; simpl; [now destruct x|].
  destruct (ascii_dec c c) as [_|N]; [exact IH | now elim N].
Qed.

Lemma lies_under_startswith (dir w : string) :
  lies_under dir w -> startswith (normpath w) (normpath dir) = true.
Proof. intros [rel ->]. apply prefix_append. Qed.

Section WorldFile.
Variable env : Env.
Variable installs : MCInstallGroup.

(** What a launcher instance builds depends on the snapshots option
    alone: not on the selection, not on the log. *)
Lemma MMCInstance_getResourceLoader_selection_irrelevant
      (self : MMCInstance) (resourcePack : option string) (st st' : State) :
  allowSnapshotsOption (options st) = allowSnapshotsOption (options st') ->
  fst (MMCInstance_getResourceLoader env installs self resourcePack st)
  = fst (MMCInstance_getResourceLoader env installs self resourcePack st').
Proof.
  intros Hallow. unfold MMCInstance_getResourceLoader. run_monad.
  rewrite Hallow.
  destruct (MCInstallGroup_findVersion1_9 env _ installs) as [r|e];
    [|reflexivity].
  destruct (splitVersion (version self)) as [[major minor] rev].
  repeat match goal with
         | |- context [match ?x with _ => _ end] =>
             match x with
             | context [match _ with _ => _ end] => fail 1
             | _ => destruct x eqn:?
             end; cbn [fst snd options log _installs]
         end; try reflexivity.
Qed.

(** The loop goes past the items before the first instance whose saves
    folder is a prefix of the file name; only the log can change. *)
Lemma for_gen_passed_over {B} (filename : string)
      (body : MMCInstance -> M (option B))
      (pre items : list (GenItem MMCInstance)) (st : State) :
  (forall instance st0,
      startswith (normpath filename) (normpath (saveFileDir instance)) = false ->
      body instance st0 = (Ok None, st0)) ->
  Forall (passed_over filename) pre ->
  exists extra,
    for_gen (pre ++ items) body st
    = for_gen items body {| options := options st; _installs := _installs st;
                            log := log st ++ extra |}.
Proof.
  intros Hbody Hpre. revert st.
  induction Hpre as [|item pre Hitem Hpre IH]; intros st.
  - exists []. rewrite app_nil_r. now destruct st.
  - destruct item as [instance|r|e]; simpl in Hitem.
    + cbn [app for_gen]. unfold bind at 1.
      rewrite (Hbody instance st Hitem). apply IH.
    + cbn [app for_gen]. unfold bind at 1, log_record.
      destruct (IH {| options := options st; _installs := _installs st;
                      log := log st ++ [r] |}) as [extra E].
      exists (r :: extra). rewrite E. cbn [options _installs log].
      now rewrite <- app_assoc.
    + contradiction.
Qed.

End WorldFile.

(** C7, counterexample: two launcher configurations name the same
    instance directory.  The world lies under the saves folder of the
    instance of the second configuration, but the loader returned is the
    one of the first configuration's instance, with another jar. *)
Lemma getResourceLoaderForFilename_not_every_instance :
  In (Yield (instance_of mmcB))
     (MCInstallGroup_instances launcher_env launcher_group)
  /\ lies_under (saveFileDir (instance_of mmcB)) world_path
  /\ fst (getResourceLoaderForFilename launcher_env world_path launcher_state)
     = Ok {| fallbackZipFile := Some "/mmcA/versions/1.9/1.9.jar";
             layers := [ZipLayer "/mmcA/versions/1.9/1.9.jar";
                        ModsLayer "/shared/one/minecraft/mods"] |}
  /\ fst (MMCInstance_getResourceLoader launcher_env launcher_group
            (instance_of mmcB) None launcher_state)
     = Ok {| fallbackZipFile := Some "/mmcA/versions/1.9/1.9.jar";
             layers := [ZipLayer "/mmcB/versions/1.9/1.9.jar";
                        ModsLayer "/shared/one/minecraft/mods"] |}
  /\ fst (getResourceLoaderForFilename launcher_env world_path launcher_state)
     <> fst (MMCInstance_getResourceLoader launcher_env launcher_group
               (instance_of mmcB) None launcher_state).
Proof.
  split; [right; left; reflexivity|].
  split; [exists "World"; reflexivity|].
  split; [reflexivity|]. split; [reflexivity|]. discriminate.
Qed.

(** ** Discovery of the default installation *)


Section Discovery.
Variable env : Env.

Lemma checkUsable_run (self : MCInstall) (st : State) :
  exists lg,
    MCInstall_checkUsable env self st
    = (checkUsable_outcome env (allowSnapshotsOption (options st)) self,
       {| options := options st; _installs := _installs st; log := lg |}).
Proof.
  unfold MCInstall_checkUsable, checkUsable_outcome. run_monad.
  destruct (negb (path_exists env (path self))); [eexists; reflexivity|].
  destruct (negb (path_exists env (versionsDir self))); [eexists; reflexivity|].
  cbn [options].
  destruct (MCInstall_versions env _ self) as [versions|e];
    [|eexists; reflexivity].
  destruct (length versions =? 0)%nat; eexists; reflexivity.
Qed.

Lemma loadInstalls_loop_run (values : list JsonInstall) (st : State) :
  exists lg,
    _loadInstalls_loop env values st
    = (loaded_installs env (allowSnapshotsOption (options st)) values,
       {| options := options st; _installs := _installs st; log := lg |}).
Proof.
  revert st. induction values as [|value values IH]; intros st.
  - exists (log st). now destruct st.
  - cbn [_loadInstalls_loop loaded_installs].
    unfold bind at 1, try_except. unfold bind at 1.
    destruct (checkUsable_run (MCInstall_init (json_path value) (json_name value)) st)
      as [lg ->].
    destruct (checkUsable_outcome env _ _) as [[]|e].
    + unfold ret at 1. cbn beta iota. unfold bind at 1.
      match goal with |- context [_loadInstalls_loop env values ?s] =>
        destruct (IH s) as [lg' ->] end.
      cbn [options _installs].
      destruct (loaded_installs env _ values) as [others|e];
        eexists; reflexivity.
    + destruct e; try (eexists; reflexivity).
      unfold bind, log_record, ret. cbn beta iota.
      match goal with |- context [_loadInstalls_loop env values ?s] =>
        destruct (IH s) as [lg' ->] end.
      cbn [options _installs].
      destruct (loaded_installs env _ values) as [others|e];
        eexists; reflexivity.
Qed.

Lemma loadMMCInstalls_loop_run (values : list JsonMMCInstall) (st : State) :
  exists lg,
    _loadMMCInstalls_loop env values st
    = (loaded_mmcInstalls env values,
       {| options := options st; _installs := _installs st; log := lg |}).
Proof.
  revert st. induction values as [|value values IH]; intros st.
  - exists (log st). now destruct st.
  - cbn [_loadMMCInstalls_loop loaded_mmcInstalls].
    unfold bind at 1, try_except. unfold bind at 1, liftR.
    destruct (MultiMCInstall_init env (json_configFile value)) as [install|e].
    + unfold ret at 1. cbn beta iota. unfold bind at 1.
      destruct (IH st) as [lg' ->].
      destruct (loaded_mmcInstalls env values) as [others|e];
        eexists; reflexivity.
    + destruct e; try (exists (log st); now destruct st).
      unfold bind, log_record, ret. cbn beta iota.
      match goal with |- context [_loadMMCInstalls_loop env values ?s] =>
        destruct (IH s) as [lg' ->] end.
      cbn [options _installs].
      destruct (loaded_mmcInstalls env values) as [others|e];
        eexists; reflexivity.
Qed.

Lemma getDefaultInstall_run (self : MCInstallGroup) (st : State) :
  exists lg,
    MCInstallGroup_getDefaultInstall env self st
    = (match checkUsable_outcome env (allowSnapshotsOption (options st))
                                 (default_install env) with
       | Ok _ => Ok (Some (default_install env),
                     fst (after_default_install env self (options st)))
       | Raise (MCInstallError _) => Ok (None, self)
       | Raise e => Raise e
       end,
       {| options :=
            match checkUsable_outcome env (allowSnapshotsOption (options st))
                                      (default_install env) with
            | Ok _ => snd (after_default_install env self (options st))
            | Raise _ => options st
            end;
          _installs := _installs st; log := lg |}).
Proof.
  unfold MCInstallGroup_getDefaultInstall. fold (default_install env).
  unfold bind at 1, try_except. unfold bind at 1.
  destruct (checkUsable_run (default_install env) st) as [lg ->].
  destruct (checkUsable_outcome env _ _) as [[]|e].
  - unfold ret at 1. cbn beta iota. cbn [negb].
    unfold after_default_install.
    unfold bind, get_options, ret, modify_options.
    cbn [options _installs log].
    destruct (existsb _ (installationsOption (options st)));
      cbn [negb options _installs log fst snd].
    + destruct (currentInstallOption (options st) =? "")%string;
        cbn [options _installs log fst snd]; eexists; reflexivity.
    + rewrite saveInstalls_run. cbn [options _installs log fst snd].
      match goal with |- context [if ?c then _ else _] => destruct c end;
        cbn [options _installs log fst snd]; eexists; reflexivity.
  - destruct e; try (eexists; reflexivity).
Qed.

Lemma init_run (st : State) :
  exists lg,
    MCInstallGroup_init env st
    = (fst (init_outcome env (options st)),
       {| options := snd (init_outcome env (options st));
          _installs := _installs st; log := lg |}).
Proof.
  unfold MCInstallGroup_init, MCInstallGroup__loadInstalls,
    MCInstallGroup__loadMMCInstalls, init_outcome.
  unfold bind at 1 2. unfold get_options at 1.
  destruct (loadInstalls_loop_run (installationsOption (options st)) st) as [lg1 ->].
  destruct (loaded_installs env _ _) as [installations|e];
    [|eexists; reflexivity].
  unfold bind at 1 2. unfold get_options at 1. cbn [options].
  match goal with |- context [_loadMMCInstalls_loop env ?v ?s] =>
    destruct (loadMMCInstalls_loop_run v s) as [lg2 ->] end.
  destruct (loaded_mmcInstalls env _) as [mmcInstalls|e];
    [|eexists; reflexivity].
  unfold bind at 1. unfold get_options at 1. cbn [options _installs].
  unfold bind at 1 2.
  set (self := {| _installations := installations; _mmcInstalls := mmcInstalls |}).
  assert (Hsettle : exists lg3,
    (match MCInstallGroup_getInstall self (Some (currentInstallOption (options st))) with
     | Some _ => ret tt
     | None =>
         match _installations self with
         | [] => modify_options (set_currentInstallOption "")
         | first :: _ => modify_options (set_currentInstallOption (path first))
         end
     end) {| options := options st; _installs := _installs st; log := lg2 |}
    = (Ok tt, {| options := settle_current self (options st);
                 _installs := _installs st; log := lg3 |})).
  { unfold settle_current.
    destruct (MCInstallGroup_getInstall self _); [eexists; reflexivity|].
    destruct (_installations self); eexists; reflexivity. }
  destruct Hsettle as [lg3 ->].
  match goal with |- context [MCInstallGroup_getDefaultInstall env self ?s] =>
    destruct (getDefaultInstall_run self s) as [lg4 ->] end.
  cbn [options _installs].
  destruct (checkUsable_outcome env _ _) as [[]|e].
  - eexists; reflexivity.
  - destruct e; eexists; reflexivity.
Qed.

Lemma JsonInstall_eqb_eq (a b : JsonInstall) : JsonInstall_eqb a b = true <-> a = b.
Proof.
  destruct a as [n p], b as [n' p']. unfold JsonInstall_eqb. cbn [json_name json_path].
  rewrite andb_true_iff, !String.eqb_eq.
  split; [intros [-> ->]; reflexivity | intros E; injection E; auto].
Qed.

Lemma existsb_JsonInstall_eqb (v : JsonInstall) (l : list JsonInstall) :
  existsb (JsonInstall_eqb v) l = true <-> In v l.
Proof.
  rewrite existsb_exists. split.
  - intros (x & Hx & E). apply JsonInstall_eqb_eq in E. now subst.
  - intros H. exists v. split; [exact H | now apply JsonInstall_eqb_eq].
Qed.

Lemma loaded_installs_usable allowSnapshots values installations :
  loaded_installs env allowSnapshots values = Ok installations ->
  Forall (fun i => checkUsable_outcome env allowSnapshots i = Ok tt
                   /\ MCInstall_init (path i) (name i) = i) installations.
Proof.
  revert installations. induction values as [|value values IH];
    intros installations H; simpl in H.
  - injection H as <-. constructor.
  - destruct (checkUsable_outcome env allowSnapshots _) as [[]|e] eqn:E.
    + destruct (loaded_installs env allowSnapshots values) as [others|e'];
        [|discriminate].
      simpl in H. injection H as <-. constructor; [|now apply IH].
      split; [exact E | reflexivity].
    + destruct e; try discriminate. now apply IH.
Qed.

Lemma loaded_installs_reload allowSnapshots installations :
  Forall (fun i => checkUsable_outcome env allowSnapshots i = Ok tt
                   /\ MCInstall_init (path i) (name i) = i) installations ->
  loaded_installs env allowSnapshots
    (map MCInstall_getJsonSettingValue installations) = Ok installations.
Proof.
  induction 1 as [|i l [Hi Hinit] _ IH]; [reflexivity|].
  cbn [map loaded_installs MCInstall_getJsonSettingValue json_path json_name].
  rewrite Hinit, Hi, IH. reflexivity.
Qed.

Lemma loaded_installs_keeps allowSnapshots values installations value :
  loaded_installs env allowSnapshots values = Ok installations ->
  In value values ->
  checkUsable_outcome env allowSnapshots
    (MCInstall_init (json_path value) (json_name value)) = Ok tt ->
  In (MCInstall_init (json_path value) (json_name value)) installations.
Proof.
  revert installations. induction values as [|v values IH];
    intros installations H Hin Hok; [contradiction|]. simpl in H.
  destruct (checkUsable_outcome env allowSnapshots
              (MCInstall_init (json_path v) (json_name v))) as [[]|e] eqn:E.
  - destruct (loaded_installs env allowSnapshots values) as [others|e'];
      [|discriminate].
    simpl in H. injection H as <-. destruct Hin as [->|Hin].
    + now left.
    + right. now apply IH.
  - destruct Hin as [->|Hin]; [congruence|].
    destruct e; try discriminate. now apply IH.
Qed.

Lemma MultiMCInstall_init_configPath (configFile : string) (m : MultiMCInstall) :
  MultiMCInstall_init env configFile = Ok m -> configPath m = configFile.
Proof.
  unfold MultiMCInstall_init.
  destruct (negb (path_exists env configFile)); [discriminate|].
  destruct (negb (str_nonempty _)); [discriminate|].
  intros H. injection H as <-. reflexivity.
Qed.

Lemma loaded_mmcInstalls_reload values mmcInstalls :
  loaded_mmcInstalls env values = Ok mmcInstalls ->
  loaded_mmcInstalls env (map MultiMCInstall_getJsonSettingValue mmcInstalls)
  = Ok mmcInstalls.
Proof.
  revert mmcInstalls. induction values as [|value values IH];
    intros mmcInstalls H; simpl in H.
  - now injection H as <-.
  - destruct (MultiMCInstall_init env (json_configFile value)) as [m|e] eqn:E.
    + destruct (loaded_mmcInstalls env values) as [others|e']; [|discriminate].
      simpl in H. injection H as <-.
      cbn [map loaded_mmcInstalls MultiMCInstall_getJsonSettingValue json_configFile].
      rewrite (MultiMCInstall_init_configPath _ _ E), E, (IH others eq_refl).
      reflexivity.
    + destruct e; try discriminate. now apply IH.
Qed.

Lemma getInstall_found (self : MCInstallGroup) (i : MCInstall) :
  In i (_installations self) ->
  MCInstallGroup_getInstall self (Some (path i)) <> None.
Proof.
  intros Hin H. unfold MCInstallGroup_getInstall in H.
  apply (find_none _ _ H) in Hin. now rewrite String.eqb_refl in Hin.
Qed.

Lemma getInstall_more (installations more : list MCInstall)
      (mmcInstalls : list MultiMCInstall) (p : string) :
  MCInstallGroup_getInstall
    {| _installations := installations; _mmcInstalls := mmcInstalls |} (Some p)
  <> None ->
  MCInstallGroup_getInstall
    {| _installations := (installations ++ more)%list;
       _mmcInstalls := mmcInstalls |} (Some p)
  <> None.
Proof.
  unfold MCInstallGroup_getInstall. cbn [_installations].
  intros H E. apply H. clear H.
  induction installations as [|i l IH]; [reflexivity|].
  simpl in *. destruct (path i =? p)%string; [discriminate | now apply IH].
Qed.

Lemma settle_current_fixed (self : MCInstallGroup) (opts : Settings) :
  MCInstallGroup_getInstall self (Some (currentInstallOption opts)) <> None ->
  settle_current self opts = opts.
Proof.
  unfold settle_current. intros H.
  destruct (MCInstallGroup_getInstall self _); [reflexivity | now elim H].
Qed.

Lemma settle_current_spec (self : MCInstallGroup) (opts : Settings) :
  installationsOption (settle_current self opts) = installationsOption opts
  /\ multiMCInstallsOption (settle_current self opts) = multiMCInstallsOption opts
  /\ allowSnapshotsOption (settle_current self opts) = allowSnapshotsOption opts
  /\ settle_current self (settle_current self opts) = settle_current self opts
  /\ (currentInstallOption (settle_current self opts) = ""
      \/ MCInstallGroup_getInstall self
           (Some (currentInstallOption (settle_current self opts))) <> None).
Proof.
  destruct (MCInstallGroup_getInstall self (Some (currentInstallOption opts)))
    as [found|] eqn:E.
  - assert (H : settle_current self opts = opts)
      by (apply settle_current_fixed; rewrite E; discriminate).
    rewrite !H. repeat split; try reflexivity. right. rewrite E. discriminate.
  - destruct (_installations self) as [|first others] eqn:EL.
    + assert (H : settle_current self opts = set_currentInstallOption "" opts)
        by (unfold settle_current; now rewrite E, EL).
      rewrite !H. repeat split; try reflexivity.
      * unfold settle_current, MCInstallGroup_getInstall. now rewrite EL.
      * now left.
    + assert (H : settle_current self opts
                  = set_currentInstallOption (path first) opts)
        by (unfold settle_current; now rewrite E, EL).
      assert (Hfound : MCInstallGroup_getInstall self (Some (path first)) <> None)
        by (apply getInstall_found; rewrite EL; now left).
      rewrite !H. repeat split; try reflexivity.
      * now apply settle_current_fixed.
      * now right.
Qed.


(** A second construction over the options the first one left finds the
    same installations and changes nothing. *)
Lemma init_outcome_idempotent (opts : Settings) (self : MCInstallGroup) :
  fst (init_outcome env opts) = Ok self ->
  init_outcome env (snd (init_outcome env opts))
  = (Ok self, snd (init_outcome env opts)).
Proof.
  unfold init_outcome at 1 3 4.
  destruct (loaded_installs env (allowSnapshotsOption opts) (installationsOption opts))
    as [installations|e] eqn:EL; [|discriminate].
  destruct (loaded_mmcInstalls env (multiMCInstallsOption opts))
    as [mmcInstalls|e] eqn:EM; [|discriminate].
  set (self0 := {| _installations := installations; _mmcInstalls := mmcInstalls |}).
  cbv zeta.
  destruct (settle_current_spec self0 opts) as (SI & SM & SA & Sfix & Scur).
  set (opts1 := settle_current self0 opts) in *.
  pose proof (loaded_installs_usable _ _ _ EL) as Husable.
  destruct (checkUsable_outcome env (allowSnapshotsOption opts1) (default_install env))
    as [[]|e] eqn:EU.
  - (* the default installation is usable *)
    cbn [fst snd]. unfold after_default_install. cbv zeta.
    destruct (existsb _ (installationsOption opts1)) eqn:Epresent.
    + (* and already persisted *)
      cbn [fst snd]. intros H. injection H as <-.
      assert (Hin : In (default_install env) installations).
      { apply existsb_JsonInstall_eqb in Epresent. rewrite SI in Epresent.
        rewrite SA in EU.
        exact (loaded_installs_keeps _ _ _ _ EL Epresent EU). }
      destruct (currentInstallOption opts1 =? "")%string eqn:Ecur.
      * unfold init_outcome.
        cbn [installationsOption multiMCInstallsOption allowSnapshotsOption
               set_currentInstallOption].
        rewrite SI, SM, SA, EL, EM. fold self0. cbv zeta.
        rewrite settle_current_fixed
          by (cbn [currentInstallOption set_currentInstallOption];
              now apply getInstall_found).
        cbn [allowSnapshotsOption set_currentInstallOption].
        rewrite EU. unfold after_default_install. cbv zeta.
        cbn [installationsOption set_currentInstallOption].
        rewrite Epresent. cbn [fst snd currentInstallOption].
        match goal with |- context [if ?c then _ else _] => destruct c end;
          reflexivity.
      * unfold init_outcome. rewrite SI, SM, SA, EL, EM. fold self0. cbv zeta.
        fold opts1. rewrite Sfix. rewrite EU.
        unfold after_default_install. cbv zeta.
        rewrite Epresent, Ecur. reflexivity.
    + (* and not persisted yet: it was appended and the lists were saved *)
      cbn [fst snd]. intros H. injection H as <-.
      set (self1 := {| _installations := (_installations self0 ++ [default_install env])%list;
                       _mmcInstalls := _mmcInstalls self0 |}).
      set (saved := set_multiMCInstallsOption
                      (map MultiMCInstall_getJsonSettingValue (_mmcInstalls self1))
                      (set_installationsOption
                         (map MCInstall_getJsonSettingValue (_installations self1))
                         opts1)).
      assert (Hreload : loaded_installs env (allowSnapshotsOption opts)
                          (map MCInstall_getJsonSettingValue (_installations self1))
                        = Ok (_installations self1)).
      { apply loaded_installs_reload. apply Forall_app. split; [exact Husable|].
        constructor; [|constructor]. rewrite SA in EU. split; [exact EU | reflexivity]. }
      assert (Hmmc : loaded_mmcInstalls env
                       (map MultiMCInstall_getJsonSettingValue (_mmcInstalls self1))
                     = Ok (_mmcInstalls self1))
        by (exact (loaded_mmcInstalls_reload _ _ EM)).
      assert (Hpresent : existsb (JsonInstall_eqb
                                    (MCInstall_getJsonSettingValue (default_install env)))
                           (map MCInstall_getJsonSettingValue (_installations self1))
                         = true).
      { apply existsb_JsonInstall_eqb. apply in_map. apply in_or_app.
        right. now left. }
      assert (Hdefault : MCInstallGroup_getInstall self1
                           (Some (path (default_install env))) <> None).
      { apply getInstall_found. apply in_or_app. right. now left. }
      assert (Hsame : {| _installations := _installations self1;
                         _mmcInstalls := _mmcInstalls self1 |} = self1)
        by reflexivity.
      destruct (currentInstallOption saved =? "")%string eqn:Ecur.
      * unfold init_outcome.
        cbn [installationsOption multiMCInstallsOption allowSnapshotsOption
               set_currentInstallOption saved set_multiMCInstallsOption
               set_installationsOption].
        rewrite SA, Hreload, Hmmc, Hsame. cbv zeta.
        rewrite settle_current_fixed by exact Hdefault.
        cbn [installationsOption multiMCInstallsOption allowSnapshotsOption
               set_currentInstallOption saved set_multiMCInstallsOption
               set_installationsOption].
        rewrite EU. unfold after_default_install. cbv zeta.
        cbn [installationsOption multiMCInstallsOption allowSnapshotsOption
               set_currentInstallOption saved set_multiMCInstallsOption
               set_installationsOption currentInstallOption].
        rewrite Hpresent. cbn [fst snd].
        match goal with |- context [if ?c then _ else _] => destruct c end;
          reflexivity.
      * assert (Hfound : MCInstallGroup_getInstall self1
                           (Some (currentInstallOption saved)) <> None).
        { destruct Scur as [Sempty|Sfound].
          - exfalso. cbn in Ecur. rewrite Sempty in Ecur. discriminate.
          - apply getInstall_more. exact Sfound. }
        unfold init_outcome.
        assert (E1 : installationsOption saved
                     = map MCInstall_getJsonSettingValue (_installations self1))
          by reflexivity.
        assert (E2 : multiMCInstallsOption saved
                     = map MultiMCInstall_getJsonSettingValue (_mmcInstalls self1))
          by reflexivity.
        assert (E3 : allowSnapshotsOption saved = allowSnapshotsOption opts)
          by (rewrite <- SA; reflexivity).
        rewrite E1, E2, E3, Hreload, Hmmc, Hsame. cbv zeta.
        rewrite (settle_current_fixed self1 saved Hfound).
        rewrite E3, <- SA, EU. unfold after_default_install. cbv zeta.
        rewrite E1, Hpresent, Ecur. reflexivity.
  - (* the default installation is not usable *)
    destruct e; cbn [fst snd]; try discriminate.
    intros H. injection H as <-.
    unfold init_outcome. fold opts1 in SI, SM, SA.
    rewrite SI, SM, SA, EL, EM. fold self0. cbv zeta.
    fold opts1. rewrite Sfix, EU. reflexivity.
Qed.

(** C9: [getDefaultInstall] appends the default installation only when
    its name and path are not in the persisted list, and then persists
    the list; so a second construction of the group over the settings
    the first one left finds the same installations, appends nothing and
    leaves the settings as they are. *)
Theorem default_install_discovery_idempotent
        (st0 : State) (self : MCInstallGroup) (st : State) :
  MCInstallGroup_init env st0 = (Ok self, st) ->
  let value := MCInstall_getJsonSettingValue (default_install env) in
  (forall (group group' : MCInstallGroup) (found : option MCInstall) (s s' : State),
      MCInstallGroup_getDefaultInstall env group s = (Ok (found, group'), s') ->
      (In value (installationsOption (options s)) ->
       group' = group
       /\ installationsOption (options s') = installationsOption (options s))
      /\ (_installations group' = _installations group
          \/ (~ In value (installationsOption (options s))
              /\ _installations group'
                 = (_installations group ++ [default_install env])%list
              /\ installationsOption (options s')
                 = map MCInstall_getJsonSettingValue (_installations group'))))
  /\ forall again : State,
       options again = options st ->
       exists st2,
         MCInstallGroup_init env again = (Ok self, st2)
         /\ options st2 = options st.
Proof.
  intros Hinit value. split.
  - intros group group' found s s' H.
    destruct (getDefaultInstall_run group s) as [lg E]. rewrite E in H. clear E.
    destruct (checkUsable_outcome env _ _) as [[]|e].
    + injection H as <- <- <-. cbn [options]. unfold after_default_install.
      cbv zeta. fold value.
      destruct (existsb (JsonInstall_eqb value) (installationsOption (options s)))
        eqn:Epresent; cbn [fst snd].
      * split; [|now left]. intros _. split; [reflexivity|].
        destruct (currentInstallOption (options s) =? "")%string; reflexivity.
      * split.
        -- intros Hin. apply existsb_JsonInstall_eqb in Hin. congruence.
        -- right. split; [|split].
           ++ intros Hin. apply existsb_JsonInstall_eqb in Hin. congruence.
           ++ reflexivity.
           ++ match goal with |- context [if ?c then _ else _] => destruct c end;
                reflexivity.
    + destruct e; try discriminate. injection H as <- <- <-. cbn [options].
      split; [intros _; split; reflexivity | now left].
  - intros again Hagain.
    destruct (init_run st0) as [lg E]. rewrite E in Hinit.
    injection Hinit as Hfst Hst.
    pose proof (init_outcome_idempotent (options st0) self Hfst) as Hidem.
    destruct (init_run again) as [lg2 E2].
    rewrite Hagain, <- Hst in *. cbn [options] in *.
    rewrite Hidem in E2. cbn [fst snd] in E2.
    eexists. split; [exact E2 | reflexivity].
Qed.

End Discovery.

(** Two constructions in a row on [vanilla_env], starting without settings. *)
Lemma default_install_discovery_idempotent_witness :
  exists st2,
    MCInstallGroup_init vanilla_env
      (fresh_process
         (options (snd (MCInstallGroup_init vanilla_env (fresh_process no_settings)))))
    = (Ok vanilla_group, st2)
    /\ installationsOption (options st2)
       = [MCInstall_getJsonSettingValue mc_install].
Proof.
  destruct (default_install_discovery_idempotent
              vanilla_env (fresh_process no_settings) vanilla_group
              (snd (MCInstallGroup_init vanilla_env (fresh_process no_settings)))
              eq_refl)
    as (_ & Hagain).
  destruct (Hagain (fresh_process
                      (options (snd (MCInstallGroup_init vanilla_env
                                       (fresh_process no_settings)))))
                   eq_refl)
    as (st2 & E & Hopts).
  exists st2. split; [exact E|]. now rewrite Hopts.
Defined.

(** ** The loader for a world file, from the first call on *)

Section WorldFileCalls.
Variable env : Env.

Lemma init_outcome_allowSnapshots (opts : Settings) :
  allowSnapshotsOption (snd (init_outcome env opts)) = allowSnapshotsOption opts.
Proof.
  unfold init_outcome.
  destruct (loaded_installs env _ _) as [installations|e]; [|reflexivity].
  destruct (loaded_mmcInstalls env _) as [mmcInstalls|e]; [|reflexivity].
  cbv zeta.
  match goal with
  | |- context [settle_current ?g opts] =>
      destruct (settle_current_spec g opts) as (_ & _ & SA & _);
      set (opts1 := settle_current g opts) in *
  end.
  destruct (checkUsable_outcome env _ (default_install env)) as [[]|e].
  - cbn [snd]. unfold after_default_install. cbv zeta. cbn [snd].
    destruct (existsb _ (installationsOption opts1));
      match goal with
      | |- context [(currentInstallOption ?o =? "")%string] =>
          destruct (currentInstallOption o =? "")%string
      end; exact SA.
  - destruct e; exact SA.
Qed.

(** [GetInstalls], whether it finds the group or constructs it, leaves
    the snapshots option as it was. *)
Lemma GetInstalls_allowSnapshots (st st1 : State) (r : Result MCInstallGroup) :
  GetInstalls env st = (r, st1) ->
  allowSnapshotsOption (options st1) = allowSnapshotsOption (options st).
Proof.
  unfold GetInstalls, bind, get__installs.
  destruct (_installs st) as [installs|].
  - unfold ret. now intros [= _ <-].
  - destruct (init_run env st) as [lg ->].
    destruct (fst (init_outcome env (options st))) as [installs|e];
      unfold set__installs, ret; intros [= _ <-]; cbn [options];
      apply init_outcome_allowSnapshots.
Qed.

Variable installs : MCInstallGroup.

(** C7, amended: when [GetInstalls] returns the group, found or
    constructed by this very call, and [instance] is the first instance
    the enumeration yields whose saves folder is a prefix of the
    normalised world path, with no failure of the enumeration before it,
    [getResourceLoaderForFilename] gives what
    [instance.getResourceLoader()] gives, whatever install, version and
    resource pack are selected. *)
Theorem getResourceLoaderForFilename_first_instance
        (st st1 : State) (filename : string) (instance : MMCInstance)
        (pre post : list (GenItem MMCInstance))
        (currentInstall currentVersion currentResourcePack : string) :
  GetInstalls env (select currentInstall currentVersion currentResourcePack st)
  = (Ok installs, st1) ->
  MCInstallGroup_instances env installs = (pre ++ Yield instance :: post)%list ->
  Forall (passed_over filename) pre ->
  lies_under (saveFileDir instance) filename ->
  fst (getResourceLoaderForFilename env filename
         (select currentInstall currentVersion currentResourcePack st))
  = fst (MMCInstance_getResourceLoader env installs instance None st).
Proof.
  intros Hget Hitems Hpre Hunder.
  apply lies_under_startswith in Hunder.
  pose proof (GetInstalls_allowSnapshots _ _ _ Hget) as Hallow.
  cbn [select options allowSnapshotsOption] in Hallow.
  unfold getResourceLoaderForFilename.
  unfold bind at 1. rewrite Hget.
  rewrite Hitems.
  unfold bind at 1.
  match goal with
  | |- context [for_gen _ ?body ?s] =>
      destruct (for_gen_passed_over filename body pre (Yield instance :: post) s)
        as [extra E]
  end.
  - intros j st0 Hj. now rewrite Hj.
  - exact Hpre.
  - rewrite E. cbn [for_gen]. rewrite Hunder.
    unfold bind at 1 2.
    match goal with
    | |- context [MMCInstance_getResourceLoader env installs instance None ?s] =>
        rewrite <- (MMCInstance_getResourceLoader_selection_irrelevant
                      env installs instance None s st Hallow);
        destruct (MMCInstance_getResourceLoader env installs instance None s)
          as [[loader|e] s']
    end; reflexivity.
Qed.

End WorldFileCalls.

(** The world of the first configuration's instance, under another
    selection: with the group already there, and in a process that has
    just started, where the call constructs it. *)
Lemma getResourceLoaderForFilename_first_instance_witness :
  fst (getResourceLoaderForFilename launcher_env world_path
         (select "/elsewhere" "1.8" "Pack.zip" launcher_state))
  = fst (MMCInstance_getResourceLoader launcher_env launcher_group
           (instance_of mmcA) None launcher_state)
  /\ fst (getResourceLoaderForFilename launcher_env world_path
            (select "/elsewhere" "1.8" "Pack.zip"
               (fresh_process (options launcher_state))))
     = fst (MMCInstance_getResourceLoader launcher_env launcher_group
              (instance_of mmcA) None (fresh_process (options launcher_state))).
Proof.
  split.
  - apply (getResourceLoaderForFilename_first_instance
             launcher_env launcher_group launcher_state
             (select "/elsewhere" "1.8" "Pack.zip" launcher_state) world_path
             (instance_of mmcA) [] [Yield (instance_of mmcB)]).
    + reflexivity.
    + reflexivity.
    + constructor.
    + exists "World". reflexivity.
  - apply (getResourceLoaderForFilename_first_instance
             launcher_env launcher_group (fresh_process (options launcher_state))
             (snd (GetInstalls launcher_env
                     (select "/elsewhere" "1.8" "Pack.zip"
                        (fresh_process (options launcher_state)))))
             world_path (instance_of mmcA) [] [Yield (instance_of mmcB)]).
    + reflexivity.
    + reflexivity.
    + constructor.
    + exists "World". reflexivity.
Defined.

(** * Further properties of the code *)

(** ** Version identifiers *)

Lemma re_star_total {R} cls (s : string) (k : string -> string -> option R) :
  (forall m rest, exists x, k m rest = Some x) ->
  exists x, re_star cls s k = Some x.
Proof.
  revert k. induction s as [|c s IH]; intros k Hk; simpl; [apply Hk|].
  destruct (cls c); [|apply Hk].
  destruct (IH (fun m rest => k (String c m) rest)) as [x ->].
  - intros m rest. apply Hk.
  - now exists x.
Qed.

(** With a continuation that always succeeds a greedy star takes the
    whole run. *)
Lemma re_star_whole_run {R} cls (s : string) (k : string -> string -> option R) r :
  (forall m rest, exists x, k m rest = Some x) ->
  re_star cls s k = Some r ->
  exists m rest,
    s = m ++ rest /\ str_forallb cls m = true
    /\ match rest with String c _ => cls c = false | EmptyString => True end
    /\ k m rest = Some r.
Proof.
  revert k. induction s as [|c s IH]; intros k Hk H; simpl in H.
  - exists "", "". auto.
  - destruct (cls c) eqn:Hc.
    + destruct (re_star_total cls s (fun m rest => k (String c m) rest)) as [x E].
      { intros m rest. apply Hk. }
      rewrite E in H. injection H as ->.
      apply IH in E as (m & rest & -> & Hm & Hrest & Hx).
      * exists (String c m), rest. simpl. rewrite Hc, Hm. auto.
      * intros m rest. apply Hk.
    + exists "", (String c s). simpl. auto.
Qed.

Lemma re_match_here_groups (t : string) groups :
  re_match_here t = Some groups ->
  exists d1 d2 rest,
    digits d1 /\ digits d2 /\ starts_with_digit rest = false
    /\ groups = [d1; d2; upto_newline rest].
Proof.
  unfold re_match_here, re_plus. intros H.
  destruct t as [|c1 t]; [discriminate|].
  destruct (isdigit c1) eqn:Hc1; [|discriminate].
  apply re_star_sound in H as (m1 & r1 & -> & Hm1 & H).
  unfold re_char in H. destruct r1 as [|dot r1]; [discriminate|].
  destruct (Ascii.eqb dot "."); [|discriminate].
  destruct r1 as [|c2 r1]; [discriminate|].
  destruct (isdigit c2) eqn:Hc2; [|discriminate].
  apply re_star_whole_run in H as (m2 & r2 & -> & Hm2 & Hr2 & H).
  - rewrite re_star_rest in H. injection H as <-.
    exists (String c1 m1), (String c2 m2), r2.
    repeat split; simpl; try (now rewrite ?Hc1, ?Hc2).
    destruct r2; [reflexivity | exact Hr2].
  - intros m rest. rewrite re_star_rest. eauto.
Qed.

Lemma re_search_sound (s : string) groups :
  re_search s = Some groups ->
  exists pre t, s = pre ++ t /\ re_match_here t = Some groups.
Proof.
  induction s as [|c s IH]; cbn [re_search].
  - destruct (re_match_here "") eqn:E; [|discriminate].
    intros H. injection H as ->. now exists "", "".
  - destruct (re_match_here (String c s)) eqn:E.
    + intros H. injection H as ->. now exists "", (String c s).
    + intros H. destruct (IH H) as (pre & t & -> & Ht).
      now exists (String c pre), t.
Qed.

Lemma digits_value_nonneg (s : string) (acc : Z) :
  str_forallb isdigit s = true -> 0 <= acc -> 0 <= digits_value acc s.
Proof.
  revert acc. induction s as [|c s IH]; intros acc Hs Hacc;
    cbn [digits_value str_forallb] in *; [exact Hacc|].
  apply andb_true_iff in Hs as [Hc Hs]. apply IH; [exact Hs|].
  unfold digit_value. unfold isdigit in Hc.
  apply andb_true_iff in Hc as [Hlo _]. apply Nat.leb_le in Hlo. lia.
Qed.

Lemma upto_newline_shape (s : string) :
  str_forallb not_newline (upto_newline s) = true
  /\ (starts_with_digit s = false -> starts_with_digit (upto_newline s) = false).
Proof.
  split.
  - induction s as [|c s IH]; simpl; [reflexivity|].
    destruct (not_newline c) eqn:E; simpl; [now rewrite E|reflexivity].
  - destruct s as [|c s]; simpl; [auto|].
    now destruct (not_newline c).
Qed.

(** X1: whatever the string, the two numbers [splitVersion] returns are
    not negative, and the rest it returns holds no line feed and does not
    begin with a digit. *)
Theorem splitVersion_result_shape (version : string) :
  0 <= fst (fst (splitVersion version))
  /\ 0 <= snd (fst (splitVersion version))
  /\ str_forallb not_newline (snd (splitVersion version)) = true
  /\ starts_with_digit (snd (splitVersion version)) = false.
Proof.
  destruct (re_search version) as [groups|] eqn:E.
  - destruct (re_search_sound _ _ E) as (pre & t & _ & Ht).
    destruct (re_match_here_groups _ _ Ht) as (d1 & d2 & rest & H1 & H2 & Hrest & ->).
    rewrite (splitVersion_groups _ _ _ _ E H1 H2). cbn [fst snd].
    destruct (upto_newline_shape rest) as [Hnl Hdig].
    repeat split.
    + apply digits_value_nonneg; [apply H1 | lia].
    + apply digits_value_nonneg; [apply H2 | lia].
    + exact Hnl.
    + now apply Hdig.
  - unfold splitVersion. rewrite E. cbn. repeat split; lia.
Qed.

Lemma digit_run (s : string) :
  exists run rest,
    s = run ++ rest /\ str_forallb isdigit run = true
    /\ starts_with_digit rest = false.
Proof.
  induction s as [|c s (run & rest & -> & Hrun & Hrest)].
  - now exists "", "".
  - destruct (isdigit c) eqn:Hc.
    + exists (String c run), rest. simpl. now rewrite Hc, Hrun.
    + exists "", (String c (run ++ rest)). simpl. auto.
Qed.

Lemma str_forallb_append f (a b : string) :
  str_forallb f a = true -> str_forallb f b = true ->
  str_forallb f (a ++ b) = true.
Proof.
  induction a as [|c a IH]; simpl; [auto|]. intros Ha Hb.
  apply andb_true_iff in Ha as [Hc Ha]. now rewrite Hc, IH.
Qed.

Lemma string_append_assoc (a b c : string) : (a ++ b) ++ c = a ++ (b ++ c).
Proof. induction a as [|x a IH]; simpl; [reflexivity | now rewrite IH]. Qed.

Lemma re_search_here (t : string) :
  re_match_here t <> None -> re_search t <> None.
Proof.
  intros H. destruct t; cbn [re_search]; destruct (re_match_here _); congruence.
Qed.

Lemma re_search_complete (s : string) :
  contains_occurrence s -> re_search s <> None.
Proof.
  intros (pre & t & -> & d1 & d2 & rest & -> & H1 & [N2 D2]).
  destruct (digit_run rest) as (run & rest' & -> & Hrun & Hrest').
  assert (Hhere : re_match_here (d1 ++ "." ++ d2 ++ run ++ rest') <> None).
  { rewrite <- (string_append_assoc d2 run rest').
    rewrite (re_match_here_occurrence d1 (d2 ++ run) rest'); [discriminate|exact H1| |exact Hrest'].
    split; [now destruct d2 | now apply str_forallb_append]. }
  induction pre as [|c pre IH]; cbn [append].
  - now apply re_search_here.
  - cbn [re_search]. destruct (re_match_here (String c _)); [discriminate|exact IH].
Qed.

(** X2: a name without digits, a dot and digits in it, such as a snapshot
    name, is never usable and never passes [matchVersion]. *)
Theorem unparsable_version_rejected (version : string) :
  ~ contains_occurrence version ->
  usableVersion version = false /\ matchVersion version = None.
Proof.
  intros H. unfold usableVersion, matchVersion, splitVersion.
  rewrite (re_search_none version H). split; reflexivity.
Qed.

(** A snapshot name. *)
Lemma unparsable_version_rejected_witness :
  usableVersion "16w14a" = false /\ matchVersion "16w14a" = None.
Proof.
  apply unparsable_version_rejected.
  intros H. apply re_search_complete in H. now apply H.
Defined.

(** X3: [matchVersion] answers with its argument or with nothing; it
    accepts every version from 1.9 on whose rest is empty or a dot followed
    by an integer, rejects every version below 1.9, and what it accepts is
    never the empty string, so the truth test on its answer loses nothing. *)
Theorem matchVersion_accepts_full_releases (version : string) :
  (matchVersion version = None \/ matchVersion version = Some version)
  /\ (isFullRelease version = true -> matchVersion version = Some version)
  /\ (pair_ge (fst (splitVersion version)) (1, 9) = false ->
      matchVersion version = None)
  /\ (matchVersion version <> None -> truthy (matchVersion version) = true).
Proof.
  assert (Hshape : matchVersion version = None \/ matchVersion version = Some version).
  { unfold matchVersion. destruct (splitVersion version) as [[major minor] rev].
    destruct (pair_ge (major, minor) (1, 9)); [|now left].
    destruct (rev =? "")%string; [now right|].
    destruct (py_int (slice_from_1 rev)); [now right | now left]. }
  split; [exact Hshape|]. split; [|split].
  - unfold isFullRelease, matchVersion.
    destruct (splitVersion version) as [[major minor] rev].
    destruct (pair_ge (major, minor) (1, 9)); [|discriminate]. cbn [andb].
    destruct (rev =? "")%string; [reflexivity|]. cbn [orb].
    destruct rev as [|c number]; [discriminate|].
    destruct (Ascii.eqb_spec c ".") as [->|Hc].
    + cbn [slice_from_1]. now destruct (py_int number).
    + destruct c as [[] [] [] [] [] [] [] []]; try discriminate.
      now elim Hc.
  - unfold matchVersion. destruct (splitVersion version) as [[major minor] rev].
    cbn [fst]. now intros ->.
  - intros Hsome. destruct Hshape as [E|E]; [congruence|]. rewrite E.
    destruct version; [|reflexivity]. discriminate E.
Qed.

(** An ordinary point release. *)
Lemma matchVersion_accepts_full_releases_witness :
  matchVersion "1.9.2" = Some "1.9.2" /\ matchVersion "1.8.9" = None.
Proof.
  destruct (matchVersion_accepts_full_releases "1.9.2") as (_ & H & _).
  destruct (matchVersion_accepts_full_releases "1.8.9") as (_ & _ & H' & _).
  split; [apply H | apply H']; reflexivity.
Defined.

(** ** One installation *)

Section Installation.
Variable env : Env.

Lemma filter_filter {A} (f g : A -> bool) (l : list A) :
  filter f (filter g l) = filter (fun x => g x && f x) l.
Proof.
  induction l as [|x l IH]; [reflexivity|]. simpl.
  destruct (g x); simpl; [destruct (f x)|]; now rewrite IH.
Qed.

(** X4: the versions of an installation are the entries of its versions
    folder, in listing order, whose jar is on disk and which are usable or
    let through by the snapshots option; turning the option on only adds
    versions, and the list without it is the usable part of the list with
    it.  The property raises only when the folder cannot be listed. *)
Theorem MCInstall_versions_sound (self : MCInstall) (allowSnapshots : bool) :
  (forall versions,
      MCInstall_versions env allowSnapshots self = Ok versions ->
      exists listing,
        listdir env (versionsDir self) = Some listing
        /\ versions
           = filter (fun v => path_exists env (MCInstall_getVersionJarPath self v)
                              && (usableVersion v || allowSnapshots)) listing
        /\ forall v, In v versions ->
             In v listing
             /\ path_exists env (MCInstall_getVersionJarPath self v) = true
             /\ (usableVersion v = true \/ allowSnapshots = true))
  /\ (forall e, MCInstall_versions env allowSnapshots self = Raise e ->
                e = OSError (versionsDir self)
                /\ listdir env (versionsDir self) = None)
  /\ (forall all,
        MCInstall_versions env true self = Ok all ->
        MCInstall_versions env false self = Ok (filter usableVersion all)
        /\ incl (filter usableVersion all) all).
Proof.
  unfold MCInstall_versions. split; [|split].
  - intros versions H. destruct (listdir env (versionsDir self)) as [listing|];
      [|discriminate].
    injection H as <-. exists listing. split; [reflexivity|]. split; [reflexivity|].
    intros v Hv. apply filter_In in Hv as [Hin Hv].
    apply andb_true_iff in Hv as [Hjar Hok]. apply orb_true_iff in Hok. auto.
  - intros e H. destruct (listdir env (versionsDir self)); [discriminate|].
    injection H as <-. auto.
  - intros all H. destruct (listdir env (versionsDir self)) as [listing|];
      [|discriminate].
    injection H as <-. split.
    + f_equal. rewrite filter_filter. apply filter_ext. intros v.
      destruct (path_exists env _); simpl; [|reflexivity].
      now rewrite !orb_false_r, orb_true_r.
    + intros v Hv. now apply filter_In in Hv.
Qed.

(** X5: [checkUsable] returns normally exactly when the installation
    folder and its versions folder exist and the installation has at least
    one version.  It raises [MCInstallError] otherwise, or the [OSError]
    of a versions folder that cannot be listed, and it never touches the
    options or the group. *)
Theorem MCInstall_checkUsable_spec (self : MCInstall) (st : State) :
  ((exists st', MCInstall_checkUsable env self st = (Ok tt, st'))
   <-> path_exists env (path self) = true
       /\ path_exists env (versionsDir self) = true
       /\ exists v versions,
            MCInstall_versions env (allowSnapshotsOption (options st)) self
            = Ok (v :: versions))
  /\ (forall r st',
        MCInstall_checkUsable env self st = (r, st') ->
        options st' = options st /\ _installs st' = _installs st
        /\ forall e, r = Raise e ->
             (exists message, e = MCInstallError message)
             \/ e = OSError (versionsDir self)).
Proof.
  destruct (checkUsable_run env self st) as [lg E]. rewrite E.
  unfold checkUsable_outcome. split.
  - destruct (path_exists env (path self)); cbn [negb].
    2:{ split; [intros [st' H]; discriminate | intros (H & _); discriminate]. }
    destruct (path_exists env (versionsDir self)); cbn [negb].
    2:{ split; [intros [st' H]; discriminate | intros (_ & H & _); discriminate]. }
    destruct (MCInstall_versions env _ self) as [[|v versions]|e]; cbn.
    + split; [intros [st' H]; discriminate
             | intros (_ & _ & v & vs & H); discriminate].
    + split; [intros _; repeat split; eauto | intros _; eauto].
    + split; [intros [st' H]; discriminate
             | intros (_ & _ & v & vs & H); discriminate].
  - intros r st' H. injection H as <- <-. cbn [options _installs].
    split; [reflexivity|]. split; [reflexivity|]. intros e.
    destruct (path_exists env (path self)); cbn [negb];
      [|intros H; injection H as <-; eauto].
    destruct (path_exists env (versionsDir self)); cbn [negb];
      [|intros H; injection H as <-; eauto].
    destruct (MCInstall_versions env _ self) as [versions|e'] eqn:EV.
    + destruct (length versions =? 0)%nat; [|discriminate].
      intros H; injection H as <-; eauto.
    + intros H; injection H as <-. right.
      unfold MCInstall_versions in EV.
      destruct (listdir env (versionsDir self)); [discriminate|].
      now injection EV as <-.
Qed.

End Installation.

(** The installation of [vanilla_env] lists 1.9 and 1.10. *)
Lemma MCInstall_versions_sound_witness :
  MCInstall_versions vanilla_env false mc_install = Ok ["1.9"; "1.10"]
  /\ incl ["1.9"; "1.10"] ["1.9"; "1.10"].
Proof.
  destruct (MCInstall_versions_sound vanilla_env mc_install false) as (_ & _ & H).
  exact (H ["1.9"; "1.10"] eq_refl).
Defined.

(** The installation of [vanilla_env] passes the check. *)
Lemma MCInstall_checkUsable_spec_witness :
  exists st', MCInstall_checkUsable vanilla_env mc_install vanilla_state = (Ok tt, st').
Proof.
  apply (proj1 (MCInstall_checkUsable_spec vanilla_env mc_install vanilla_state)).
  split; [reflexivity|]. split; [reflexivity|].
  exists "1.9", ["1.10"]. reflexivity.
Defined.

(** ** Launcher configurations and instances *)

Section Launcher.
Variable env : Env.

Lemma MultiMCInstall_init_usable (configFile : string) :
  match MultiMCInstall_init env configFile with
  | Ok m => config_usable env configFile = true /\ configPath m = configFile
  | Raise e => config_usable env configFile = false
               /\ exists message, e = MultiMCInstallError message
  end.
Proof.
  unfold MultiMCInstall_init, config_usable, QSettings_value.
  destruct (path_exists env configFile); cbn [negb andb]; [|eauto].
  destruct (ini_value env configFile "InstanceDir") as [dir|]; cbn [str_nonempty negb];
    [|eauto].
  destruct (str_nonempty dir); cbn [negb]; eauto.
Qed.

(** X6: a launcher configuration is constructed exactly when its file
    exists and names a non-empty instance directory; any other case raises
    [MultiMCInstallError].  The instance directory is kept when absolute
    and resolved against the folder of the configuration file otherwise;
    the versions folder is the one beside the file; and the persisted
    value of the object leads back to the same object. *)
Theorem MultiMCInstall_init_spec (configFile : string) :
  (forall m,
      MultiMCInstall_init env configFile = Ok m ->
      path_exists env configFile = true
      /\ (exists dir,
             ini_value env configFile "InstanceDir" = Some dir
             /\ dir <> ""
             /\ instanceDir m = if isabs dir then dir
                                else join (dirname configFile) dir)
      /\ mmc_versionsDir m = join (dirname configFile) "versions"
      /\ json_configFile (MultiMCInstall_getJsonSettingValue m) = configFile
      /\ MultiMCInstall_init env
           (json_configFile (MultiMCInstall_getJsonSettingValue m)) = Ok m)
  /\ (forall e,
        MultiMCInstall_init env configFile = Raise e ->
        (exists message, e = MultiMCInstallError message)
        /\ (path_exists env configFile = false
            \/ ini_value env configFile "InstanceDir" = None
            \/ ini_value env configFile "InstanceDir" = Some ""))
  /\ (config_usable env configFile = true <->
      exists m, MultiMCInstall_init env configFile = Ok m).
Proof.
  split; [|split].
  - intros m H. pose proof H as H0. unfold MultiMCInstall_init, QSettings_value in H.
    destruct (path_exists env configFile); cbn [negb] in H; [|discriminate].
    destruct (ini_value env configFile "InstanceDir") as [dir|];
      cbn [str_nonempty negb] in H; [|discriminate].
    destruct dir as [|c dir]; cbn [str_nonempty negb] in H; [discriminate|].
    injection H as <-.
    cbn [instanceDir mmc_versionsDir configPath MultiMCInstall_getJsonSettingValue
           json_configFile].
    split; [reflexivity|]. split.
    + eexists. split; [reflexivity|]. split; [discriminate|].
      now destruct (isabs (String c dir)).
    + split; [reflexivity|]. split; [reflexivity|]. exact H0.
  - intros e H. unfold MultiMCInstall_init, QSettings_value in H.
    destruct (path_exists env configFile); cbn [negb] in H;
      [|injection H as <-; eauto].
    destruct (ini_value env configFile "InstanceDir") as [dir|];
      cbn [str_nonempty negb] in H; [|injection H as <-; eauto].
    destruct dir as [|c dir]; cbn [str_nonempty negb] in H; [|discriminate].
    injection H as <-; eauto.
  - pose proof (MultiMCInstall_init_usable configFile) as H.
    destruct (MultiMCInstall_init env configFile) as [m|e].
    + split; [eauto | intros _; apply H].
    + destruct H as [-> _]. split; [discriminate | intros [m Hm]; discriminate].
Qed.

(** X7: [_loadMMCInstalls] never raises.  It keeps, in stored order, the
    configurations that can be used, logs one warning for each one it
    drops, and leaves the options and the group untouched. *)
Theorem loadMMCInstalls_never_raises (st : State) :
  exists installs st',
    MCInstallGroup__loadMMCInstalls env st = (Ok installs, st')
    /\ map configPath installs
       = filter (config_usable env)
                (map json_configFile (multiMCInstallsOption (options st)))
    /\ options st' = options st
    /\ _installs st' = _installs st
    /\ (length (log st')
        = length (log st)
          + (length (multiMCInstallsOption (options st)) - length installs))%nat.
Proof.
  unfold MCInstallGroup__loadMMCInstalls, bind, get_options.
  generalize (multiMCInstallsOption (options st)) as values.
  intros values. revert st.
  induction values as [|value values IH]; intros st.
  - exists [], st. cbn. repeat split; lia.
  - cbn [_loadMMCInstalls_loop]. unfold bind at 1, try_except. unfold bind at 1, liftR.
    pose proof (MultiMCInstall_init_usable (json_configFile value)) as Hinit.
    cbn [map filter].
    destruct (MultiMCInstall_init env (json_configFile value)) as [m|e].
    + destruct Hinit as [-> Hm]. unfold ret at 1. cbn beta iota.
      destruct (IH st) as (installs & st' & E & Hmap & Ho & Hi & Hlog).
      unfold bind at 1. rewrite E. unfold ret.
      exists (m :: installs), st'. cbn [map app length].
      rewrite Hm, Hmap. repeat split; auto; lia.
    + destruct Hinit as [-> [message ->]].
      unfold bind, log_record, ret. cbn beta iota.
      match goal with |- context [_loadMMCInstalls_loop env values ?s] =>
        destruct (IH s) as (installs & st' & E & Hmap & Ho & Hi & Hlog) end.
      cbn [options _installs log] in *. unfold bind, ret in E. rewrite E.
      exists installs, st'. cbn [app]. repeat split; auto.
      rewrite Hlog, length_app. cbn [length].
      assert (Hle : (length installs <= length values)%nat).
      { rewrite <- (length_map configPath installs), Hmap.
        rewrite <- (length_map json_configFile values). apply filter_length_le. }
      lia.
Qed.

Lemma MMCInstance_init_cases (owner : MultiMCInstall) (folder : string) :
  match MMCInstance_init env owner folder with
  | Ok instance =>
      version instance <> "" /\ install instance = owner
      /\ saveFileDir instance = join3 folder "minecraft" "saves"
  | Raise e => exists message, e = MultiMCInstanceError message
  end.
Proof.
  unfold MMCInstance_init, QSettings_value.
  destruct (path_exists env (join folder "instance.cfg")); cbn [negb]; [|eauto].
  destruct (ini_value env (join folder "instance.cfg") "IntendedVersion")
    as [[|c v]|]; cbn [str_nonempty negb]; eauto.
  cbn [version install saveFileDir]. repeat split. discriminate.
Qed.

(** X8: an instance is constructed exactly when its folder holds an
    [instance.cfg] with a non-empty [IntendedVersion]; any other case
    raises [MultiMCInstanceError].  The instance has that one version, the
    configuration that owns it, the saves and mods folders under its own
    [minecraft] folder, and the name [(unnamed)] when the file gives none. *)
Theorem MMCInstance_init_spec (owner : MultiMCInstall) (folder : string) :
  let instanceCfg := join folder "instance.cfg" in
  (forall instance,
      MMCInstance_init env owner folder = Ok instance ->
      path_exists env instanceCfg = true
      /\ ini_value env instanceCfg "IntendedVersion" = Some (version instance)
      /\ version instance <> ""
      /\ MMCInstance_versions instance = [version instance]
      /\ install instance = owner
      /\ saveFileDir instance = join3 folder "minecraft" "saves"
      /\ modsDir instance = join3 folder "minecraft" "mods"
      /\ (ini_value env instanceCfg "name" = None ->
          instance_name instance = "(unnamed)"))
  /\ (forall e,
        MMCInstance_init env owner folder = Raise e ->
        (exists message, e = MultiMCInstanceError message)
        /\ (path_exists env instanceCfg = false
            \/ ini_value env instanceCfg "IntendedVersion" = None
            \/ ini_value env instanceCfg "IntendedVersion" = Some "")).
Proof.
  cbv zeta. unfold MMCInstance_init, QSettings_value. split.
  - intros instance H.
    destruct (path_exists env (join folder "instance.cfg")); cbn [negb] in H;
      [|discriminate].
    destruct (ini_value env (join folder "instance.cfg") "IntendedVersion")
      as [v|]; cbn [str_nonempty negb] in H; [|discriminate].
    destruct v as [|c v]; cbn [str_nonempty negb] in H; [discriminate|].
    injection H as <-.
    cbn [version install saveFileDir modsDir instance_name MMCInstance_versions].
    repeat split; try reflexivity; try discriminate.
    now intros ->.
  - intros e H.
    destruct (path_exists env (join folder "instance.cfg")); cbn [negb] in H;
      [|injection H as <-; eauto].
    destruct (ini_value env (join folder "instance.cfg") "IntendedVersion")
      as [v|]; cbn [str_nonempty negb] in H; [|injection H as <-; eauto].
    destruct v as [|c v]; cbn [str_nonempty negb] in H; [|discriminate].
    injection H as <-; eauto.
Qed.

(** X9: when the instance directory can be listed, the enumeration of
    instances never fails: every entry that is a directory gives one item,
    an instance or a logged error, in listing order, and other entries
    give none; each instance yielded belongs to the configuration, has a
    version, and keeps its saves in the [minecraft/saves] folder of a
    listed directory.  When the directory cannot be listed, the
    enumeration raises [OSError] at once. *)
Theorem MultiMCInstall_instances_spec (self : MultiMCInstall) :
  (forall filenames,
      listdir env (instanceDir self) = Some filenames ->
      let items := MultiMCInstall_instances env self in
      (forall e, ~ In (Throw e) items)
      /\ length items
         = length (filter (fun filename =>
                             path_isdir env (join (instanceDir self) filename))
                          filenames)
      /\ (forall r, In (Logged r) items -> r = error_CouldNotReadInstance)
      /\ (forall instance,
            In (Yield instance) items ->
            install instance = self
            /\ version instance <> ""
            /\ exists filename,
                 In filename filenames
                 /\ path_isdir env (join (instanceDir self) filename) = true
                 /\ saveFileDir instance
                    = join3 (join (instanceDir self) filename) "minecraft" "saves"))
  /\ (listdir env (instanceDir self) = None ->
      MultiMCInstall_instances env self = [Throw (OSError (instanceDir self))]).
Proof.
  unfold MultiMCInstall_instances. split.
  - intros filenames ->. cbv zeta.
    induction filenames as [|filename filenames (IH1 & IH2 & IH3 & IH4)].
    + cbn. repeat split; try tauto.
    + cbn [flat_map filter].
      pose proof (MMCInstance_init_cases self (join (instanceDir self) filename))
        as Hcases.
      destruct (path_isdir env (join (instanceDir self) filename)) eqn:Hdir;
        cbn [negb].
      * destruct (MMCInstance_init env self (join (instanceDir self) filename))
          as [instance|e] eqn:E.
        -- destruct Hcases as (Hv & Hi & Hs).
           cbn [app length]. split; [|split; [|split]].
           ++ intros e [H|H]; [discriminate | now apply (IH1 e)].
           ++ now rewrite IH2.
           ++ intros r [H|H]; [discriminate | now apply IH3].
           ++ intros i [H|H].
              ** injection H as <-. split; [exact Hi|]. split; [exact Hv|].
                 exists filename. split; [now left|]. split; [exact Hdir|exact Hs].
              ** destruct (IH4 i H) as (H1 & H2 & f & Hf & Hd & Hsv).
                 split; [exact H1|]. split; [exact H2|].
                 exists f. split; [now right|]. split; [exact Hd|exact Hsv].
        -- destruct Hcases as [message ->].
           cbn [app length]. split; [|split; [|split]].
           ++ intros e [H|H]; [discriminate | now apply (IH1 e)].
           ++ now rewrite IH2.
           ++ intros r [H|H]; [now injection H as <- | now apply IH3].
           ++ intros i [H|H]; [discriminate|].
              destruct (IH4 i H) as (H1 & H2 & f & Hf & Hd & Hsv).
              split; [exact H1|]. split; [exact H2|].
              exists f. split; [now right|]. split; [exact Hd|exact Hsv].
      * cbn [app]. split; [exact IH1|]. split; [exact IH2|]. split; [exact IH3|].
        intros i H. destruct (IH4 i H) as (H1 & H2 & f & Hf & Hd & Hsv).
        split; [exact H1|]. split; [exact H2|].
        exists f. split; [now right|]. split; [exact Hd|exact Hsv].
  - now intros ->.
Qed.

End Launcher.

(** The first configuration of [launcher_env] has one instance. *)
Lemma MultiMCInstall_instances_spec_witness :
  (forall e, ~ In (Throw e) (MultiMCInstall_instances launcher_env mmcA))
  /\ length (MultiMCInstall_instances launcher_env mmcA) = 1%nat.
Proof.
  destruct (MultiMCInstall_instances_spec launcher_env mmcA) as [H _].
  destruct (H ["one"] eq_refl) as (H1 & H2 & _).
  split; [exact H1 | exact H2].
Defined.

(** A configuration of [launcher_env] and its persisted value. *)
Lemma MultiMCInstall_init_spec_witness :
  MultiMCInstall_init launcher_env
    (json_configFile (MultiMCInstall_getJsonSettingValue mmcA)) = Ok mmcA.
Proof.
  destruct (MultiMCInstall_init_spec launcher_env "/mmcA/multimc.cfg") as [H _].
  destruct (H mmcA eq_refl) as (_ & _ & _ & _ & Hagain). exact Hagain.
Defined.

(** The instance of [launcher_env]. *)
Lemma MMCInstance_init_spec_witness :
  version (instance_of mmcA) <> ""
  /\ saveFileDir (instance_of mmcA) = "/shared/one/minecraft/saves".
Proof.
  destruct (MMCInstance_init_spec launcher_env mmcA "/shared/one") as [H _].
  destruct (H (instance_of mmcA) eq_refl) as (_ & _ & Hv & _ & _ & Hs & _).
  split; [exact Hv | exact Hs].
Defined.

(** ** The group: selection, singleton, adding and removing *)

Lemma existsb_find {A} (f : A -> bool) (l : list A) :
  existsb f l = true -> exists x, find f l = Some x.
Proof.
  induction l as [|a l IH]; simpl; [discriminate|].
  destruct (f a); [eauto | exact IH].
Qed.

Lemma find_existsb {A} (f : A -> bool) (l : list A) :
  existsb f l = false -> find f l = None.
Proof.
  induction l as [|a l IH]; simpl; [reflexivity|].
  destruct (f a); [discriminate | exact IH].
Qed.

(** X10: [getCurrentInstall] never raises.  With no installation it
    returns [None] and changes nothing; otherwise it returns a member of
    the installations whose path is the current-install option after the
    call: the selected one when the option names an installation, else the
    first installation, whose path is then written to the option. *)
Theorem getCurrentInstall_member (self : MCInstallGroup) (st : State) :
  exists r st',
    MCInstallGroup_getCurrentInstall self st = (Ok r, st')
    /\ _installs st' = _installs st /\ log st' = log st
    /\ (_installations self = [] -> r = None /\ st' = st)
    /\ (forall first others,
          _installations self = first :: others ->
          exists i, r = Some i /\ In i (_installations self)
                    /\ path i = currentInstallOption (options st'))
    /\ (forall i,
          MCInstallGroup_getInstall self
            (Some (currentInstallOption (options st))) = Some i ->
          r = Some i /\ st' = st)
    /\ (forall first others,
          _installations self = first :: others ->
          MCInstallGroup_getInstall self
            (Some (currentInstallOption (options st))) = None ->
          r = Some first
          /\ options st' = set_currentInstallOption (path first) (options st)).
Proof.
  unfold MCInstallGroup_getCurrentInstall, MCInstallGroup_selectedInstallPath,
    MCInstallGroup_getInstall, bind, get_options, ret, modify_options.
  destruct (existsb (fun install => (path install =? currentInstallOption (options st))%string)
                    (_installations self)) eqn:E.
  - destruct (existsb_find _ _ E) as [x Hx].
    eexists; eexists. split; [reflexivity|]. rewrite Hx.
    split; [reflexivity|]. split; [reflexivity|]. split; [|split; [|split]].
    + intros Hnil. rewrite Hnil in E. discriminate.
    + intros first others _. exists x. split; [reflexivity|].
      apply find_some in Hx as [Hin Hp]. apply String.eqb_eq in Hp. auto.
    + intros i Hi. injection Hi as <-. auto.
    + intros first others _ H. discriminate.
  - rewrite (find_existsb _ _ E).
    destruct (_installations self) as [|first others] eqn:EL.
    + eexists; eexists. split; [reflexivity|].
      split; [reflexivity|]. split; [reflexivity|]. split; [|split; [|split]];
        try discriminate; auto.
    + eexists; eexists. split; [reflexivity|]. cbn [find options _installs log].
      rewrite String.eqb_refl.
      split; [reflexivity|]. split; [reflexivity|]. split; [|split; [|split]];
        try discriminate.
      * intros f o _. exists first. split; [reflexivity|]. split; [now left|reflexivity].
      * intros f o Hfo _. injection Hfo as <- <-. auto.
Qed.

(** With two installations and a stale option the first one is chosen. *)
Lemma getCurrentInstall_member_witness :
  fst (MCInstallGroup_getCurrentInstall vanilla_group
         (select "/gone" "" "" vanilla_state)) = Ok (Some mc_install).
Proof.
  destruct (getCurrentInstall_member vanilla_group (select "/gone" "" "" vanilla_state))
    as (r & st' & E & _ & _ & _ & _ & _ & H).
  destruct (H mc_install [] eq_refl eq_refl) as [-> _]. now rewrite E.
Defined.

Section Singleton.
Variable env : Env.

(** X11: the group is constructed once.  When [GetInstalls] returns a
    group it has stored it in [_installs], and every later call returns
    that group without running the discovery again and without any
    effect; when the construction raises, [_installs] stays unset. *)
Theorem GetInstalls_once (st : State) :
  (forall installs st1,
      GetInstalls env st = (Ok installs, st1) ->
      _installs st1 = Some installs
      /\ GetInstalls env st1 = (Ok installs, st1))
  /\ (forall installs, _installs st = Some installs ->
                       GetInstalls env st = (Ok installs, st))
  /\ (forall e st1, GetInstalls env st = (Raise e, st1) ->
                    _installs st = None /\ _installs st1 = None).
Proof.
  assert (Hset : forall installs, _installs st = Some installs ->
                                  GetInstalls env st = (Ok installs, st)).
  { intros installs H. unfold GetInstalls, bind, get__installs, ret. now rewrite H. }
  split; [|split; [exact Hset|]].
  - intros installs st1 H.
    assert (Hst1 : _installs st1 = Some installs).
    { unfold GetInstalls, bind, get__installs, ret, set__installs in H.
      destruct (_installs st) as [g|] eqn:E.
      - injection H as <- <-. exact E.
      - destruct (MCInstallGroup_init env st) as [[g|e] s]; [|discriminate].
        injection H as <- <-. reflexivity. }
    split; [exact Hst1|].
    unfold GetInstalls, bind, get__installs, ret. now rewrite Hst1.
  - intros e st1 H.
    unfold GetInstalls, bind, get__installs, ret, set__installs in H.
    destruct (_installs st) as [g|] eqn:E; [discriminate|].
    destruct (init_run env st) as [lg Hrun]. rewrite Hrun in H.
    destruct (fst (init_outcome env (options st))); [discriminate|].
    injection H as _ <-. cbn [_installs]. auto.
Qed.

End Singleton.

(** The first call of a new process on [vanilla_env]. *)
Lemma GetInstalls_once_witness :
  let st1 := snd (GetInstalls vanilla_env (fresh_process no_settings)) in
  GetInstalls vanilla_env st1 = (Ok vanilla_group, st1).
Proof.
  destruct (GetInstalls_once vanilla_env (fresh_process no_settings)) as [H _].
  exact (proj2 (H vanilla_group
                  (snd (GetInstalls vanilla_env (fresh_process no_settings)))
                  eq_refl)).
Defined.

Lemma group_eta (self : MCInstallGroup) :
  {| _installations := _installations self; _mmcInstalls := _mmcInstalls self |}
  = self.
Proof. now destruct self. Qed.

Lemma py_del_in_range {A} (xs : list A) (k : nat) :
  (k < length xs)%nat ->
  py_del xs (Z.of_nat k) = Some (firstn k xs ++ skipn (S k) xs)%list
  /\ py_del xs (Z.of_nat k - Z.of_nat (length xs))
     = Some (firstn k xs ++ skipn (S k) xs)%list.
Proof.
  intros Hk. unfold py_del. split.
  - destruct (Z.of_nat k <? 0) eqn:E1; [lia|].
    destruct ((Z.of_nat k <? 0) || (Z.of_nat (length xs) <=? Z.of_nat k)) eqn:E2.
    + apply orb_true_iff in E2 as [E2|E2]; lia.
    + now rewrite Nat2Z.id.
  - destruct (Z.of_nat k - Z.of_nat (length xs) <? 0) eqn:E1; [|lia].
    replace (Z.of_nat k - Z.of_nat (length xs) + Z.of_nat (length xs))
      with (Z.of_nat k) by lia.
    destruct ((Z.of_nat k <? 0) || (Z.of_nat (length xs) <=? Z.of_nat k)) eqn:E2.
    + apply orb_true_iff in E2 as [E2|E2]; lia.
    + now rewrite Nat2Z.id.
Qed.

Lemma py_del_out_of_range {A} (xs : list A) (index : Z) :
  index < - Z.of_nat (length xs) \/ Z.of_nat (length xs) <= index ->
  py_del xs index = None.
Proof.
  intros H. unfold py_del.
  destruct (index <? 0) eqn:E1.
  - destruct ((index + Z.of_nat (length xs) <? 0)
              || (Z.of_nat (length xs) <=? index + Z.of_nat (length xs))) eqn:E2;
      [reflexivity|].
    apply orb_false_iff in E2 as [E2 E3]. lia.
  - destruct ((index <? 0) || (Z.of_nat (length xs) <=? index)) eqn:E2;
      [reflexivity|].
    apply orb_false_iff in E2 as [E2 E3]. lia.
Qed.

(** X12: [removeMMCInstall] with the position [k] of a launcher
    configuration, or with [k] minus the number of configurations (an index
    from the end, which is what a table without a selected row passes as
    -1), removes that one configuration, keeps the others in order and the
    installations as they are, and persists both lists.  With any other
    index it raises [IndexError] and neither the group nor the settings
    change. *)
Theorem removeMMCInstall_by_index (self : MCInstallGroup) (st : State) :
  (forall k index,
      (k < length (_mmcInstalls self))%nat ->
      index = Z.of_nat k
      \/ index = Z.of_nat k - Z.of_nat (length (_mmcInstalls self)) ->
      exists self' st',
        MCInstallGroup_removeMMCInstall self index st = (Ok self', st')
        /\ _installations self' = _installations self
        /\ S (length (_mmcInstalls self')) = length (_mmcInstalls self)
        /\ (forall j, (j < k)%nat ->
                      nth_error (_mmcInstalls self') j
                      = nth_error (_mmcInstalls self) j)
        /\ (forall j, (k <= j)%nat ->
                      nth_error (_mmcInstalls self') j
                      = nth_error (_mmcInstalls self) (S j))
        /\ multiMCInstallsOption (options st')
           = map MultiMCInstall_getJsonSettingValue (_mmcInstalls self')
        /\ installationsOption (options st')
           = map MCInstall_getJsonSettingValue (_installations self'))
  /\ (forall index,
        index < - Z.of_nat (length (_mmcInstalls self))
        \/ Z.of_nat (length (_mmcInstalls self)) <= index ->
        MCInstallGroup_removeMMCInstall self index st = (Raise IndexError, st)).
Proof.
  split.
  - intros k index Hk Hindex.
    assert (Hdel : py_del (_mmcInstalls self) index
                   = Some (firstn k (_mmcInstalls self)
                           ++ skipn (S k) (_mmcInstalls self))%list).
    { destruct (py_del_in_range (_mmcInstalls self) k Hk) as [H1 H2].
      destruct Hindex as [->| ->]; assumption. }
    unfold MCInstallGroup_removeMMCInstall. rewrite Hdel.
    unfold bind. rewrite saveInstalls_run.
    eexists; eexists. split; [reflexivity|].
    cbn [_installations _mmcInstalls options set_multiMCInstallsOption
           set_installationsOption multiMCInstallsOption installationsOption].
    split; [reflexivity|]. split; [|split; [|split; [|split]]]; try reflexivity.
    + rewrite length_app, length_firstn, length_skipn. lia.
    + intros j Hj. rewrite nth_error_app1 by (rewrite length_firstn; lia).
      rewrite nth_error_firstn.
      destruct (Nat.ltb_spec j k); [reflexivity | lia].
    + intros j Hj. rewrite nth_error_app2 by (rewrite length_firstn; lia).
      rewrite length_firstn, nth_error_skipn. f_equal. lia.
  - intros index H. unfold MCInstallGroup_removeMMCInstall.
    now rewrite (py_del_out_of_range _ index H).
Qed.

(** Index -1 removes the second of the two configurations. *)
Lemma removeMMCInstall_by_index_witness :
  exists self',
    fst (MCInstallGroup_removeMMCInstall launcher_group (-1) launcher_state) = Ok self'
    /\ nth_error (_mmcInstalls self') 0 = Some mmcA
    /\ length (_mmcInstalls launcher_group) = S (length (_mmcInstalls self')).
Proof.
  destruct (removeMMCInstall_by_index launcher_group launcher_state) as [H _].
  destruct (H 1%nat (-1) (le_n 2) (or_intror eq_refl))
    as (self' & st' & E & _ & Hlen & Hbefore & _).
  exists self'. split; [now rewrite E|]. split.
  - exact (Hbefore 0%nat (le_n 1)).
  - now rewrite Hlen.
Defined.

(** X13: adding a launcher configuration and then removing the last one
    (index -1, or its position) gives back the group as it was, and the
    persisted lists are those of that group. *)
Theorem addMMCInstall_removeMMCInstall_round_trip
        (self : MCInstallGroup) (install : MultiMCInstall) (st : State) :
  forall index,
    index = -1 \/ index = Z.of_nat (length (_mmcInstalls self)) ->
    exists self1 st1 st2,
      MCInstallGroup_addMMCInstall self install st = (Ok self1, st1)
      /\ _mmcInstalls self1 = (_mmcInstalls self ++ [install])%list
      /\ MCInstallGroup_removeMMCInstall self1 index st1 = (Ok self, st2)
      /\ multiMCInstallsOption (options st2)
         = map MultiMCInstall_getJsonSettingValue (_mmcInstalls self)
      /\ installationsOption (options st2)
         = map MCInstall_getJsonSettingValue (_installations self).
Proof.
  intros index Hindex.
  unfold MCInstallGroup_addMMCInstall, bind. rewrite saveInstalls_run.
  eexists; eexists; eexists. split; [reflexivity|]. split; [reflexivity|].
  unfold MCInstallGroup_removeMMCInstall. cbn [_mmcInstalls _installations].
  assert (Hdel : py_del (_mmcInstalls self ++ [install]) index
                 = Some (_mmcInstalls self)).
  { destruct (py_del_in_range (_mmcInstalls self ++ [install])
                              (length (_mmcInstalls self))) as [H1 H2].
    { rewrite length_app. simpl. lia. }
    rewrite firstn_app, Nat.sub_diag, firstn_all in H1, H2.
    rewrite skipn_all2 in H1, H2 by (rewrite length_app; simpl; lia).
    cbn [firstn] in H1, H2. rewrite !app_nil_r in H1, H2.
    destruct Hindex as [->| ->]; [|exact H1].
    rewrite <- H2. f_equal. rewrite length_app. simpl. lia. }
  rewrite Hdel. unfold bind. rewrite saveInstalls_run. rewrite group_eta.
  split; [reflexivity|]. split; reflexivity.
Qed.

(** Add a third configuration to [launcher_group] and take it away. *)
Lemma addMMCInstall_removeMMCInstall_round_trip_witness :
  exists self1 st1 st2,
    MCInstallGroup_addMMCInstall launcher_group mmcA launcher_state = (Ok self1, st1)
    /\ MCInstallGroup_removeMMCInstall self1 (-1) st1 = (Ok launcher_group, st2).
Proof.
  destruct (addMMCInstall_removeMMCInstall_round_trip
              launcher_group mmcA launcher_state (-1) (or_introl eq_refl))
    as (self1 & st1 & st2 & E1 & _ & E2 & _).
  now exists self1, st1, st2.
Defined.

(** X14: adding an installation whose path no installation has yet and
    then removing that path gives back the group as it was, and the
    persisted installations are those of that group. *)
Theorem addInstall_removeInstall_round_trip
        (self : MCInstallGroup) (install : MCInstall) (st : State) :
  (forall other, In other (_installations self) -> path other <> path install) ->
  exists self1 st1 st2,
    MCInstallGroup_addInstall self install st = (Ok self1, st1)
    /\ MCInstallGroup_removeInstall self1 (path install) st1 = (Ok self, st2)
    /\ installationsOption (options st2)
       = map MCInstall_getJsonSettingValue (_installations self).
Proof.
  intros Hfresh.
  unfold MCInstallGroup_addInstall, bind. rewrite saveInstalls_run.
  eexists; eexists; eexists. split; [reflexivity|].
  unfold MCInstallGroup_removeInstall, bind. rewrite saveInstalls_run.
  cbn [_installations _mmcInstalls].
  assert (Hfilter : filter (fun i => negb (path i =? path install)%string)
                           (_installations self ++ [install])
                    = _installations self).
  { rewrite filter_app. cbn [filter]. rewrite String.eqb_refl. cbn [negb].
    rewrite app_nil_r. apply forallb_filter_id. apply forallb_forall.
    intros other Hin. apply negb_true_iff. apply String.eqb_neq. now apply Hfresh. }
  rewrite Hfilter, group_eta. split; reflexivity.
Qed.

(** A second folder is added to [vanilla_group] and removed again. *)
Lemma addInstall_removeInstall_round_trip_witness :
  exists self1 st1 st2,
    MCInstallGroup_addInstall vanilla_group (MCInstall_init "/other" "Other")
      vanilla_state = (Ok self1, st1)
    /\ MCInstallGroup_removeInstall self1 "/other" st1 = (Ok vanilla_group, st2).
Proof.
  destruct (addInstall_removeInstall_round_trip
              vanilla_group (MCInstall_init "/other" "Other") vanilla_state)
    as (self1 & st1 & st2 & E1 & E2 & _).
  - intros other [<-|[]]. discriminate.
  - now exists self1, st1, st2.
Defined.

(** ** Loading and saving the installations *)

Section Loading.
Variable env : Env.

Lemma checkUsable_outcome_usable (allowSnapshots : bool) (self : MCInstall) :
  (checkUsable_outcome env allowSnapshots self = Ok tt
   <-> install_usable env allowSnapshots self = true)
  /\ (forall message,
        checkUsable_outcome env allowSnapshots self = Raise (MCInstallError message) ->
        install_usable env allowSnapshots self = false)
  /\ (forall e,
        checkUsable_outcome env allowSnapshots self = Raise e ->
        (exists message, e = MCInstallError message)
        \/ e = OSError (versionsDir self)).
Proof.
  unfold checkUsable_outcome, install_usable.
  destruct (path_exists env (path self)); cbn [negb andb].
  2:{ split; [split; discriminate|]. split; [reflexivity|].
      intros e H. injection H as <-. eauto. }
  destruct (path_exists env (versionsDir self)); cbn [negb andb].
  2:{ split; [split; discriminate|]. split; [reflexivity|].
      intros e H. injection H as <-. eauto. }
  destruct (MCInstall_versions env allowSnapshots self) as [[|v versions]|e'] eqn:EV;
    cbn.
  - split; [split; discriminate|]. split; [reflexivity|].
    intros e H. injection H as <-. eauto.
  - split; [split; reflexivity|]. split; discriminate.
  - split; [split; discriminate|]. split; [reflexivity|].
    intros e H. injection H as <-. right.
    unfold MCInstall_versions in EV.
    destruct (listdir env (versionsDir self)); [discriminate|].
    now injection EV as <-.
Qed.

Lemma loaded_installs_filter allowSnapshots values :
  match loaded_installs env allowSnapshots values with
  | Ok installs =>
      map MCInstall_getJsonSettingValue installs
      = filter (fun value =>
                  install_usable env allowSnapshots
                    (MCInstall_init (json_path value) (json_name value)))
               values
  | Raise e => exists dir, e = OSError dir
  end.
Proof.
  induction values as [|value values IH]; [reflexivity|].
  cbn [loaded_installs filter].
  destruct (checkUsable_outcome_usable allowSnapshots
              (MCInstall_init (json_path value) (json_name value)))
    as (Hok & Hdrop & Hraise).
  destruct (checkUsable_outcome env allowSnapshots _) as [[]|e] eqn:E.
  - rewrite (proj1 Hok eq_refl).
    destruct (loaded_installs env allowSnapshots values) as [others|e]; cbn [bindR];
      [|exact IH].
    cbn [map]. rewrite IH. now destruct value.
  - destruct (Hraise e eq_refl) as [[message ->]| ->].
    + rewrite (Hdrop message eq_refl). exact IH.
    + eauto.
Qed.

(** X15: [_loadInstalls] keeps, in stored order, exactly the persisted
    installations whose folder and versions folder exist and which have a
    version; each one it keeps is built from its persisted name and path.
    A candidate that fails the check is dropped, not fatal; the only
    exception that leaves the loop is the [OSError] of a versions folder
    that cannot be listed.  The options and the group are not touched. *)
Theorem loadInstalls_keeps_usable (st : State) :
  forall r st',
    MCInstallGroup__loadInstalls env st = (r, st') ->
    options st' = options st /\ _installs st' = _installs st
    /\ (forall installs,
          r = Ok installs ->
          map MCInstall_getJsonSettingValue installs
          = filter (fun value =>
                      install_usable env (allowSnapshotsOption (options st))
                        (MCInstall_init (json_path value) (json_name value)))
                   (installationsOption (options st))
          /\ Forall (fun i =>
                       install_usable env (allowSnapshotsOption (options st)) i = true
                       /\ versionsDir i = join (path i) "versions")
                    installs)
    /\ (forall e, r = Raise e -> exists dir, e = OSError dir).
Proof.
  intros r st' H.
  unfold MCInstallGroup__loadInstalls, bind, get_options in H.
  destruct (loadInstalls_loop_run env (installationsOption (options st)) st)
    as [lg E].
  rewrite E in H. injection H as <- <-. cbn [options _installs].
  split; [reflexivity|]. split; [reflexivity|].
  pose proof (loaded_installs_filter (allowSnapshotsOption (options st))
                (installationsOption (options st))) as Hfilter.
  split.
  - intros installs Hr. rewrite Hr in Hfilter. split; [exact Hfilter|].
    apply loaded_installs_usable in Hr.
    eapply Forall_impl; [|exact Hr]. intros i [Hi Hinit]. split.
    + now apply (checkUsable_outcome_usable _ i).
    + rewrite <- Hinit. reflexivity.
  - intros e Hr. now rewrite Hr in Hfilter.
Qed.

Lemma loaded_mmcInstalls_again (mmcInstalls : list MultiMCInstall) :
  Forall (fun m => MultiMCInstall_init env (configPath m) = Ok m) mmcInstalls ->
  loaded_mmcInstalls env (map MultiMCInstall_getJsonSettingValue mmcInstalls)
  = Ok mmcInstalls.
Proof.
  induction 1 as [|m l Hm _ IH]; [reflexivity|].
  cbn [map loaded_mmcInstalls MultiMCInstall_getJsonSettingValue json_configFile].
  now rewrite Hm, IH.
Qed.

(** X16: what [_saveInstalls] persists, the two loading loops read back:
    for a group whose installations are usable and keep their versions
    folder under their path, and whose launcher configurations can be
    constructed again from their file, saving and then loading returns
    the same installations and configurations, in the same order. *)
Theorem saveInstalls_load_round_trip (self : MCInstallGroup) (st : State) :
  Forall (fun i =>
            install_usable env (allowSnapshotsOption (options st)) i = true
            /\ versionsDir i = join (path i) "versions")
         (_installations self) ->
  Forall (fun m => MultiMCInstall_init env (configPath m) = Ok m)
         (_mmcInstalls self) ->
  exists st1 st2 st3,
    MCInstallGroup__saveInstalls self st = (Ok tt, st1)
    /\ MCInstallGroup__loadInstalls env st1 = (Ok (_installations self), st2)
    /\ MCInstallGroup__loadMMCInstalls env st2 = (Ok (_mmcInstalls self), st3)
    /\ options st3 = options st1.
Proof.
  intros Hinstalls Hmmc. rewrite saveInstalls_run.
  eexists. 
  match goal with |- exists st2 st3, (_, ?s) = _ /\ _ => set (st1 := s) end.
  unfold MCInstallGroup__loadInstalls, MCInstallGroup__loadMMCInstalls,
    bind, get_options.
  destruct (loadInstalls_loop_run env (installationsOption (options st1)) st1)
    as [lg1 E1].
  assert (Hload : loaded_installs env (allowSnapshotsOption (options st1))
                    (installationsOption (options st1))
                  = Ok (_installations self)).
  { cbn [st1 options installationsOption allowSnapshotsOption
           set_multiMCInstallsOption set_installationsOption].
    apply loaded_installs_reload.
    eapply Forall_impl; [|exact Hinstalls]. intros i [Hi Hdir]. split.
    - now apply (checkUsable_outcome_usable _ i).
    - destruct i as [n p d]. cbn in *. now subst d. }
  rewrite Hload in E1.
  destruct (loadMMCInstalls_loop_run env (multiMCInstallsOption (options st1))
              {| options := options st1; _installs := _installs st1; log := lg1 |})
    as [lg2 E2].
  assert (Hagain : loaded_mmcInstalls env (multiMCInstallsOption (options st1))
                   = Ok (_mmcInstalls self))
    by (exact (loaded_mmcInstalls_again _ Hmmc)).
  rewrite Hagain in E2. cbn [options _installs] in E2.
  exists {| options := options st1; _installs := _installs st1; log := lg1 |},
         {| options := options st1; _installs := _installs st1; log := lg2 |}.
  split; [reflexivity|]. split; [exact E1|]. split; [exact E2 | reflexivity].
Qed.

End Loading.

(** The group of [vanilla_env] is saved and read back. *)
Lemma saveInstalls_load_round_trip_witness :
  exists st1 st2,
    MCInstallGroup__saveInstalls vanilla_group vanilla_state = (Ok tt, st1)
    /\ MCInstallGroup__loadInstalls vanilla_env st1
       = (Ok (_installations vanilla_group), st2).
Proof.
  destruct (saveInstalls_load_round_trip vanilla_env vanilla_group vanilla_state)
    as (st1 & st2 & st3 & E1 & E2 & _).
  - constructor; [|constructor]. split; reflexivity.
  - constructor.
  - now exists st1, st2.
Defined.

(** The settings of [vanilla_state] are loaded on [vanilla_env]. *)
Lemma loadInstalls_keeps_usable_witness :
  exists installs,
    fst (MCInstallGroup__loadInstalls vanilla_env vanilla_state) = Ok installs
    /\ map MCInstall_getJsonSettingValue installs
       = [MCInstall_getJsonSettingValue mc_install].
Proof.
  exists [mc_install]. split; [reflexivity|].
  destruct (MCInstallGroup__loadInstalls vanilla_env vanilla_state)
    as [r st'] eqn:E.
  destruct (loadInstalls_keeps_usable vanilla_env vanilla_state r st' E)
    as (_ & _ & Hok & _).
  assert (Hr : r = Ok [mc_install]).
  { vm_compute in E. now injection E as <- _. }
  exact (proj1 (Hok [mc_install] Hr)).
Defined.

(** ** The construction of the group *)

Section Construction.
Variable env : Env.

Lemma settle_current_found (self : MCInstallGroup) (opts : Settings)
      (first : MCInstall) (others : list MCInstall) :
  _installations self = first :: others ->
  MCInstallGroup_getInstall self
    (Some (currentInstallOption (settle_current self opts))) <> None.
Proof.
  intros HL. unfold settle_current.
  destruct (MCInstallGroup_getInstall self (Some (currentInstallOption opts)))
    eqn:E; [now rewrite E|].
  rewrite HL. cbn [currentInstallOption set_currentInstallOption].
  apply getInstall_found. rewrite HL. now left.
Qed.

Lemma settle_current_frame (self : MCInstallGroup) (opts : Settings) :
  currentVersionOption (settle_current self opts) = currentVersionOption opts
  /\ currentResourcePackOption (settle_current self opts)
     = currentResourcePackOption opts.
Proof.
  unfold settle_current.
  destruct (MCInstallGroup_getInstall self _); [auto|].
  destruct (_installations self); auto.
Qed.

(** X17: when [getDefaultInstall] finds the default installation usable
    it returns it; its receiver gets the default installation appended
    exactly when its name and path were not in the persisted list, and is
    left as it was otherwise; afterwards that name and path are in the
    persisted list and the current-install option is what it was, or the
    default path if it was empty.  When the default installation is not
    usable it returns [None] (or lets the [OSError] of an unlistable
    versions folder through) and changes neither its receiver nor the
    options. *)
Theorem getDefaultInstall_outcome (self : MCInstallGroup) (st : State) :
  forall r st',
    MCInstallGroup_getDefaultInstall env self st = (r, st') ->
    (install_usable env (allowSnapshotsOption (options st)) (default_install env)
     = true ->
     exists self',
       r = Ok (Some (default_install env), self')
       /\ _installations self'
          = (if existsb (JsonInstall_eqb
                           (MCInstall_getJsonSettingValue (default_install env)))
                        (installationsOption (options st))
             then _installations self
             else _installations self ++ [default_install env])%list
       /\ _mmcInstalls self' = _mmcInstalls self
       /\ In (MCInstall_getJsonSettingValue (default_install env))
             (installationsOption (options st'))
       /\ currentInstallOption (options st')
          = (if (currentInstallOption (options st) =? "")%string
             then minecraftDir env
             else currentInstallOption (options st)))
    /\ (install_usable env (allowSnapshotsOption (options st)) (default_install env)
        = false ->
        (r = Ok (None, self) \/ exists dir, r = Raise (OSError dir))
        /\ options st' = options st).
Proof.
  intros r st' H.
  destruct (getDefaultInstall_run env self st) as [lg E]. rewrite E in H. clear E.
  destruct (checkUsable_outcome_usable env (allowSnapshotsOption (options st))
              (default_install env)) as (Hok & Hdrop & Hraise).
  destruct (checkUsable_outcome env _ (default_install env)) as [[]|e].
  - injection H as <- <-. cbn [_installs options].
    rewrite (proj1 Hok eq_refl). split; [|discriminate]. intros _.
    eexists. split; [reflexivity|]. unfold after_default_install. cbv zeta.
    destruct (existsb _ (installationsOption (options st))) eqn:Epresent;
      cbn [fst snd].
    + apply existsb_JsonInstall_eqb in Epresent.
      split; [reflexivity|]. split; [reflexivity|].
      destruct (currentInstallOption (options st) =? "")%string; auto.
    + cbn [currentInstallOption set_multiMCInstallsOption set_installationsOption
           _installations _mmcInstalls].
      split; [reflexivity|]. split; [reflexivity|].
      assert (Hin : In (MCInstall_getJsonSettingValue (default_install env))
                       (map MCInstall_getJsonSettingValue
                            (_installations self ++ [default_install env]))).
      { apply in_map, in_or_app. right. now left. }
      destruct (currentInstallOption (options st) =? "")%string; auto.
  - injection H as <- <-. cbn [_installs options].
    destruct (Hraise e eq_refl) as [[message ->]| ->].
    + rewrite (Hdrop message eq_refl). split; [discriminate|]. auto.
    + assert (Hno : install_usable env (allowSnapshotsOption (options st))
                      (default_install env) = false).
      { pose proof (proj2 Hok) as Hk.
        destruct (install_usable env _ _); [|reflexivity].
        discriminate (Hk eq_refl). }
      rewrite Hno. split; [discriminate|]. intros _. split; [eauto | reflexivity].
Qed.

Lemma init_outcome_invariant (opts : Settings) (self : MCInstallGroup) :
  fst (init_outcome env opts) = Ok self ->
  let opts' := snd (init_outcome env opts) in
  Forall (fun i => install_usable env (allowSnapshotsOption opts) i = true)
         (_installations self)
  /\ (forall first others,
        _installations self = first :: others ->
        MCInstallGroup_getInstall self (Some (currentInstallOption opts')) <> None)
  /\ (_installations self = [] -> currentInstallOption opts' = "")
  /\ allowSnapshotsOption opts' = allowSnapshotsOption opts
  /\ currentVersionOption opts' = currentVersionOption opts
  /\ currentResourcePackOption opts' = currentResourcePackOption opts.
Proof.
  unfold init_outcome.
  destruct (loaded_installs env (allowSnapshotsOption opts) (installationsOption opts))
    as [installations|e] eqn:EL; [|discriminate].
  destruct (loaded_mmcInstalls env (multiMCInstallsOption opts))
    as [mmcInstalls|e] eqn:EM; [|discriminate].
  set (self0 := {| _installations := installations; _mmcInstalls := mmcInstalls |}).
  cbv zeta.
  destruct (settle_current_spec self0 opts) as (SI & SM & SA & Sfix & Scur).
  destruct (settle_current_frame self0 opts) as (SV & SP).
  pose proof (settle_current_found self0 opts) as Sfound.
  set (opts1 := settle_current self0 opts) in *.
  assert (Husable : Forall (fun i => install_usable env (allowSnapshotsOption opts) i
                                     = true) installations).
  { eapply Forall_impl; [|exact (loaded_installs_usable env _ _ _ EL)].
    intros i [Hi _]. now apply (checkUsable_outcome_usable env _ i). }
  assert (Hempty : installations = [] -> currentInstallOption opts1 = "").
  { intros ->. destruct Scur as [H|H]; [exact H|]. now elim H. }
  destruct (checkUsable_outcome env (allowSnapshotsOption opts1) (default_install env))
    as [[]|e] eqn:EU.
  - cbn [fst snd]. unfold after_default_install. cbv zeta.
    assert (HD : install_usable env (allowSnapshotsOption opts) (default_install env)
                 = true).
    { rewrite <- SA. now apply (checkUsable_outcome_usable env _ (default_install env)). }
    destruct (existsb _ (installationsOption opts1)) eqn:Epresent; cbn [fst snd].
    + intros H. injection H as <-.
      assert (Hin : In (default_install env) installations).
      { apply existsb_JsonInstall_eqb in Epresent. rewrite SI in Epresent.
        rewrite SA in EU.
        exact (loaded_installs_keeps env _ _ _ _ EL Epresent EU). }
      split; [exact Husable|].
      destruct (currentInstallOption opts1 =? "")%string eqn:Ecur;
        cbn [currentInstallOption set_currentInstallOption allowSnapshotsOption
               currentVersionOption currentResourcePackOption].
      * split; [|split; [|auto]].
        -- intros first others _. now apply getInstall_found.
        -- intros Hnil. cbn [self0 _installations] in Hnil. rewrite Hnil in Hin.
           contradiction.
      * split; [|split; [|auto]].
        -- intros first others HL. now apply (Sfound first others).
        -- exact Hempty.
    + intros H. injection H as <-. cbn [_installations self0].
      split; [apply Forall_app; split; [exact Husable|now constructor]|].
      assert (Hdefault : MCInstallGroup_getInstall
                {| _installations := installations ++ [default_install env];
                   _mmcInstalls := _mmcInstalls self0 |}
                (Some (path (default_install env))) <> None).
      { apply getInstall_found. apply in_or_app. right. now left. }
      match goal with |- context [if ?c then _ else _] => destruct c eqn:Ecur end;
        cbn [currentInstallOption set_currentInstallOption allowSnapshotsOption
               currentVersionOption currentResourcePackOption
               set_multiMCInstallsOption set_installationsOption] in *.
      * split; [|split; [|auto]].
        -- intros first others _. exact Hdefault.
        -- intros Hnil. now apply app_eq_nil in Hnil as [_ Hnil].
      * split; [|split; [|auto]].
        -- intros first others _. apply getInstall_more.
           destruct Scur as [Sempty|Sf]; [|exact Sf].
           rewrite Sempty in Ecur. discriminate.
        -- intros Hnil. now apply app_eq_nil in Hnil as [_ Hnil].
  - destruct e; cbn [fst snd]; try discriminate.
    intros H. injection H as <-. split; [exact Husable|].
    split; [|split; [|auto]].
    + intros first others HL. now apply (Sfound first others).
    + exact Hempty.
Qed.

(** X18: after a construction of the group that returns, every
    installation it holds passes the three conditions of [checkUsable];
    the current-install option names one of them whenever there is one,
    and is empty when there is none; the snapshots, current-version and
    current-resource-pack options are as before. *)
Theorem MCInstallGroup_init_invariant (st : State) (self : MCInstallGroup)
        (st' : State) :
  MCInstallGroup_init env st = (Ok self, st') ->
  Forall (fun i => install_usable env (allowSnapshotsOption (options st)) i = true)
         (_installations self)
  /\ (forall first others,
        _installations self = first :: others ->
        exists current,
          MCInstallGroup_getInstall self
            (Some (currentInstallOption (options st'))) = Some current
          /\ In current (_installations self))
  /\ (_installations self = [] -> currentInstallOption (options st') = "")
  /\ allowSnapshotsOption (options st') = allowSnapshotsOption (options st)
  /\ currentVersionOption (options st') = currentVersionOption (options st)
  /\ currentResourcePackOption (options st')
     = currentResourcePackOption (options st)
  /\ _installs st' = _installs st.
Proof.
  intros H. destruct (init_run env st) as [lg E]. rewrite E in H.
  injection H as Hfst <-. cbn [options _installs].
  destruct (init_outcome_invariant (options st) self Hfst)
    as (H1 & H2 & H3 & H4 & H5 & H6).
  split; [exact H1|]. split; [|auto].
  intros first others HL. specialize (H2 first others HL).
  destruct (MCInstallGroup_getInstall self _) as [current|] eqn:Ec; [|now elim H2].
  exists current. split; [reflexivity|].
  unfold MCInstallGroup_getInstall in Ec. now apply find_some in Ec.
Qed.

End Construction.

(** The construction on [vanilla_env] from no settings. *)
Lemma MCInstallGroup_init_invariant_witness :
  exists current,
    MCInstallGroup_getInstall vanilla_group
      (Some (currentInstallOption
               (options (snd (MCInstallGroup_init vanilla_env
                                (fresh_process no_settings))))))
    = Some current
    /\ In current (_installations vanilla_group).
Proof.
  destruct (MCInstallGroup_init_invariant vanilla_env
              (fresh_process no_settings) vanilla_group
              (snd (MCInstallGroup_init vanilla_env (fresh_process no_settings)))
              eq_refl) as (_ & H & _).
  exact (H mc_install [] eq_refl).
Defined.

(** The default installation of [vanilla_env] is found and joins a
    group that was empty. *)
Lemma getDefaultInstall_outcome_witness :
  exists self',
    fst (MCInstallGroup_getDefaultInstall vanilla_env
           {| _installations := []; _mmcInstalls := [] |}
           (fresh_process no_settings))
    = Ok (Some mc_install, self')
    /\ _installations self' = [mc_install].
Proof.
  destruct (MCInstallGroup_getDefaultInstall vanilla_env
              {| _installations := []; _mmcInstalls := [] |}
              (fresh_process no_settings)) as [r st'] eqn:E.
  destruct (getDefaultInstall_outcome vanilla_env _ _ r st' E) as (H & _).
  destruct (H eq_refl) as (self' & -> & Hself & _). now exists self'.
Defined.

(** ** The reference version and the loaders *)

Lemma for_return_raised {A B} (xs : list A) (body : A -> Result (option B)) e :
  for_return xs body = Raise e -> exists x, In x xs /\ body x = Raise e.
Proof.
  induction xs as [|x xs IH]; simpl; [discriminate|].
  destruct (body x) as [[b|]|e'] eqn:E; simpl; intros H.
  - discriminate.
  - destruct (IH H) as (y & Hy & Hb). exists y. auto.
  - injection H as ->. exists x. auto.
Qed.

Section Loaders.
Variable env : Env.

Lemma scan_never_raises {A} (jar : A -> string) (versions : list A)
      (test : A -> bool) e :
  for_return versions (fun v =>
    if test v then
      if jarOkay env (jar v) then Ok (Some (jar v)) else Ok None
    else Ok None) <> Raise e.
Proof.
  intros H. apply for_return_raised in H as (v & _ & H).
  destruct (test v); [destruct (jarOkay env (jar v))|]; discriminate.
Qed.

(** X19: a path returned by [findVersion1_9] is the jar of a version
    listed by one of the installations or launcher configurations of the
    group, a version that passes [matchVersion], and the file passed the
    archive test.  The only exception [findVersion1_9] raises is the
    [OSError] of a versions folder that cannot be listed. *)
Theorem findVersion1_9_result_origin (allowSnapshots : bool)
        (self : MCInstallGroup) :
  (forall jarPath,
      MCInstallGroup_findVersion1_9 env allowSnapshots self = Ok (Some jarPath) ->
      is_zipfile env jarPath = true
      /\ exists v,
           truthy (matchVersion v) = true
           /\ ((exists install versions,
                   In install (_installations self)
                   /\ MCInstall_versions env allowSnapshots install = Ok versions
                   /\ In v versions
                   /\ jarPath = MCInstall_getVersionJarPath install v)
               \/ (exists mmcInstall versions,
                      In mmcInstall (_mmcInstalls self)
                      /\ MultiMCInstall_versions env mmcInstall = Ok versions
                      /\ In v versions
                      /\ jarPath = MultiMCInstall_getVersionJarPath mmcInstall v)))
  /\ (forall e,
        MCInstallGroup_findVersion1_9 env allowSnapshots self = Raise e ->
        exists dir, e = OSError dir /\ listdir env dir = None).
Proof.
  assert (Hscan : forall (jar : string -> string) (versions : list string) jarPath,
             for_return versions (fun v =>
               if truthy (matchVersion v) then
                 if jarOkay env (jar v) then Ok (Some (jar v)) else Ok None
               else Ok None) = Ok (Some jarPath) ->
             is_zipfile env jarPath = true
             /\ exists v, truthy (matchVersion v) = true /\ In v versions
                          /\ jarPath = jar v).
  { intros jar versions jarPath H. apply for_return_found in H as (v & Hin & H).
    destruct (truthy (matchVersion v)) eqn:Em; [|discriminate].
    unfold jarOkay in H. destruct (is_zipfile env (jar v)) eqn:E; [|discriminate].
    injection H as <-. eauto. }
  unfold MCInstallGroup_findVersion1_9, bindR, MCInstallGroup_installs,
    MCInstallGroup_mmcInstalls. split.
  - intros jarPath.
    destruct (for_return (_installations self) _) as [[found|]|e] eqn:E1;
      intros H; try discriminate.
    + injection H as ->. apply for_return_found in E1 as (install & Hi & E1).
      destruct (MCInstall_versions env allowSnapshots install) as [versions|]
        eqn:EV; [|discriminate].
      apply Hscan in E1 as (Hzip & v & Hm & Hv & ->).
      split; [exact Hzip|]. exists v. split; [exact Hm|]. left.
      exists install, versions. auto.
    + apply for_return_found in H as (mmcInstall & Hi & H).
      destruct (MultiMCInstall_versions env mmcInstall) as [versions|] eqn:EV;
        [|discriminate].
      apply (Hscan (MultiMCInstall_getVersionJarPath mmcInstall)) in H
        as (Hzip & v & Hm & Hv & ->).
      split; [exact Hzip|]. exists v. split; [exact Hm|]. right.
      exists mmcInstall, versions. auto.
  - intros e.
    destruct (for_return (_installations self) _) as [[found|]|e'] eqn:E1;
      intros H; try discriminate.
    + apply for_return_raised in H as (mmcInstall & _ & H).
      unfold MultiMCInstall_versions in H.
      destruct (listdir env (mmc_versionsDir mmcInstall)) eqn:EL.
      * now apply scan_never_raises in H.
      * injection H as <-. eauto.
    + injection H as <-. apply for_return_raised in E1 as (install & _ & H).
      unfold MCInstall_versions in H.
      destruct (listdir env (versionsDir install)) eqn:EL.
      * now apply scan_never_raises in H.
      * injection H as <-. eauto.
Qed.

(** X20: the conventional installations come first: the answer of
    [findVersion1_9] is the jar of the first version, in the order of the
    installations and of each listing, that passes [matchVersion] and the
    archive test, and then the launcher configurations are not looked at,
    not even listed. *)
Theorem findVersion1_9_conventional_first (allowSnapshots : bool)
        (self : MCInstallGroup) (before after : list MCInstall)
        (install : MCInstall) (skipped rest : list string) (v : string) :
  _installations self = (before ++ install :: after)%list ->
  (forall other, In other before ->
     exists versions,
       MCInstall_versions env allowSnapshots other = Ok versions
       /\ forall v', In v' versions ->
            truthy (matchVersion v')
            && is_zipfile env (MCInstall_getVersionJarPath other v') = false) ->
  MCInstall_versions env allowSnapshots install = Ok (skipped ++ v :: rest)%list ->
  (forall v', In v' skipped ->
     truthy (matchVersion v')
     && is_zipfile env (MCInstall_getVersionJarPath install v') = false) ->
  truthy (matchVersion v) = true ->
  is_zipfile env (MCInstall_getVersionJarPath install v) = true ->
  forall launchers,
    MCInstallGroup_findVersion1_9 env allowSnapshots
      {| _installations := _installations self; _mmcInstalls := launchers |}
    = Ok (Some (MCInstall_getVersionJarPath install v)).
Proof.
  intros Hlist Hbefore Hversions Hskipped Hmatch Hzip launchers.
  eapply findVersion1_9_first; eauto.
Qed.

(** X21: when every versions folder can be listed and no listed version
    passes [matchVersion] with a jar that is an archive, [findVersion1_9]
    returns [None] and does not raise. *)
Theorem findVersion1_9_none_without_candidate (allowSnapshots : bool)
        (self : MCInstallGroup) :
  (forall install, In install (_installations self) ->
     exists versions,
       MCInstall_versions env allowSnapshots install = Ok versions
       /\ forall v, In v versions ->
            truthy (matchVersion v)
            && is_zipfile env (MCInstall_getVersionJarPath install v) = false) ->
  (forall mmcInstall, In mmcInstall (_mmcInstalls self) ->
     exists versions,
       MultiMCInstall_versions env mmcInstall = Ok versions
       /\ forall v, In v versions ->
            truthy (matchVersion v)
            && is_zipfile env (MultiMCInstall_getVersionJarPath mmcInstall v) = false) ->
  MCInstallGroup_findVersion1_9 env allowSnapshots self = Ok None.
Proof. apply findVersion1_9_absent. Qed.

End Loaders.

(** On [vanilla_env] the answer is the jar of 1.9. *)
Lemma findVersion1_9_result_origin_witness :
  is_zipfile vanilla_env "/mc/versions/1.9/1.9.jar" = true.
Proof.
  destruct (findVersion1_9_result_origin vanilla_env false vanilla_group) as [H _].
  exact (proj1 (H "/mc/versions/1.9/1.9.jar" eq_refl)).
Defined.

(** Version 1.9 is the first listed on [vanilla_env]; a launcher
    configuration whose versions folder is not there does no harm. *)
Lemma findVersion1_9_conventional_first_witness :
  MCInstallGroup_findVersion1_9 vanilla_env false
    {| _installations := [mc_install]; _mmcInstalls := [mmcA] |}
  = Ok (Some "/mc/versions/1.9/1.9.jar").
Proof.
  apply (findVersion1_9_conventional_first vanilla_env false vanilla_group
           [] [] mc_install [] ["1.10"] "1.9").
  - reflexivity.
  - intros other [].
  - reflexivity.
  - intros v' [].
  - reflexivity.
  - reflexivity.
Defined.

(** No reference version on [stale_env]: three versions are listed by the
    installation and two by the launcher, and each one fails the release
    test or the archive test. *)
Lemma findVersion1_9_none_without_candidate_witness :
  MCInstall_versions stale_env false mc_install
  = Ok ["1.8.9"; "1.9-pre1"; "1.9.4"]
  /\ MultiMCInstall_versions stale_env stale_launcher = Ok ["1.7.10"; "1.10"]
  /\ MCInstallGroup_findVersion1_9 stale_env false stale_group = Ok None.
Proof.
  split; [reflexivity|]. split; [reflexivity|].
  apply findVersion1_9_none_without_candidate.
  - intros install [<-|[]]. exists ["1.8.9"; "1.9-pre1"; "1.9.4"].
    split; [reflexivity|].
    intros v [<-|[<-|[<-|[]]]]; reflexivity.
  - intros mmcInstall [<-|[]]. exists ["1.7.10"; "1.10"].
    split; [reflexivity|].
    intros v [<-|[<-|[]]]; reflexivity.
Defined.

Section LoaderEffects.
Variable env : Env.
Variable installGroup : MCInstallGroup.

Ltac grow_log :=
  cbn [options _installs log];
  split; [reflexivity|]; split; [reflexivity|];
  first [ exists []; now rewrite app_nil_r
        | rewrite <- ?app_assoc; eexists; reflexivity ].

(** X22: building a loader, for a conventional installation or for a
    launcher instance, reads the settings and the group but never changes
    them; it only adds records at the end of the log. *)
Theorem getResourceLoader_changes_nothing (st : State) :
  (forall self version resourcePack r st',
      MCInstall_getResourceLoader env installGroup self version resourcePack st
      = (r, st') ->
      options st' = options st /\ _installs st' = _installs st
      /\ exists added, log st' = (log st ++ added)%list)
  /\ (forall self resourcePack r st',
        MMCInstance_getResourceLoader env installGroup self resourcePack st
        = (r, st') ->
        options st' = options st /\ _installs st' = _installs st
        /\ exists added, log st' = (log st ++ added)%list).
Proof.
  split.
  - intros self version resourcePack r st'.
    unfold MCInstall_getResourceLoader. run_monad.
    destruct (MCInstallGroup_findVersion1_9 env _ installGroup) as [ref|e];
      [|intros H; injection H as <- <-; grow_log].
    destruct (splitVersion version) as [[major minor] rev].
    repeat match goal with
           | |- context [match ?x with _ => _ end] =>
               match x with
               | context [match _ with _ => _ end] => fail 1
               | _ => destruct x eqn:?
               end; cbn [fst snd options log _installs]
           end;
      intros H; injection H as <- <-; grow_log.
  - intros self resourcePack r st'.
    unfold MMCInstance_getResourceLoader. run_monad.
    destruct (MCInstallGroup_findVersion1_9 env _ installGroup) as [ref|e];
      [|intros H; injection H as <- <-; grow_log].
    destruct (splitVersion (version self)) as [[major minor] rev].
    repeat match goal with
           | |- context [match ?x with _ => _ end] =>
               match x with
               | context [match _ with _ => _ end] => fail 1
               | _ => destruct x eqn:?
               end; cbn [fst snd options log _installs]
           end;
      intros H; injection H as <- <-; grow_log.
Qed.

(** X23: when the jar of the requested version is not on disk and the
    installation lists no version, nothing is substituted: the missing jar
    is handed to the loader, and if it cannot be opened the call raises
    for that path and returns no loader. *)
Theorem MCInstall_getResourceLoader_no_jar_no_version
        (self : MCInstall) (version : string) (resourcePack : option string)
        (st : State) (r : option string) :
  MCInstallGroup_findVersion1_9 env (allowSnapshotsOption (options st)) installGroup
  = Ok r ->
  path_exists env (MCInstall_getVersionJarPath self version) = false ->
  MCInstall_versions env (allowSnapshotsOption (options st)) self = Ok [] ->
  zip_opens env (MCInstall_getVersionJarPath self version) = false ->
  fst (MCInstall_getResourceLoader env installGroup self version resourcePack st)
  = Raise (IOError (MCInstall_getVersionJarPath self version)).
Proof.
  intros Hr Hmissing Hversions Hbad.
  unfold MCInstall_getResourceLoader. run_monad. rewrite Hr.
  rewrite Hmissing, Hversions. cbn [negb length Nat.eqb].
  destruct (splitVersion version) as [[major minor] rev].
  destruct resourcePack as [pack|]; [destruct (str_nonempty pack)|].
  - unfold addZipFile at 1.
    destruct (zip_opens env (MCInstall_getResourcePackPath self pack));
      cbn [options log _installs]; unfold addZipFile at 1; now rewrite Hbad.
  - unfold addZipFile at 1. now rewrite Hbad.
  - unfold addZipFile at 1. now rewrite Hbad.
Qed.

End LoaderEffects.

(** Version 1.12 on the machine with an empty versions folder. *)
Lemma MCInstall_getResourceLoader_no_jar_no_version_witness :
  fst (MCInstall_getResourceLoader bare_env vanilla_group mc_install "1.12" None
         vanilla_state)
  = Raise (IOError "/mc/versions/1.12/1.12.jar").
Proof.
  exact (MCInstall_getResourceLoader_no_jar_no_version
           bare_env vanilla_group mc_install "1.12" None vanilla_state None
           eq_refl eq_refl eq_refl eq_refl).
Defined.

(** The example of version 1.10 with a pack on [vanilla_env]. *)
Lemma getResourceLoader_changes_nothing_witness :
  options (snd (MCInstall_getResourceLoader vanilla_env vanilla_group mc_install
                  "1.10" (Some "X.zip") vanilla_state))
  = options vanilla_state.
Proof.
  destruct (getResourceLoader_changes_nothing vanilla_env vanilla_group vanilla_state)
    as [H _].
  destruct (MCInstall_getResourceLoader vanilla_env vanilla_group mc_install
              "1.10" (Some "X.zip") vanilla_state) as [r st'] eqn:E.
  exact (proj1 (H mc_install "1.10" (Some "X.zip") r st' E)).
Defined.

Lemma bind_ok {A B} (m : M A) (k : A -> M B) (st st' : State) (a : A) :
  m st = (Ok a, st') -> bind m k st = k a st'.
Proof. intros H. unfold bind. now rewrite H. Qed.

Lemma bind_raised {A B} (m : M A) (k : A -> M B) (st st' : State) (e : exn) :
  m st = (Raise e, st') -> bind m k st = (Raise e, st').
Proof. intros H. unfold bind. now rewrite H. Qed.

Section SelectedLoader.
Variable env : Env.
Variable installs : MCInstallGroup.

Lemma MCInstall_getResourceLoader_same_snapshots
      (self : MCInstall) (version : string) (resourcePack : option string)
      (st st' : State) :
  allowSnapshotsOption (options st) = allowSnapshotsOption (options st') ->
  fst (MCInstall_getResourceLoader env installs self version resourcePack st)
  = fst (MCInstall_getResourceLoader env installs self version resourcePack st').
Proof.
  intros Hallow. unfold MCInstall_getResourceLoader. run_monad.
  rewrite Hallow.
  destruct (MCInstallGroup_findVersion1_9 env _ installs) as [r|e];
    [|reflexivity].
  destruct (splitVersion version) as [[major minor] rev].
  repeat match goal with
         | |- context [match ?x with _ => _ end] =>
             match x with
             | context [match _ with _ => _ end] => fail 1
             | _ => destruct x eqn:?
             end; cbn [fst snd options log _installs]
         end; try reflexivity.
Qed.

Lemma getCurrentInstall_cases (st : State) :
  exists r opts',
    MCInstallGroup_getCurrentInstall installs st
    = (Ok r, {| options := opts'; _installs := _installs st; log := log st |})
    /\ (forall st0, options st0 = options st ->
          MCInstallGroup_getCurrentInstall installs st0
          = (Ok r, {| options := opts'; _installs := _installs st0;
                      log := log st0 |}))
    /\ allowSnapshotsOption opts' = allowSnapshotsOption (options st)
    /\ currentVersionOption opts' = currentVersionOption (options st)
    /\ currentResourcePackOption opts' = currentResourcePackOption (options st)
    /\ (_installations installs = [] -> r = None /\ opts' = options st).
Proof.
  unfold MCInstallGroup_getCurrentInstall, MCInstallGroup_selectedInstallPath,
    bind, get_options, ret, modify_options. cbn beta zeta.
  destruct (existsb _ (_installations installs)) eqn:E.
  - exists (MCInstallGroup_getInstall installs
              (Some (currentInstallOption (options st)))), (options st).
    split; [now destruct st|].
    split.
    { intros [o i l] H. cbn [options] in *. subst o. rewrite E. reflexivity. }
    repeat split; try reflexivity; rewrite H in E; discriminate.
  - destruct (_installations installs) as [|first others] eqn:EL.
    + exists None, (options st). split; [now destruct st|].
      split.
      { intros [o i l] H. cbn [options] in *. subst o. rewrite E. reflexivity. }
      repeat split.
    + exists (MCInstallGroup_getInstall installs (Some (path first))),
        (set_currentInstallOption (path first) (options st)).
      split; [reflexivity|].
      split.
      { intros [o i l] H. cbn [options] in *. subst o. rewrite E. reflexivity. }
      repeat split; try reflexivity; discriminate.
Qed.

(** X24: with the group constructed, the selected loader is the loader
    of the current installation for the current-version option and the
    current-resource-pack option, an empty pack option meaning no pack.
    With no version selected it is built for the first version that
    installation lists, and the call raises [IndexError] when it lists
    none.  With no installation at all it is the default loader. *)
Theorem getSelectedResourceLoader_choice (st : State) :
  _installs st = Some installs ->
  (_installations installs = [] ->
   getSelectedResourceLoader env st
   = MCInstallGroup_getDefaultResourceLoader env installs st)
  /\ (forall install st1,
        MCInstallGroup_getCurrentInstall installs st = (Ok (Some install), st1) ->
        let pack := if str_nonempty (currentResourcePackOption (options st))
                    then Some (currentResourcePackOption (options st))
                    else None in
        (currentVersionOption (options st) <> "" ->
         getSelectedResourceLoader env st
         = MCInstall_getResourceLoader env installs install
             (currentVersionOption (options st)) pack st1)
        /\ (forall first others,
              currentVersionOption (options st) = "" ->
              MCInstall_versions env (allowSnapshotsOption (options st)) install
              = Ok (first :: others) ->
              getSelectedResourceLoader env st
              = MCInstall_getResourceLoader env installs install first pack st1)
        /\ (currentVersionOption (options st) = "" ->
            MCInstall_versions env (allowSnapshotsOption (options st)) install
            = Ok [] ->
            getSelectedResourceLoader env st = (Raise IndexError, st1))).
Proof.
  intros Hgroup.
  assert (Hget : forall st0, _installs st0 = Some installs ->
                 GetInstalls env st0 = (Ok installs, st0)).
  { intros st0 H0. unfold GetInstalls, bind, get__installs, ret. now rewrite H0. }
  destruct (getCurrentInstall_cases st)
    as (r & opts' & Ecur & _ & HA & HV & HP & Hnil).
  unfold getSelectedResourceLoader.
  rewrite (bind_ok _ _ _ _ _ (Hget st Hgroup)), (bind_ok _ _ _ _ _ Ecur).
  split.
  - intros Hempty. destruct (Hnil Hempty) as [-> ->].
    replace {| options := options st; _installs := _installs st;
               log := log st |} with st by now destruct st.
    now rewrite (bind_ok _ _ _ _ _ (Hget _ Hgroup)).
  - intros install st1 Hcur. rewrite Ecur in Hcur.
    injection Hcur as -> <-.
    unfold bind, get_options, liftR, ret, raise. cbn [options].
    rewrite HV, HA.
    destruct (currentVersionOption (options st)) as [|c v];
      cbn [str_nonempty negb].
    + split; [congruence|]. split.
      * intros first others _ Hversions. rewrite Hversions.
        cbn [options]. now rewrite HP.
      * intros _ Hversions. now rewrite Hversions.
    + split; [cbn [options]; now rewrite HP|].
      split; [intros ? ? H; discriminate H | intros H; discriminate H].
Qed.

(** What [getSelectedResourceLoader] returns does not depend on what
    was logged before. *)
Lemma getSelectedResourceLoader_log_irrelevant
      (st : State) (extra : list LogRecord) :
  _installs st = Some installs ->
  fst (getSelectedResourceLoader env
         {| options := options st; _installs := _installs st;
            log := log st ++ extra |})
  = fst (getSelectedResourceLoader env st).
Proof.
  intros Hgroup.
  assert (Hget : forall st0, _installs st0 = Some installs ->
                 GetInstalls env st0 = (Ok installs, st0)).
  { intros st0 H0. unfold GetInstalls, bind, get__installs, ret. now rewrite H0. }
  destruct (getCurrentInstall_cases st)
    as (r & opts' & Ecur & Hsame & HA & HV & HP & Hnil).
  set (st' := {| options := options st; _installs := _installs st;
                 log := log st ++ extra |}).
  assert (Hgroup' : _installs st' = Some installs) by exact Hgroup.
  unfold getSelectedResourceLoader.
  rewrite (bind_ok _ _ _ _ _ (Hget st Hgroup)), (bind_ok _ _ _ _ _ Ecur).
  rewrite (bind_ok _ _ _ _ _ (Hget st' Hgroup')).
  rewrite (bind_ok _ _ _ _ _ (Hsame st' eq_refl)).
  destruct r as [install|].
  - unfold bind, get_options, liftR, ret, raise. cbn [options].
    destruct (str_nonempty (currentVersionOption opts')); cbn [negb].
    + cbn [options]. now apply MCInstall_getResourceLoader_same_snapshots.
    + destruct (MCInstall_versions env _ install) as [[|first others]|e];
        try reflexivity.
      cbn [options]. now apply MCInstall_getResourceLoader_same_snapshots.
  - repeat match goal with
           | |- context [bind (GetInstalls env) ?k ?s] =>
               rewrite (bind_ok _ k s s installs (Hget s Hgroup))
           end.
    unfold MCInstallGroup_getDefaultResourceLoader. run_monad. cbn [options].
    destruct (MCInstallGroup_findVersion1_9 env _ installs) as [v18|e];
      [|reflexivity].
    destruct (addZipFile env _ v18); reflexivity.
Qed.

(** X25: when the group exists, the enumeration of the launcher instances
    runs to its end without a listing failure, and no instance it yields
    has a saves folder that is a prefix of the normalised file name,
    [getResourceLoaderForFilename] gives what the selected loader gives,
    an error included; the [mods] folder two levels above the world
    folder is added as a last layer exactly when it is a directory.  The
    world folder is the normalised file name itself when that is a
    directory, and its parent otherwise.  When the enumeration fails
    before it has yielded such an instance, the call raises that error
    and the selected loader is not asked. *)
Theorem getResourceLoaderForFilename_selected_fallback
        (st : State) (filename : string) :
  _installs st = Some installs ->
  (Forall (passed_over filename) (MCInstallGroup_instances env installs) ->
   let worldFolder := if path_isdir env (normpath filename)
                      then normpath filename
                      else dirname (normpath filename) in
   let modsFolder := join (dirname (dirname worldFolder)) "mods" in
   fst (getResourceLoaderForFilename env filename st)
   = match fst (getSelectedResourceLoader env st) with
     | Ok loader =>
         Ok (if path_isdir env modsFolder
             then addModsFolder loader modsFolder
             else loader)
     | Raise e => Raise e
     end)
  /\ (forall pre e post,
        MCInstallGroup_instances env installs = (pre ++ Throw e :: post)%list ->
        Forall (passed_over filename) pre ->
        fst (getResourceLoaderForFilename env filename st) = Raise e).
Proof.
  intros Hgroup.
  assert (Hget : GetInstalls env st = (Ok installs, st)).
  { unfold GetInstalls, bind, get__installs, ret. now rewrite Hgroup. }
  split.
  - intros Hpassed worldFolder modsFolder.
    unfold getResourceLoaderForFilename.
    rewrite (bind_ok _ _ _ _ _ Hget).
    unfold bind at 1.
    match goal with
    | |- context [for_gen _ ?body ?s] =>
        destruct (for_gen_passed_over filename body
                    (MCInstallGroup_instances env installs) [] s)
          as [extra E]
    end.
    + intros j st0 Hj. now rewrite Hj.
    + exact Hpassed.
    + rewrite app_nil_r in E. rewrite E. cbn [for_gen]. unfold ret at 1.
      unfold bind at 1.
      rewrite <- (getSelectedResourceLoader_log_irrelevant st extra Hgroup).
      destruct (getSelectedResourceLoader env _) as [[loader|e] st1];
        [|reflexivity].
      cbn [fst]. subst worldFolder modsFolder.
      destruct (path_isdir env (normpath filename)); cbn [negb];
        match goal with
        | |- context [if path_isdir env ?d then _ else _] =>
            destruct (path_isdir env d)
        end; reflexivity.
  - intros pre e post Hitems Hpassed.
    unfold getResourceLoaderForFilename.
    rewrite (bind_ok _ _ _ _ _ Hget).
    unfold bind at 1. rewrite Hitems.
    match goal with
    | |- context [for_gen _ ?body ?s] =>
        destruct (for_gen_passed_over filename body pre (Throw e :: post) s)
          as [extra E]
    end.
    + intros j st0 Hj. now rewrite Hj.
    + exact Hpassed.
    + rewrite E. reflexivity.
Qed.

End SelectedLoader.

Lemma getSelectedResourceLoader_choice_witness :
  getSelectedResourceLoader vanilla_env (select "/mc" "" "" vanilla_state)
  = MCInstall_getResourceLoader vanilla_env vanilla_group mc_install "1.9" None
      (select "/mc" "" "" vanilla_state).
Proof.
  destruct (getSelectedResourceLoader_choice vanilla_env vanilla_group
              (select "/mc" "" "" vanilla_state) eq_refl) as [_ H].
  destruct (H mc_install (select "/mc" "" "" vanilla_state) eq_refl)
    as (_ & Hfirst & _).
  exact (Hfirst "1.9" ["1.10"] eq_refl eq_refl).
Defined.

Lemma getResourceLoaderForFilename_selected_fallback_witness :
  fst (getResourceLoaderForFilename launcher_env "/elsewhere/saves/World/level.dat"
         launcher_state)
  = Ok {| fallbackZipFile := Some "/mmcA/versions/1.9/1.9.jar";
          layers := [ZipLayer "/mmcA/versions/1.9/1.9.jar"] |}
  /\ fst (getResourceLoaderForFilename modded_env "/mc/saves/World/level.dat"
            vanilla_state)
     = Ok {| fallbackZipFile := Some "/mc/versions/1.9/1.9.jar";
             layers := [ZipLayer "/mc/versions/1.10/1.10.jar";
                        ZipLayer "/mc/versions/1.9/1.9.jar";
                        ModsLayer "/mc/mods"] |}
  /\ fst (getResourceLoaderForFilename stale_env "/mc/saves/World/level.dat"
            {| options := no_settings; _installs := Some stale_group; log := [] |})
     = Raise (OSError "/mmc/instances").
Proof.
  split; [|split].
  - rewrite (proj1 (getResourceLoaderForFilename_selected_fallback
                      launcher_env launcher_group launcher_state
                      "/elsewhere/saves/World/level.dat" eq_refl)).
    + reflexivity.
    + repeat constructor.
  - rewrite (proj1 (getResourceLoaderForFilename_selected_fallback
                      modded_env vanilla_group vanilla_state
                      "/mc/saves/World/level.dat" eq_refl) (Forall_nil _)).
    reflexivity.
  - apply (proj2 (getResourceLoaderForFilename_selected_fallback
                    stale_env stale_group
                    {| options := no_settings; _installs := Some stale_group;
                       log := [] |}
                    "/mc/saves/World/level.dat" eq_refl)
             [] (OSError "/mmc/instances") []).
    + reflexivity.
    + constructor.
Defined.
